(** * VPN proxy server: connection lifecycle manager and request forwarder

    A shallow embedding of [src/vpnManager.js] (class [VPNManager]),
    [src/proxyHandler.js] (class [ProxyHandler]) and of the error
    middleware of [server.js].

    The JavaScript code is event driven.  Every callback the code registers
    (process exit, probe reply, timers) is embedded as a function on an
    explicit [World]: the manager object, the clock, the file system, the
    spawned processes and the callbacks that are still outstanding.  A
    continuation that runs in a microtask (the code after an [await] whose
    promise has just been settled) is run together with the callback that
    settled the promise, as the JavaScript event loop does. *)

From stdpp Require Import gmap strings list fin_maps pretty.
From Stdlib Require Import ZArith Lia Ascii.

Local Open Scope Z_scope.

(** ** JavaScript values and strings *)

(** The values that may sit in [req.query] and [req.body]. *)
Inductive jsval :=
| VUndefined
| VNull
| VBool (b : bool)
| VNum (n : Z)
| VStr (s : string)
| VObj (fields : list (string * string)).

(** JavaScript truthiness, as used by [!x] and [a || b]. *)
Definition truthy (v : jsval) : bool :=
  match v with
  | VUndefined | VNull => false
  | VBool b => b
  | VNum n => negb (Z.eqb n 0)
  | VStr s => negb (String.eqb s "")
  | VObj _ => true
  end.

(** [a || b] *)
Definition js_or (a b : jsval) : jsval := if truthy a then a else b.

(** A property read [o.k] on a plain object: a missing key is [undefined]. *)
Definition prop (o : gmap string jsval) (k : string) : jsval :=
  default VUndefined (o !! k).

(** [hay.includes(needle)] *)
Fixpoint includes (needle hay : string) : bool :=
  String.prefix needle hay ||
  match hay with
  | EmptyString => false
  | String _ rest => includes needle rest
  end.

(** Template-literal rendering of a number or [null]. *)
Definition show_Z (n : Z) : string := pretty n.

Definition show_code (code : option Z) : string :=
  match code with Some n => show_Z n | None => "null" end.

Definition show_signal (signal : option string) : string :=
  default "null" signal.

(** The result of a call: a returned value or a thrown [Error] (its message). *)
Inductive Completion (A : Type) :=
| Returned (a : A)
| Threw (message : string).
Arguments Returned {A} a.
Arguments Threw {A} message.

(** ** The logger *)

Inductive Level := LDebug | LInfo | LWarn | LError.

Record LogEntry := { level : Level; text : string; detail : option string }.

(** ** src/vpnManager.js: data *)

(** The four literals the code ever stores in [connectionStatus]. *)
Inductive Status := StConnected | StConnecting | StDisconnected | StError.

#[global] Instance Status_eq_dec : EqDecision Status.
Proof. solve_decision. Defined.

Definition status_string (s : Status) : string :=
  match s with
  | StConnected => "connected"
  | StConnecting => "connecting"
  | StDisconnected => "disconnected"
  | StError => "error"
  end.

(** An entry of [this.connections]: [{ process, protocol, startTime }].
    The child process is named by its handle, the index in [procs]. *)
Record Connection := {
  process : nat;
  protocol : string;
  startTime : Z }.

(** The fields of a [VPNManager] object. *)
Record VPNManager := {
  connections : gmap string Connection;
  connectionStatus : gmap string Status;
  reconnectAttempts : gmap string Z;
  maxReconnectAttempts : Z;
  reconnectDelay : Z }.

(** [constructor()] *)
Definition newVPNManager : VPNManager :=
  {| connections := ∅;
     connectionStatus := ∅;
     reconnectAttempts := ∅;
     maxReconnectAttempts := 3;
     reconnectDelay := 5000 |}.

(** [isConnected(connectionId)] *)
Definition isConnected (m : VPNManager) (connectionId : string) : bool :=
  bool_decide (connectionStatus m !! connectionId = Some StConnected).

(** [getStatus(connectionId)]: [get(id) || 'disconnected']. *)
Definition getStatus (m : VPNManager) (connectionId : string) : Status :=
  default StDisconnected (connectionStatus m !! connectionId).

(** ** The world around the manager *)

(** Who awaits a [startVPN] call: a caller outside the manager (the
    [/vpn/start] route, the auto-start timer of [server.js]) or the timer
    callback of [attemptReconnect], which captured [attempts]. *)
Inductive Caller := External | Reconnecting (attempts : Z).

#[global] Instance Caller_eq_dec : EqDecision Caller.
Proof. solve_decision. Defined.

(** The closure of one [waitForConnection] promise: [connectionId],
    [timeout], the local [startTime], and who awaits it. *)
Record Waiter := {
  w_conn : string;
  w_start : Z;
  w_timeout : Z;
  w_caller : Caller }.

#[global] Instance Waiter_eq_dec : EqDecision Waiter.
Proof. solve_decision. Defined.

(** Callbacks that are outstanding: the reply of [exec('ip route | grep tun')]
    and the three [setTimeout] timers, each with the time it is due. *)
Inductive Task :=
| ProbeReply (w : Waiter)
| PollTimer (due : Z) (w : Waiter)
| ReconnectTimer (due : Z) (connectionId protocol : string) (attempts : Z)
| KillTimer (due : Z) (connectionId : string) (pid : nat).

#[global] Instance Task_eq_dec : EqDecision Task.
Proof. solve_decision. Defined.

(** A child process started by [spawn('openvpn', args)]; the exit and error
    handlers registered on it captured [connectionId] and [protocol]. *)
Record Proc := {
  p_conn : string;
  p_proto : string;
  p_args : list string;
  p_alive : bool;
  p_signals : list string }.

(** A settled [startVPN] promise. *)
Record Outcome := {
  o_conn : string;
  o_caller : Caller;
  o_result : Completion bool }.

Record World := {
  mgr : VPNManager;
  clock : Z;                 (* Date.now() *)
  files : gset string;       (* the paths for which fs.existsSync is true *)
  procs : list Proc;         (* every process spawned so far *)
  pending : list Task;
  outcomes : list Outcome;
  logs : list LogEntry }.

Definition with_mgr (f : VPNManager → VPNManager) (W : World) : World :=
  {| mgr := f (mgr W); clock := clock W; files := files W; procs := procs W;
     pending := pending W; outcomes := outcomes W; logs := logs W |}.

Definition with_procs (f : list Proc → list Proc) (W : World) : World :=
  {| mgr := mgr W; clock := clock W; files := files W; procs := f (procs W);
     pending := pending W; outcomes := outcomes W; logs := logs W |}.

Definition with_pending (f : list Task → list Task) (W : World) : World :=
  {| mgr := mgr W; clock := clock W; files := files W; procs := procs W;
     pending := f (pending W); outcomes := outcomes W; logs := logs W |}.

Definition with_clock (f : Z → Z) (W : World) : World :=
  {| mgr := mgr W; clock := f (clock W); files := files W; procs := procs W;
     pending := pending W; outcomes := outcomes W; logs := logs W |}.

Definition record_outcome (o : Outcome) (W : World) : World :=
  {| mgr := mgr W; clock := clock W; files := files W; procs := procs W;
     pending := pending W; outcomes := outcomes W ++ [o]; logs := logs W |}.

Definition log2 (l : Level) (t : string) (d : option string) (W : World) : World :=
  {| mgr := mgr W; clock := clock W; files := files W; procs := procs W;
     pending := pending W; outcomes := outcomes W;
     logs := logs W ++ [{| level := l; text := t; detail := d |}] |}.

Definition log (l : Level) (t : string) : World → World := log2 l t None.

(** [this.connectionStatus.set(id, s)] *)
Definition setStatus (id : string) (s : Status) : World → World :=
  with_mgr (λ m,
    {| connections := connections m;
       connectionStatus := <[id := s]> (connectionStatus m);
       reconnectAttempts := reconnectAttempts m;
       maxReconnectAttempts := maxReconnectAttempts m;
       reconnectDelay := reconnectDelay m |}).

(** [this.connections.set(id, c)] and [this.connections.delete(id)] *)
Definition setConnection (id : string) (c : Connection) : World → World :=
  with_mgr (λ m,
    {| connections := <[id := c]> (connections m);
       connectionStatus := connectionStatus m;
       reconnectAttempts := reconnectAttempts m;
       maxReconnectAttempts := maxReconnectAttempts m;
       reconnectDelay := reconnectDelay m |}).

Definition deleteConnection (id : string) : World → World :=
  with_mgr (λ m,
    {| connections := delete id (connections m);
       connectionStatus := connectionStatus m;
       reconnectAttempts := reconnectAttempts m;
       maxReconnectAttempts := maxReconnectAttempts m;
       reconnectDelay := reconnectDelay m |}).

(** [this.reconnectAttempts.set(id, n)] and [this.reconnectAttempts.delete(id)] *)
Definition setAttempts (id : string) (n : Z) : World → World :=
  with_mgr (λ m,
    {| connections := connections m;
       connectionStatus := connectionStatus m;
       reconnectAttempts := <[id := n]> (reconnectAttempts m);
       maxReconnectAttempts := maxReconnectAttempts m;
       reconnectDelay := reconnectDelay m |}).

Definition deleteAttempts (id : string) : World → World :=
  with_mgr (λ m,
    {| connections := connections m;
       connectionStatus := connectionStatus m;
       reconnectAttempts := delete id (reconnectAttempts m);
       maxReconnectAttempts := maxReconnectAttempts m;
       reconnectDelay := reconnectDelay m |}).

(** [setTimeout(cb, delay)] and [exec(cmd, cb)]: one more outstanding callback. *)
Definition schedule (t : Task) : World → World := with_pending (cons t).

(** [child.kill(sig)]: the signal is sent; when the process exits is up to it. *)
Definition kill (pid : nat) (sig : string) : World → World :=
  with_procs (alter (λ p,
    {| p_conn := p_conn p; p_proto := p_proto p; p_args := p_args p;
       p_alive := p_alive p; p_signals := p_signals p ++ [sig] |}) pid).

Definition mark_exited (pid : nat) : World → World :=
  with_procs (alter (λ p,
    {| p_conn := p_conn p; p_proto := p_proto p; p_args := p_args p;
       p_alive := false; p_signals := p_signals p |}) pid).

(** [fs.existsSync(path)] *)
Definition existsSync (path : string) (W : World) : bool :=
  bool_decide (path ∈ files W).

(** Paths are written relative to the project root:
    [path.join(__dirname, '..', 'config', f)] is ["config/" ++ f]. *)
Definition configFile (protocol : string) : string :=
  if decide (protocol = "tcp") then "vpn-tcp.ovpn" else "vpn-udp.ovpn".

Definition configPath (protocol : string) : string :=
  "config/" +:+ configFile protocol.

Definition authPath : string := "config/auth.txt".

(** The messages of the errors the manager throws. *)
Definition configMissingMessage (protocol : string) : string :=
  "VPN config file not found: " +:+ configPath protocol.

Definition authMissingMessage : string :=
  "Auth file not found: " +:+ authPath.

Definition timeoutMessage (connectionId : string) : string :=
  "VPN connection " +:+ connectionId +:+ " timeout".

(** ** src/vpnManager.js: operations *)

(** What the awaiting caller does when the [startVPN] promise settles.  The
    timer callback of [attemptReconnect] deletes the attempt counter after a
    successful start and logs a failed one; it never rethrows. *)
Definition settle (connectionId : string) (c : Caller) (r : Completion bool)
    (W : World) : World :=
  let W := record_outcome {| o_conn := connectionId; o_caller := c; o_result := r |} W in
  match c, r with
  | External, _ => W
  | Reconnecting _, Returned _ => deleteAttempts connectionId W
  | Reconnecting attempts, Threw m =>
      log2 LError ("Reconnection attempt " +:+ show_Z (attempts + 1) +:+
                   " failed for VPN " +:+ connectionId +:+ ":") (Some m) W
  end.

(** [startVPN], after [await this.waitForConnection(...)] resolved. *)
Definition startVPN_established (w : Waiter) (W : World) : World :=
  let W := log LInfo ("VPN connection " +:+ w_conn w +:+ " established successfully") W in
  settle (w_conn w) (w_caller w) (Returned true) W.

(** [startVPN], the [catch (error)] block, for the start awaited by [c]. *)
Definition startVPN_catch (connectionId : string) (c : Caller) (message : string)
    (W : World) : World :=
  let W := log2 LError ("Failed to start VPN connection " +:+ connectionId +:+ ":")
                (Some message) W in
  let W := setStatus connectionId StError W in
  settle connectionId c (Threw message) W.

Definition checkInterval : Z := 1000.

(** [checkConnection] inside [waitForConnection]: past the deadline the
    promise is rejected, otherwise one probe [exec('ip route | grep tun')] is
    issued.  ([exec] reports a failure of the command through its callback.
    Should [exec] itself throw, the [catch] sets the timer that a reply
    without a route sets: that case is the event [ProbeDone] with an empty
    [stdout], arriving at once.) *)
Definition checkConnection (w : Waiter) (W : World) : World :=
  if (w_timeout w <? clock W - w_start w)%Z then
    let W := setStatus (w_conn w) StError W in
    startVPN_catch (w_conn w) (w_caller w) (timeoutMessage (w_conn w)) W
  else
    schedule (ProbeReply w) W.

(** The callback of [exec]: [(error, stdout) => ...]. *)
Definition probeCallback (w : Waiter) (stdout : string) (W : World) : World :=
  if negb (String.eqb stdout "") && includes "tun" stdout then
    let W := setStatus (w_conn w) StConnected W in
    startVPN_established w W
  else
    schedule (PollTimer (clock W + checkInterval) w) W.

(** [waitForConnection(connectionId, timeout = 30000)] up to its first
    suspension. *)
Definition waitForConnection (connectionId : string) (timeout : Z) (c : Caller)
    (W : World) : World :=
  let W := setStatus connectionId StConnecting W in
  checkConnection
    {| w_conn := connectionId; w_start := clock W; w_timeout := timeout; w_caller := c |} W.

Definition defaultTimeout : Z := 30000.

Definition spawnArgs (connectionId protocol : string) : list string :=
  [ "--config"; configPath protocol;
    "--daemon";
    "--log"; "logs/vpn-" +:+ connectionId +:+ ".log";
    "--writepid"; "logs/vpn-" +:+ connectionId +:+ ".pid" ].

(** [spawn('openvpn', args, { stdio: 'pipe' })] and the four [on] handlers. *)
Definition spawn (connectionId protocol : string) (W : World) : World :=
  with_procs (λ ps, ps ++ [{| p_conn := connectionId; p_proto := protocol;
                               p_args := spawnArgs connectionId protocol;
                               p_alive := true; p_signals := [] |}]) W.

(** What the call [spawn('openvpn', ...)] does, which is for the operating
    system to decide: it returns a child process, or it throws at once (an
    argument with a NUL byte, an argument list that is too long, no memory).
    A failure that is reported later comes as the ['error'] event instead. *)
Inductive SpawnResult :=
| Spawned
| SpawnThrew (message : string).

(** [startVPN(connectionId, protocol)] up to its first suspension; [r] is
    what [spawn] does if the call gets to it.  When [spawn] throws, the
    [catch] block runs with nothing spawned and nothing tracked. *)
Definition startVPN (connectionId protocol : string) (c : Caller) (r : SpawnResult)
    (W : World) : World :=
  if isConnected (mgr W) connectionId then
    let W := log LInfo ("VPN connection " +:+ connectionId +:+ " is already active") W in
    settle connectionId c (Returned true) W
  else if negb (existsSync (configPath protocol) W) then
    settle connectionId c (Threw (configMissingMessage protocol)) W
  else if negb (existsSync authPath W) then
    settle connectionId c (Threw authMissingMessage) W
  else
    let W := log LInfo ("Starting VPN connection " +:+ connectionId +:+
                        " with protocol " +:+ protocol) W in
    match r with
    | SpawnThrew message => startVPN_catch connectionId c message W
    | Spawned =>
        let pid := length (procs W) in
        let W := spawn connectionId protocol W in
        let W := setConnection connectionId
                   {| process := pid; protocol := protocol; startTime := clock W |} W in
        waitForConnection connectionId defaultTimeout c W
    end.

(** [attemptReconnect(connectionId, protocol)] *)
Definition attemptReconnect (connectionId protocol : string) (W : World) : World :=
  let attempts := default 0%Z (reconnectAttempts (mgr W) !! connectionId) in
  if (maxReconnectAttempts (mgr W) <=? attempts)%Z then
    log LError ("Max reconnection attempts reached for VPN " +:+ connectionId) W
  else
    let W := setAttempts connectionId (attempts + 1) W in
    let W := log LInfo ("Attempting to reconnect VPN " +:+ connectionId +:+
                        " (attempt " +:+ show_Z (attempts + 1) +:+ ")") W in
    schedule (ReconnectTimer (clock W + reconnectDelay (mgr W))
                connectionId protocol attempts) W.

(** [code !== 0 && !signal] *)
Definition unintentional (code : option Z) (signal : option string) : bool :=
  negb (bool_decide (code = Some 0%Z)) &&
  negb (match signal with Some s => negb (String.eqb s "") | None => false end).

(** [vpnProcess.on('exit', (code, signal) => ...)]: the handler registered on
    the process [pid], a closure over [connectionId] and [protocol]. *)
Definition exitHandler (connectionId protocol : string) (pid : nat)
    (code : option Z) (signal : option string) (W : World) : World :=
  let W := log LInfo ("VPN " +:+ connectionId +:+ " process exited with code " +:+
                      show_code code +:+ ", signal " +:+ show_signal signal) W in
  let W := mark_exited pid W in
  let W := setStatus connectionId StDisconnected W in
  let W := deleteConnection connectionId W in
  if unintentional code signal then attemptReconnect connectionId protocol W
  else W.

(** The process [pid] exits: its handler runs. *)
Definition onExit (pid : nat) (code : option Z) (signal : option string)
    (W : World) : World :=
  match procs W !! pid with
  | None => W
  | Some p => exitHandler (p_conn p) (p_proto p) pid code signal W
  end.

(** [vpnProcess.on('error', (error) => ...)] *)
Definition onError (pid : nat) (message : string) (W : World) : World :=
  match procs W !! pid with
  | None => W
  | Some p =>
      let W := log2 LError ("VPN " +:+ p_conn p +:+ " process error:") (Some message) W in
      setStatus (p_conn p) StError W
  end.

(** [vpnProcess.stdout.on('data', ...)] and [vpnProcess.stderr.on('data', ...)] *)
Definition onStdout (pid : nat) (data : string) (W : World) : World :=
  match procs W !! pid with
  | None => W
  | Some p => log LDebug ("VPN " +:+ p_conn p +:+ " stdout: " +:+ data) W
  end.

Definition onStderr (pid : nat) (data : string) (W : World) : World :=
  match procs W !! pid with
  | None => W
  | Some p => log LError ("VPN " +:+ p_conn p +:+ " stderr: " +:+ data) W
  end.

Definition killGrace : Z := 5000.

(** [stopVPN(connectionId)]; the promise it returns is always fulfilled. *)
Definition stopVPN (connectionId : string) (W : World) : World * Completion unit :=
  match connections (mgr W) !! connectionId with
  | None =>
      (log LWarn ("No VPN connection found for " +:+ connectionId) W, Returned ())
  | Some connection =>
      let W := log LInfo ("Stopping VPN connection " +:+ connectionId) W in
      let W := kill (process connection) "SIGTERM" W in
      let W := schedule (KillTimer (clock W + killGrace) connectionId
                           (process connection)) W in
      let W := deleteConnection connectionId W in
      let W := setStatus connectionId StDisconnected W in
      let W := deleteAttempts connectionId W in
      (W, Returned ())
  end.

(** The timer callback of [stopVPN]. *)
Definition killCallback (connectionId : string) (pid : nat) (W : World) : World :=
  if bool_decide (is_Some (connections (mgr W) !! connectionId)) then kill pid "SIGKILL" W
  else W.

(** The timer callback of [attemptReconnect]. *)
Definition reconnectCallback (connectionId protocol : string) (attempts : Z)
    (r : SpawnResult) (W : World) : World :=
  startVPN connectionId protocol (Reconnecting attempts) r W.

(** [shutdown()]: [stopVPN] for every key of [connections]. *)
Definition shutdown (W : World) : World :=
  foldl (λ W id, fst (stopVPN id W)) W (map fst (map_to_list (connections (mgr W)))).

(** ** The event loop *)

(** What can happen next: time passes, an API call arrives, an outstanding
    callback is run, a child process reports something, or the wall clock is
    set.  Where a step gets to [spawn], the event says what [spawn] does:
    with [CallStart] and [Fire] of a reconnect timer it returns a child,
    with [CallStartThrows] and [ReconnectThrows] it throws. *)
Inductive Event :=
| Tick (dt : Z)
| CallStart (connectionId protocol : string)
| CallStop (connectionId : string)
| ProbeDone (w : Waiter) (stdout : string)
| Fire (t : Task)
| ProcExit (pid : nat) (code : option Z) (signal : option string)
| ProcError (pid : nat) (message : string)
| ProcStdout (pid : nat) (data : string)
| ProcStderr (pid : nat) (data : string)
| CallStartThrows (connectionId protocol message : string)
| ReconnectThrows (due : Z) (connectionId protocol : string) (attempts : Z)
    (message : string)
| ClockStep (dz : Z).

(** Timers run on the event loop's own time, which only goes forward.  A
    timer's [due] is kept as the reading [Date.now()] will show when it is
    due, so setting the wall clock by [dz] moves every [due] along; the time
    stamps the code took with [Date.now()] stay as they are. *)
Definition shiftTask (dz : Z) (t : Task) : Task :=
  match t with
  | ProbeReply w => ProbeReply w
  | PollTimer due w => PollTimer (due + dz) w
  | ReconnectTimer due id proto attempts => ReconnectTimer (due + dz) id proto attempts
  | KillTimer due id pid => KillTimer (due + dz) id pid
  end.

(** Removes the first occurrence of a callback from the outstanding ones. *)
Fixpoint take_task (t : Task) (l : list Task) : option (list Task) :=
  match l with
  | [] => None
  | x :: l' => if decide (x = t) then Some l' else cons x <$> take_task t l'
  end.

Definition claim_task (t : Task) (W : World) : option World :=
  l ← take_task t (pending W); Some (with_pending (λ _, l) W).

Definition is_alive (pid : nat) (W : World) : bool :=
  match procs W !! pid with Some p => p_alive p | None => false end.

(** One step; [None] when the event cannot happen in this world (a timer
    that is not due or not set, a process that does not run).  [Tick dt] is
    [dt] ms passing, [ClockStep dz] the wall clock being set forward or back
    by [dz] with no time passing. *)
Definition step (e : Event) (W : World) : option World :=
  match e with
  | Tick dt => if (0 <=? dt)%Z then Some (with_clock (λ t, t + dt) W) else None
  | ClockStep dz =>
      Some (with_pending (fmap (shiftTask dz)) (with_clock (λ t, t + dz) W))
  | CallStart id proto => Some (startVPN id proto External Spawned W)
  | CallStartThrows id proto m => Some (startVPN id proto External (SpawnThrew m) W)
  | ReconnectThrows due id proto attempts m =>
      if (due <=? clock W)%Z
      then reconnectCallback id proto attempts (SpawnThrew m)
             <$> claim_task (ReconnectTimer due id proto attempts) W
      else None
  | CallStop id => Some (fst (stopVPN id W))
  | ProbeDone w stdout => probeCallback w stdout <$> claim_task (ProbeReply w) W
  | Fire (ProbeReply _) => None
  | Fire (PollTimer due w as t) =>
      if (due <=? clock W)%Z then checkConnection w <$> claim_task t W else None
  | Fire (ReconnectTimer due id proto attempts as t) =>
      if (due <=? clock W)%Z
      then reconnectCallback id proto attempts Spawned <$> claim_task t W
      else None
  | Fire (KillTimer due id pid as t) =>
      if (due <=? clock W)%Z then killCallback id pid <$> claim_task t W else None
  | ProcExit pid code signal =>
      if is_alive pid W then Some (onExit pid code signal W) else None
  | ProcError pid m => if is_alive pid W then Some (onError pid m W) else None
  | ProcStdout pid d => if is_alive pid W then Some (onStdout pid d W) else None
  | ProcStderr pid d => if is_alive pid W then Some (onStderr pid d W) else None
  end.

Fixpoint run (es : list Event) (W : World) : option World :=
  match es with
  | [] => Some W
  | e :: es' => W' ← step e W; run es' W'
  end.

(** The server right after [new VPNManager()], with the given files on disk. *)
Definition boot (fs : gset string) : World :=
  {| mgr := newVPNManager; clock := 0; files := fs; procs := [];
     pending := []; outcomes := []; logs := [] |}.

Definition configured : gset string :=
  {[ "config/vpn-tcp.ovpn"; "config/vpn-udp.ovpn"; "config/auth.txt" ]}.

(** The number of external tunnel processes spawned so far. *)
Definition spawned (W : World) : nat := length (procs W).

(** ** src/proxyHandler.js *)

(** [process.env], with the numeric variables as [parseInt] reads them
    ([None] is [NaN] or an unset variable). *)
Record Env := {
  NODE_ENV : option string;
  REQUEST_TIMEOUT : option Z;
  MAX_RETRIES : option Z }.

(** [parseInt(v) || d]: [NaN] and [0] are falsy. *)
Definition or_default (parsed : option Z) (d : Z) : Z :=
  match parsed with
  | Some n => if Z.eqb n 0 then d else n
  | None => d
  end.

Record ProxyHandler := { timeout : Z; maxRetries : Z }.

(** [constructor(vpnManager)]; the manager itself lives in the [World]. *)
Definition newProxyHandler (env : Env) : ProxyHandler :=
  {| timeout := or_default (REQUEST_TIMEOUT env) 30000;
     maxRetries := or_default (MAX_RETRIES env) 3 |}.

(** [{ method, url, headers, params, data }] *)
Record RequestConfig := {
  rc_method : string;
  rc_url : jsval;
  rc_headers : gmap string string;
  rc_params : gmap string jsval;
  rc_data : gmap string jsval }.

(** [{ timeout: this.timeout, validateStatus: () => true, ...requestConfig }] *)
Record AxiosConfig := {
  ax_timeout : Z;
  ax_anyStatusValid : bool;
  ax_request : RequestConfig }.

(** An axios response, and what [handleRequest] returns from it. *)
Record Response := {
  status : Z;
  statusText : string;
  headers : list (string * string);
  data : jsval }.

(** What the forwarder does to the outside, in order. *)
Inductive Effect :=
| NetCall (config : AxiosConfig)
| Sleep (ms : Z).

(** The environment of one attempt: what [await axios(config)] gives (a
    response, or the message of the transport error it throws) and what else
    happens in the world while the forwarder is suspended since the previous
    attempt (process exits, probes, other requests). *)
Record Round := {
  reply : Response + string;
  meanwhile : World → World }.

Definition Transport := Z → Round.

(** The message of the [TypeError] of [lastError.message] when no attempt
    was made. *)
Definition undefinedMessage : string :=
  "Cannot read properties of undefined (reading 'message')".

Definition inactiveMessage (connectionId : string) : string :=
  "VPN connection " +:+ connectionId +:+ " is not active".

Definition exhaustedMessage (retries : Z) (last : string) : string :=
  "Request failed after " +:+ show_Z retries +:+ " attempts: " +:+ last.

Section Forwarder.

Variable self : ProxyHandler.
Variable connectionId : string.

(** The [throw] after the loop. *)
Definition afterLoop (lastError : option string) : Completion Response :=
  match lastError with
  | Some m => Threw (exhaustedMessage (maxRetries self) m)
  | None => Threw undefinedMessage
  end.

(** The [for] loop of [handleRequest] from [attempt] on; [left] is the
    number of iterations for which [attempt <= this.maxRetries] still
    holds, [maxRetries - attempt + 1]. *)
Fixpoint attemptLoop (net : Transport) (config : AxiosConfig) (left : nat)
    (attempt : Z) (lastError : option string) (W : World)
    : Completion Response * list Effect * World :=
  match left with
  | O => (afterLoop lastError, [], W)
  | S left' =>
      let W := log LDebug ("Making request through VPN " +:+ connectionId +:+
                           " (attempt " +:+ show_Z attempt +:+ ")") W in
      let W := meanwhile (net attempt) W in
      match reply (net attempt) with
      | inl response =>
          let W := log LInfo ("Request successful through VPN " +:+ connectionId +:+
                              ": " +:+ show_Z (status response) +:+ " " +:+
                              statusText response) W in
          (Returned response, [NetCall config], W)
      | inr message =>
          let W := log2 LWarn ("Request attempt " +:+ show_Z attempt +:+
                               " failed through VPN " +:+ connectionId +:+ ":")
                        (Some message) W in
          if negb (isConnected (mgr W) connectionId) then
            let W := log LWarn ("VPN connection " +:+ connectionId +:+
                                " dropped during request") W in
            (afterLoop (Some message), [NetCall config], W)
          else
            let pause := if (attempt <? maxRetries self)%Z
                         then [Sleep (1000 * attempt)] else [] in
            let '(r, effects, W) :=
              attemptLoop net config left' (attempt + 1) (Some message) W in
            (r, NetCall config :: pause ++ effects, W)
      end
  end.

(** [handleRequest(connectionId, requestConfig)] *)
Definition handleRequest (requestConfig : RequestConfig) (net : Transport)
    (W : World) : Completion Response * list Effect * World :=
  if negb (isConnected (mgr W) connectionId) then
    (Threw (inactiveMessage connectionId), [], W)
  else
    let config := {| ax_timeout := timeout self; ax_anyStatusValid := true;
                     ax_request := requestConfig |} in
    attemptLoop net config (Z.to_nat (maxRetries self)) 1 None W.

End Forwarder.

(** ** The express layer *)

(** The parts of an express request the middleware reads.  Node lower-cases
    header names; the body parsers of express 4 leave [req.body] an object
    (the server's ['*'] route is express 4 syntax). *)
Record Request := {
  req_method : string;
  req_headers : gmap string string;
  req_query : gmap string jsval;
  req_body : gmap string jsval }.

Inductive json :=
| JStr (s : string)
| JNum (n : Z)
| JBool (b : bool)
| JVal (v : jsval)
| JResponse (r : Response).

(** What was sent with [res.status(c)], [res.set(k, v)] and [res.json(o)]. *)
Record HttpReply := {
  code : Z;
  headersSet : list (string * string);
  payload : list (string * json) }.

Definition lower_ascii (c : ascii) : ascii :=
  let n := nat_of_ascii c in
  if (65 <=? n)%nat && (n <=? 90)%nat then ascii_of_nat (n + 32) else c.

(** [s.toLowerCase()] on ASCII. *)
Fixpoint toLowerCase (s : string) : string :=
  match s with
  | EmptyString => EmptyString
  | String c s' => String (lower_ascii c) (toLowerCase s')
  end.

Definition hopHeaders : list string := ["transfer-encoding"; "connection"; "keep-alive"].

Definition relayedHeaders (h : list (string * string)) : list (string * string) :=
  filter (λ kv, negb (bool_decide (toLowerCase (fst kv) ∈ hopHeaders))) h.

Definition targetRequired : HttpReply :=
  {| code := 400; headersSet := [];
     payload := [("error", JStr "Target URL is required");
                 ("usage", JStr "Provide URL in query parameter: ?url=https://example.com")] |}.

Definition invalidUrl : HttpReply :=
  {| code := 400; headersSet := [];
     payload := [("error", JStr "Invalid URL format")] |}.

Definition forwarded (connectionId : string) (response : Response) : HttpReply :=
  {| code := status response;
     headersSet := relayedHeaders (headers response);
     payload := [("success", JBool true);
                 ("vpnConnection", JStr connectionId);
                 ("response", JResponse {| status := status response;
                                            statusText := statusText response;
                                            headers := headers response;
                                            data := data response |})] |}.

Definition proxyFailed (connectionId message : string) (vpnStatus : Status) : HttpReply :=
  {| code := 500; headersSet := [];
     payload := [("error", JStr "Proxy request failed");
                 ("message", JStr message);
                 ("vpnConnection", JStr connectionId);
                 ("vpnStatus", JStr (status_string vpnStatus))] |}.

(** The request configuration the middleware prepares: the three [delete]s
    after the object literal. *)
Definition prepare (req : Request) (targetUrl : jsval) : RequestConfig :=
  {| rc_method := req_method req;
     rc_url := targetUrl;
     rc_headers := delete "content-length" (delete "host" (req_headers req));
     rc_params := delete "url" (req_query req);
     rc_data := req_body req |}.

Section Express.

(** [new URL(targetUrl)] does not throw. *)
Variable validURL : jsval → bool.

(** [createMiddleware(connectionId)], the function it returns. *)
Definition createMiddleware (self : ProxyHandler) (connectionId : string)
    (req : Request) (net : Transport) (W : World)
    : HttpReply * list Effect * World :=
  let targetUrl := js_or (prop (req_query req) "url") (prop (req_body req) "url") in
  if negb (truthy targetUrl) then (targetRequired, [], W)
  else if negb (validURL targetUrl) then (invalidUrl, [], W)
  else
    match handleRequest self connectionId (prepare req targetUrl) net W with
    | (Returned response, effects, W) => (forwarded connectionId response, effects, W)
    | (Threw message, effects, W) =>
        let W := log2 LError ("Proxy request failed for VPN " +:+ connectionId +:+ ":")
                      (Some message) W in
        (proxyFailed connectionId message (getStatus (mgr W) connectionId), effects, W)
    end.

(** A proxy endpoint of [server.js]:
    [app.all(endpointPath, proxyHandler.createMiddleware(connectionId))],
    with the handler built from the environment at start-up. *)
Definition proxyEndpoint (env : Env) (connectionId : string)
    (req : Request) (net : Transport) (W : World)
    : HttpReply * list Effect * World :=
  createMiddleware (newProxyHandler env) connectionId req net W.

End Express.

(** The error handling middleware of [server.js], [(error, req, res, next)],
    reached only by errors that a route passes on. *)
Definition errorMiddleware (env : Env) (message : string) : HttpReply :=
  {| code := 500; headersSet := [];
     payload := [("error", JStr "Internal server error");
                 ("message", JStr (if decide (NODE_ENV env = Some "development")
                                   then message else "Something went wrong"))] |}.

(** ** Vocabulary of the statements *)

(** The schedule the forwarder is specified to follow from [attempt] on when
    [left] attempts fail one after the other: a call, then a pause of
    [attempt] seconds before each further call. *)
Fixpoint backoff (config : AxiosConfig) (attempt : Z) (left : nat) : list Effect :=
  match left with
  | O => []
  | S O => [NetCall config]
  | S left' => NetCall config :: Sleep (1000 * attempt) :: backoff config (attempt + 1) left'
  end.

Definition isCall (e : Effect) : bool :=
  match e with NetCall _ => true | Sleep _ => false end.

(** The number of network calls among some effects. *)
Definition calls (effects : list Effect) : nat := length (filter isCall effects).

(** Attempt [k] fails at the transport level. *)
Definition fails (net : Transport) (k : Z) : Prop := ∃ m, reply (net k) = inr m.

(** The connection is still active after whatever happened during attempt [k]. *)
Definition staysActive (connectionId : string) (net : Transport) (k : Z) : Prop :=
  ∀ W, isConnected (mgr W) connectionId = true →
       isConnected (mgr (meanwhile (net k) W)) connectionId = true.

(** The connection is found inactive after attempt [k]. *)
Definition dropsDuring (connectionId : string) (net : Transport) (k : Z) : Prop :=
  ∀ W, isConnected (mgr (meanwhile (net k) W)) connectionId = false.

(** Concrete inputs used to exercise the statements below. *)

Definition defaultEnv : Env :=
  {| NODE_ENV := None; REQUEST_TIMEOUT := None; MAX_RETRIES := None |}.

Definition productionEnv : Env :=
  {| NODE_ENV := Some "production"; REQUEST_TIMEOUT := None; MAX_RETRIES := None |}.

Definition siteWaiter : Waiter :=
  {| w_conn := "site-a"; w_start := 0; w_timeout := 30000; w_caller := External |}.

(** ["site-a"] started over tcp, its first probe finding the tunnel route. *)
Definition siteUp : World :=
  probeCallback siteWaiter "10.8.0.0/24 dev tun0 scope link"
    (startVPN "site-a" "tcp" External Spawned (boot configured)).

Definition getOk : Request :=
  {| req_method := "GET";
     req_headers := {[ "host" := "localhost:3000"; "content-length" := "0";
                       "accept" := "*/*" ]};
     req_query := {[ "url" := VStr "https://example.test/ok" ]};
     req_body := ∅ |}.

Definition refused : Transport :=
  λ k, {| reply := inr ("connect ECONNREFUSED #" +:+ show_Z k); meanwhile := λ W, W |}.

(** The tunnel process of ["site-a"] dies while the second attempt is in flight. *)
Definition dropsAtSecond : Transport :=
  λ k, {| reply := inr ("connect ECONNREFUSED #" +:+ show_Z k);
          meanwhile := if decide (k = 2%Z) then exitHandler "site-a" "tcp" 0 (Some 1%Z) None
                       else λ W, W |}.

(** The first attempt is refused; the tunnel process of ["site-a"] dies
    after that failure was handled, and the second attempt is answered. *)
Definition answersAfterDrop : Transport :=
  λ k, {| reply := if decide (k = 1%Z) then inr "connect ECONNREFUSED #1"
                   else inl {| status := 200; statusText := "OK"; headers := [];
                               data := VStr "ok" |};
          meanwhile := if decide (k = 2%Z) then exitHandler "site-a" "tcp" 0 (Some 1%Z) None
                       else λ W, W |}.

(** Every attempt is refused; the tunnel process of ["site-a"] dies while the
    third one is in flight. *)
Definition dropsAtThird : Transport :=
  λ k, {| reply := inr ("connect ECONNREFUSED #" +:+ show_Z k);
          meanwhile := if decide (k = 3%Z) then exitHandler "site-a" "tcp" 0 (Some 1%Z) None
                       else λ W, W |}.

Definition okAtOnce : Transport :=
  λ _, {| reply := inl {| status := 200; statusText := "OK"; headers := []; data := VStr "ok" |};
          meanwhile := λ W, W |}.

(** The transport fails twice and answers 200 on the third attempt. *)
Definition thirdTimeLucky : Transport :=
  λ k, {| reply := if (k <? 3)%Z then inr ("connect ECONNREFUSED #" +:+ show_Z k)
                   else inl {| status := 200; statusText := "OK"; headers := [];
                               data := VStr "ok" |};
          meanwhile := λ W, W |}.

Definition siteConfig : AxiosConfig :=
  {| ax_timeout := 30000; ax_anyStatusValid := true;
     ax_request := prepare getOk (VStr "https://example.test/ok") |}.

Definition noTarget : Request :=
  {| req_method := "POST";
     req_headers := {[ "host" := "localhost:3000" ]};
     req_query := {[ "q" := VStr "x" ]};
     req_body := {[ "data" := VStr "test" ]} |}.

(** The connection an outstanding callback belongs to. *)
Definition task_conn (t : Task) : string :=
  match t with
  | ProbeReply w => w_conn w
  | PollTimer _ w => w_conn w
  | ReconnectTimer _ connectionId _ _ => connectionId
  | KillTimer _ connectionId _ => connectionId
  end.

(** Nothing in the world knows the name [id]: it is tracked in neither map,
    no process was spawned for it and no callback is outstanding for it. *)
Definition untouched (id : string) (W : World) : Prop :=
  connections (mgr W) !! id = None
  ∧ connectionStatus (mgr W) !! id = None
  ∧ Forall (λ p, p_conn p ≠ id) (procs W)
  ∧ Forall (λ t, task_conn t ≠ id) (pending W).

(** The event is a [start] call for [id], whatever [spawn] does in it. *)
Definition startsConnection (id : string) (e : Event) : Prop :=
  ∃ protocol, e = CallStart id protocol ∨ ∃ m, e = CallStartThrows id protocol m.

(** [this.reconnectAttempts.get(id) || 0] *)
Definition attemptsOf (W : World) (id : string) : Z :=
  default 0%Z (reconnectAttempts (mgr W) !! id).

(** [consecutiveExits id protocol W n W']: starting in [W], the processes of
    [id] exited unintentionally [n] times in a row and the world is now [W'].
    Between one exit and the next anything may have happened that left the
    attempt counter of [id] alone (no reconnect succeeded, no [stop]). *)
Inductive consecutiveExits (id protocol : string) (W : World) : nat → World → Prop :=
| exits_none : consecutiveExits id protocol W 0 W
| exits_more n Wn pid code signal W' :
    consecutiveExits id protocol W n Wn →
    unintentional code signal = true →
    attemptsOf W' id = attemptsOf (exitHandler id protocol pid code signal Wn) id →
    maxReconnectAttempts (mgr W') = maxReconnectAttempts (mgr Wn) →
    consecutiveExits id protocol W (S n) W'.

(** One round of the liveness probe that does not find the route: the probe
    takes [poll_exec] ms to reply [poll_stdout], and the timer set by the
    reply fires [poll_late] ms after it is due. *)
Record Poll := { poll_stdout : string; poll_exec : Z; poll_late : Z }.

Definition failedPoll (w : Waiter) (now : Z) (p : Poll) : list Event :=
  [ Tick (poll_exec p);
    ProbeDone w (poll_stdout p);
    Tick (checkInterval + poll_late p);
    Fire (PollTimer (now + poll_exec p + checkInterval) w) ].

(** Rounds of the probe, the first one starting at time [now]. *)
Fixpoint failedPolls (w : Waiter) (now : Z) (ps : list Poll) : list Event :=
  match ps with
  | [] => []
  | p :: ps' =>
      failedPoll w now p ++
      failedPolls w (now + poll_exec p + checkInterval + poll_late p) ps'
  end.

(** The probe replies at once with nothing, the timer fires when due. *)
Definition onTime : Poll := {| poll_stdout := ""; poll_exec := 0; poll_late := 0 |}.


Definition reconnectWaiter (start attempts : Z) : Waiter :=
  {| w_conn := "site-a"; w_start := start; w_timeout := 30000;
     w_caller := Reconnecting attempts |}.

(** ["site-a"] comes up; then its process exits with code 1 three times in a
    row, each reconnect timer firing when due and spawning the next process. *)
Definition threeExits : list Event :=
  [ CallStart "site-a" "tcp";
    ProbeDone siteWaiter "10.8.0.0/24 dev tun0 scope link";
    ProcExit 0 (Some 1%Z) None;
    Tick 5000; Fire (ReconnectTimer 5000 "site-a" "tcp" 0);
    ProcExit 1 (Some 1%Z) None;
    Tick 5000; Fire (ReconnectTimer 10000 "site-a" "tcp" 1);
    ProcExit 2 (Some 1%Z) None ].

(** The world in which the process spawned by the reconnect that follows an
    unintentional exit of process [pid] runs: the exit handler, five seconds,
    the reconnect timer. *)
Definition exitAndReconnect (pid : nat) (W : World) : World :=
  let W1 := exitHandler "site-a" "tcp" pid (Some 1%Z) None W in
  default W1
    (run [Tick 5000;
          Fire (ReconnectTimer (clock W + 5000) "site-a" "tcp" (attemptsOf W "site-a"))]
         W1).

(** The probe never finds the route, and each round is at most [B] ms late. *)
Definition neverUp (B : Z) (p : Poll) : Prop :=
  includes "tun" (poll_stdout p) = false
  ∧ (0 <= poll_exec p)%Z ∧ (0 <= poll_late p)%Z
  ∧ (poll_exec p + poll_late p <= B)%Z.

(** The failure a timed-out [waitForConnection] hands to whoever awaits the
    start. *)
Definition timedOut (w : Waiter) : Outcome :=
  {| o_conn := w_conn w; o_caller := w_caller w;
     o_result := Threw (timeoutMessage (w_conn w)) |}.

(** ** The wait loop while other things happen *)

(** The event is handled if it can happen in this world; one that cannot
    (a timer that is not set, a process that does not run) does not occur. *)
Definition attempt (e : Event) (W : World) : World := default W (step e W).















(** ** src/vpnManager.js: the status listing *)

(** An entry of the object [getAllStatuses] returns: [{ status, protocol, uptime }]. *)
Record StatusReport := { r_status : Status; r_protocol : string; r_uptime : Z }.

(** [getAllStatuses()]: the own properties of the object it returns.  The
    loop assigns [statuses[id] = {...}] for every key of [connectionStatus];
    on a plain object the key ["__proto__"] sets the prototype and makes no
    property, every other key makes one.  [connection?.protocol || 'unknown']
    and [connection ? Date.now() - connection.startTime : 0]. *)
Definition getAllStatuses (W : World) : gmap string StatusReport :=
  map_imap (λ id st,
    let connection := connections (mgr W) !! id in
    if decide (id = "__proto__") then None else
    Some {| r_status := st;
            r_protocol := match connection with
                          | Some c => if String.eqb (protocol c) "" then "unknown"
                                      else protocol c
                          | None => "unknown"
                          end;
            r_uptime := match connection with
                        | Some c => (clock W - startTime c)%Z
                        | None => 0%Z
                        end |})
    (connectionStatus (mgr W)).

(** ** More vocabulary *)

(** The world can be reached from the server's start. *)
Definition reachable (W : World) : Prop := ∃ fs es, run es (boot fs) = Some W.

(** The events in which [startVPN] can get a child process from [spawn]: a
    [start] call and a reconnect timer in which [spawn] does not throw. *)
Definition runsStart (e : Event) : bool :=
  match e with
  | CallStart _ _ => true
  | Fire (ReconnectTimer _ _ _ _) => true
  | _ => false
  end.

(** The same, for the name [id]. *)
Definition runsStartOf (id : string) (e : Event) : bool :=
  match e with
  | CallStart id' _ => bool_decide (id' = id)
  | Fire (ReconnectTimer _ id' _ _) => bool_decide (id' = id)
  | _ => false
  end.

(** Every stored reconnect counter lies between 1 and the maximum, which is
    the constructor's 3. *)
Definition counterCapped (W : World) : Prop :=
  maxReconnectAttempts (mgr W) = 3%Z
  ∧ ∀ id n, reconnectAttempts (mgr W) !! id = Some n → (1 <= n <= 3)%Z.

(** Every tracked connection holds the handle of a process that was spawned
    for its name and protocol and has not exited. *)
Definition handlesOwned (W : World) : Prop :=
  ∀ id c, connections (mgr W) !! id = Some c →
    ∃ p, procs W !! process c = Some p
       ∧ p_conn p = id ∧ p_proto p = protocol c ∧ p_alive p = true.

(** Nothing else happens while the forwarder is suspended. *)
Definition undisturbed (net : Transport) : Prop :=
  ∀ k W, meanwhile (net k) W = W.

(** ["site-a"] is started twice in a row; both processes run. *)
Definition startedTwice : World :=
  startVPN "site-a" "tcp" External Spawned
    (startVPN "site-a" "tcp" External Spawned (boot configured)).

(** The upstream answers 503 at once, with a hop header among its headers. *)
Definition unavailable : Transport :=
  λ _, {| reply := inl {| status := 503; statusText := "Service Unavailable";
                          headers := [("Connection", "close"); ("x-upstream", "a")];
                          data := VStr "busy" |};
          meanwhile := λ W, W |}.

(** A request that names its target in the query and another in the body. *)
Definition twoTargets : Request :=
  {| req_method := "POST";
     req_headers := {[ "host" := "localhost:3000"; "x-trace" := "7" ]};
     req_query := {[ "url" := VStr "https://example.test/q"; "page" := VStr "2" ]};
     req_body := {[ "url" := VStr "https://example.test/b" ]} |}.

(** ["site-a"] comes up, as the event loop runs it. *)
Definition siteReached : World :=
  default (boot configured)
    (run [CallStart "site-a" "tcp";
          ProbeDone siteWaiter "10.8.0.0/24 dev tun0 scope link"] (boot configured)).


(** ** server.js: the [/vpn/start] route up to its call of [startVPN] *)

Definition connectionRequired : HttpReply :=
  {| code := 400; headersSet := [];
     payload := [("error", JStr "Connection ID is required")] |}.

Definition protocolInvalid : HttpReply :=
  {| code := 400; headersSet := [];
     payload := [("error", JStr "Protocol must be either tcp or udp")] |}.

(** [const { connectionId, protocol = 'tcp' } = req.body] and the two checks
    that follow; [inr] holds what the route then passes to [startVPN].  The
    default applies to a missing or [undefined] property only. *)
Definition checkStartRequest (body : gmap string jsval) : HttpReply + (jsval * string) :=
  let connectionId := prop body "connectionId" in
  let protocol := match prop body "protocol" with
                  | VUndefined => VStr "tcp"
                  | v => v
                  end in
  if negb (truthy connectionId) then inl connectionRequired
  else match protocol with
       | VStr p => if bool_decide (p ∈ ["tcp"; "udp"]) then inr (connectionId, p)
                   else inl protocolInvalid
       | _ => inl protocolInvalid
       end.

(** * Properties *)

(** ** Helpers *)

(** Logging leaves the manager alone. *)
Lemma mgr_log2 l t d W : mgr (log2 l t d W) = mgr W.
Proof. reflexivity. Qed.

(** [attemptReconnect] never writes a status. *)
Lemma attemptReconnect_status id proto W :
  connectionStatus (mgr (attemptReconnect id proto W)) = connectionStatus (mgr W).
Proof.
  unfold attemptReconnect.
  destruct (maxReconnectAttempts (mgr W) <=? _)%Z; reflexivity.
Qed.

(** Whatever the exit code, the exit handler leaves its connection
    ['disconnected']. *)
Lemma exitHandler_status id proto pid code signal W :
  connectionStatus (mgr (exitHandler id proto pid code signal W)) !! id
  = Some StDisconnected.
Proof.
  unfold exitHandler. destruct (unintentional code signal).
  - rewrite attemptReconnect_status. simpl. apply lookup_insert_eq.
  - simpl. apply lookup_insert_eq.
Qed.

(** ** The forwarder *)

Lemma isConnected_getStatus m id :
  isConnected m id = bool_decide (getStatus m id = StConnected).
Proof.
  unfold isConnected, getStatus.
  destruct (connectionStatus m !! id) as [[]|]; reflexivity.
Qed.

Lemma calls_backoff config left : ∀ attempt, calls (backoff config attempt left) = left.
Proof.
  induction left as [|[|n] IH]; intros attempt; [reflexivity..|].
  change (calls (backoff config attempt (S (S n))))
    with (S (calls (backoff config (attempt + 1) (S n)))).
  by rewrite IH.
Qed.

Section ForwarderFacts.

Variable self : ProxyHandler.
Variable connectionId : string.
Variable net : Transport.
Variable config : AxiosConfig.

(** Every effect of the loop is a call with the one configuration, or a pause. *)
Lemma attemptLoop_effects left : ∀ attempt lastError W e,
  e ∈ (attemptLoop self connectionId net config left attempt lastError W).1.2 →
  e = NetCall config ∨ ∃ ms, e = Sleep ms.
Proof.
  induction left as [|left IH]; intros attempt lastError W e; simpl.
  - intros H. by apply elem_of_nil in H.
  - destruct (reply (net attempt)) as [response|message]; simpl.
    + intros H. apply list_elem_of_singleton in H. by left.
    + match goal with |- context [negb ?b] => destruct b end; simpl.
      * match goal with |- context [attemptLoop _ _ _ _ left ?a ?l ?W'] =>
          specialize (IH a l W' e);
          destruct (attemptLoop self connectionId net config left a l W')
            as [[r effects] W''] end.
        simpl in *. intros H.
        apply elem_of_cons in H as [->|H]; [by left|].
        apply elem_of_app in H as [H|H]; [|by apply IH].
        destruct (attempt <? maxRetries self)%Z.
        -- apply list_elem_of_singleton in H. right. eauto.
        -- by apply elem_of_nil in H.
      * intros H. apply list_elem_of_singleton in H. by left.
Qed.

(** [n] failed attempts after which the connection is still active, then
    one more failed attempt during which it drops: the loop stops there. *)
Lemma attemptLoop_drop n : ∀ left attempt lastError W last,
  (n < left)%nat →
  (attempt + Z.of_nat n <= maxRetries self)%Z →
  (∀ j, attempt <= j < attempt + Z.of_nat n → fails net j ∧ staysActive connectionId net j)%Z →
  reply (net (attempt + Z.of_nat n)) = inr last →
  dropsDuring connectionId net (attempt + Z.of_nat n) →
  isConnected (mgr W) connectionId = true →
  ∃ W', attemptLoop self connectionId net config left attempt lastError W
        = (Threw (exhaustedMessage (maxRetries self) last),
           backoff config attempt (S n), W').
Proof.
  induction n as [|n IH]; intros left attempt lastError W last Hleft Hmax Hj Hlast Hdrop HW.
  - destruct left as [|left]; [lia|]. simpl.
    rewrite Z.add_0_r in Hlast, Hdrop. rewrite Hlast. simpl.
    rewrite Hdrop. simpl. eauto.
  - destruct left as [|left]; [lia|]. simpl.
    destruct (Hj attempt) as [[m Hm] Hact]; [lia|].
    rewrite Hm. simpl. rewrite Hact by exact HW. simpl.
    match goal with |- context [attemptLoop _ _ _ _ left ?a ?l ?W0] =>
      destruct (IH left a l W0 last) as [W' HW'] end; [lia|lia| | | | |].
    + intros j Hjr. apply Hj. lia.
    + replace (attempt + 1 + Z.of_nat n)%Z with (attempt + Z.of_nat (S n))%Z by lia.
      exact Hlast.
    + replace (attempt + 1 + Z.of_nat n)%Z with (attempt + Z.of_nat (S n))%Z by lia.
      exact Hdrop.
    + apply Hact, HW.
    + rewrite HW'. exists W'.
      replace (attempt <? maxRetries self)%Z with true by (symmetry; apply Z.ltb_lt; lia).
      reflexivity.
Qed.

(** All the attempts that are left fail and the connection stays active:
    the loop runs to its end. *)
Lemma attemptLoop_exhaust left : ∀ attempt lastError W last,
  (attempt + Z.of_nat left = maxRetries self + 1)%Z →
  (∀ j, attempt <= j <= maxRetries self → fails net j ∧ staysActive connectionId net j)%Z →
  (left = O → lastError = Some last) →
  reply (net (maxRetries self)) = inr last →
  isConnected (mgr W) connectionId = true →
  ∃ W', attemptLoop self connectionId net config left attempt lastError W
        = (Threw (exhaustedMessage (maxRetries self) last),
           backoff config attempt left, W').
Proof.
  induction left as [|left IH]; intros attempt lastError W last Hleft Hj H0 Hlast HW.
  - simpl. rewrite (H0 eq_refl). simpl. eauto.
  - simpl. destruct (Hj attempt) as [[m Hm] Hact]; [lia|].
    rewrite Hm. simpl. rewrite Hact by exact HW. simpl.
    match goal with |- context [attemptLoop _ _ _ _ left ?a ?l ?W0] =>
      destruct (IH a l W0 last) as [W' HW'] end; [lia| | |exact Hlast| |].
    + intros j Hjr. apply Hj. lia.
    + intros ->. f_equal. replace attempt with (maxRetries self) in Hm by lia.
      congruence.
    + apply Hact, HW.
    + rewrite HW'. exists W'. destruct left as [|left].
      * replace (attempt <? maxRetries self)%Z with false
          by (symmetry; apply Z.ltb_ge; lia).
        reflexivity.
      * replace (attempt <? maxRetries self)%Z with true
          by (symmetry; apply Z.ltb_lt; lia).
        reflexivity.
Qed.

End ForwarderFacts.

Example siteUp_connected : isConnected (mgr siteUp) "site-a" = true.
Proof. vm_compute. reflexivity. Qed.

Example backoff_default :
  backoff siteConfig 1 3
  = [NetCall siteConfig; Sleep 1000; NetCall siteConfig; Sleep 2000; NetCall siteConfig].
Proof. reflexivity. Qed.

(** The scenarios of the forwarder on ["site-a"], connected: an answer at
    once costs one call; two failures then an answer cost three calls and
    pauses of 1 s and 2 s. *)
Example forward_first_attempt :
  (handleRequest (newProxyHandler defaultEnv) "site-a"
     (prepare getOk (VStr "https://example.test/ok")) okAtOnce siteUp).1
  = (Returned {| status := 200; statusText := "OK"; headers := []; data := VStr "ok" |},
     [NetCall siteConfig]).
Proof. vm_compute. reflexivity. Qed.

Example forward_third_attempt :
  (handleRequest (newProxyHandler defaultEnv) "site-a"
     (prepare getOk (VStr "https://example.test/ok")) thirdTimeLucky siteUp).1
  = (Returned {| status := 200; statusText := "OK"; headers := []; data := VStr "ok" |},
     [NetCall siteConfig; Sleep 1000; NetCall siteConfig; Sleep 2000; NetCall siteConfig]).
Proof. vm_compute. reflexivity. Qed.

(** [parseInt(process.env.MAX_RETRIES) || 3] is never zero, and is 3 when
    the variable is unset. *)
Lemma or_default_nonzero parsed d : d ≠ 0%Z → or_default parsed d ≠ 0%Z.
Proof.
  intros Hd. unfold or_default. destruct parsed as [n|]; [|exact Hd].
  destruct (Z.eqb_spec n 0); [exact Hd|assumption].
Qed.

(** With a negative [MAX_RETRIES] the loop body never runs: no call is made
    and reading [lastError.message] throws. *)
Example forward_negative_retries :
  (handleRequest
     (newProxyHandler {| NODE_ENV := None; REQUEST_TIMEOUT := None;
                         MAX_RETRIES := Some (-1)%Z |})
     "site-a" (prepare getOk (VStr "https://example.test/ok")) refused siteUp).1
  = (Threw undefinedMessage, []).
Proof. vm_compute. reflexivity. Qed.

(** C3. A forward on a connection whose state is anything but ['connected']
    (or that is not tracked at all) throws the "is not active" error at once:
    no network call is made and the world, with its processes, outstanding
    callbacks and manager, is left exactly as it was, so nothing is started.
    Through the middleware, with a usable target URL, the caller gets the 500
    envelope and again no call is made and no process is spawned. *)
Theorem forward_inactive_rejected (self : ProxyHandler) (connectionId : string)
    (requestConfig : RequestConfig) (net : Transport) (W : World) :
  getStatus (mgr W) connectionId ≠ StConnected →
  handleRequest self connectionId requestConfig net W
    = (Threw (inactiveMessage connectionId), [], W)
  ∧ ∀ validURL req,
      truthy (js_or (prop (req_query req) "url") (prop (req_body req) "url")) = true →
      validURL (js_or (prop (req_query req) "url") (prop (req_body req) "url")) = true →
      ∃ W', createMiddleware validURL self connectionId req net W
            = (proxyFailed connectionId (inactiveMessage connectionId)
                 (getStatus (mgr W) connectionId), [], W')
            ∧ mgr W' = mgr W ∧ procs W' = procs W ∧ pending W' = pending W.
Proof.
  intros Hst.
  assert (Hin : isConnected (mgr W) connectionId = false).
  { rewrite isConnected_getStatus. by apply bool_decide_eq_false. }
  assert (Hh : handleRequest self connectionId requestConfig net W
               = (Threw (inactiveMessage connectionId), [], W)).
  { unfold handleRequest. by rewrite Hin. }
  split; [exact Hh|].
  intros validURL req Ht Hv. unfold createMiddleware, handleRequest.
  rewrite Ht, Hv, Hin. simpl. eauto.
Qed.

Lemma forward_inactive_rejected_witness :
  handleRequest (newProxyHandler defaultEnv) "site-a"
    (prepare getOk (VStr "https://example.test/ok")) okAtOnce (boot configured)
  = (Threw "VPN connection site-a is not active", [], boot configured).
Proof.
  apply (forward_inactive_rejected (newProxyHandler defaultEnv) "site-a"
           (prepare getOk (VStr "https://example.test/ok")) okAtOnce (boot configured)).
  vm_compute. discriminate.
Defined.

(** C4. With a positive retry maximum, when every attempt fails at the
    transport level and the connection is still active after each failure,
    the forwarder makes exactly [maxRetries] calls, pauses [attempt * 1000] ms
    after each attempt but the last, and then throws "Request failed after
    [maxRetries] attempts: " followed by the message of the last transport
    error. *)
Theorem forward_exhausts_retries (self : ProxyHandler) (connectionId : string)
    (requestConfig : RequestConfig) (net : Transport) (W : World) (last : string) :
  (1 <= maxRetries self)%Z →
  isConnected (mgr W) connectionId = true →
  (∀ k, 1 <= k <= maxRetries self → fails net k ∧ staysActive connectionId net k)%Z →
  reply (net (maxRetries self)) = inr last →
  ∃ effects W',
    handleRequest self connectionId requestConfig net W
      = (Threw (exhaustedMessage (maxRetries self) last), effects, W')
    ∧ effects = backoff {| ax_timeout := timeout self; ax_anyStatusValid := true;
                           ax_request := requestConfig |} 1 (Z.to_nat (maxRetries self))
    ∧ calls effects = Z.to_nat (maxRetries self).
Proof.
  intros Hmax HW Hall Hlast. unfold handleRequest. rewrite HW. simpl.
  destruct (attemptLoop_exhaust self connectionId net
              {| ax_timeout := timeout self; ax_anyStatusValid := true;
                 ax_request := requestConfig |}
              (Z.to_nat (maxRetries self)) 1%Z None W last)
    as [W' HW']; [lia | exact Hall | lia | exact Hlast | exact HW | ].
  eexists _, W'. split; [apply HW'|]. split; [reflexivity|]. apply calls_backoff.
Qed.

Lemma forward_exhausts_retries_witness :
  ∃ W', handleRequest (newProxyHandler defaultEnv) "site-a"
          (prepare getOk (VStr "https://example.test/ok")) refused siteUp
        = (Threw "Request failed after 3 attempts: connect ECONNREFUSED #3",
           [NetCall siteConfig; Sleep 1000; NetCall siteConfig; Sleep 2000;
            NetCall siteConfig], W').
Proof.
  destruct (forward_exhausts_retries (newProxyHandler defaultEnv) "site-a"
              (prepare getOk (VStr "https://example.test/ok")) refused siteUp
              "connect ECONNREFUSED #3")
    as (effects & W' & H & -> & _).
  - simpl. lia.
  - vm_compute. reflexivity.
  - intros k _. split; [eexists; reflexivity | intros W0 H0; exact H0].
  - reflexivity.
  - exists W'. exact H.
Defined.

(** C5, as the code has it.  The forwarder reads the state of the connection
    at one place only, when it handles a failed attempt.  When attempts
    [1 .. k] fail, the connection is still active when each of the first
    [k - 1] failures is handled and is found inactive when the [k]-th is, the
    forwarder stops there: it has made exactly [k] calls, does not pause
    again, and throws, carrying the message of the [k]-th transport error.
    For [k] below the maximum this is fewer calls than the maximum. *)
Theorem forward_abandons_on_drop (self : ProxyHandler) (connectionId : string)
    (requestConfig : RequestConfig) (net : Transport) (W : World)
    (k : Z) (last : string) :
  isConnected (mgr W) connectionId = true →
  (1 <= k <= maxRetries self)%Z →
  (∀ j, 1 <= j < k → fails net j ∧ staysActive connectionId net j)%Z →
  reply (net k) = inr last →
  dropsDuring connectionId net k →
  ∃ effects W',
    handleRequest self connectionId requestConfig net W
      = (Threw (exhaustedMessage (maxRetries self) last), effects, W')
    ∧ effects = backoff {| ax_timeout := timeout self; ax_anyStatusValid := true;
                           ax_request := requestConfig |} 1 (Z.to_nat k)
    ∧ calls effects = Z.to_nat k
    ∧ ((k < maxRetries self)%Z → (calls effects < Z.to_nat (maxRetries self))%nat).
Proof.
  intros HW Hk Hbefore Hlast Hdrop. unfold handleRequest. rewrite HW. simpl.
  destruct (attemptLoop_drop self connectionId net
              {| ax_timeout := timeout self; ax_anyStatusValid := true;
                 ax_request := requestConfig |}
              (Z.to_nat (k - 1)) (Z.to_nat (maxRetries self)) 1%Z None W last)
    as [W' HW']; try lia.
  - intros j Hj. apply Hbefore. lia.
  - replace (1 + Z.of_nat (Z.to_nat (k - 1)))%Z with k by lia. exact Hlast.
  - replace (1 + Z.of_nat (Z.to_nat (k - 1)))%Z with k by lia. exact Hdrop.
  - exact HW.
  - replace (S (Z.to_nat (k - 1))) with (Z.to_nat k) in HW' by lia.
    eexists _, W'. split; [exact HW'|]. split; [reflexivity|].
    rewrite calls_backoff. split; [reflexivity|lia].
Qed.

Lemma forward_abandons_on_drop_witness :
  ∃ W', handleRequest (newProxyHandler defaultEnv) "site-a"
          (prepare getOk (VStr "https://example.test/ok")) dropsAtSecond siteUp
        = (Threw "Request failed after 3 attempts: connect ECONNREFUSED #2",
           [NetCall siteConfig; Sleep 1000; NetCall siteConfig], W').
Proof.
  destruct (forward_abandons_on_drop (newProxyHandler defaultEnv) "site-a"
              (prepare getOk (VStr "https://example.test/ok")) dropsAtSecond siteUp
              2 "connect ECONNREFUSED #2")
    as (effects & W' & H & -> & _).
  - vm_compute. reflexivity.
  - simpl. lia.
  - intros j Hj. assert (j = 1%Z) as -> by lia.
    split; [eexists; reflexivity | intros W0 H0; exact H0].
  - reflexivity.
  - intros W0. unfold isConnected. apply bool_decide_eq_false.
    change (meanwhile (dropsAtSecond 2)) with (exitHandler "site-a" "tcp" 0 (Some 1%Z) None).
    rewrite exitHandler_status. discriminate.
  - exists W'. exact H.
Defined.

(** C5 as stated fails, in two ways.  With the default maximum of three:
    the first attempt fails, the connection drops after that failure was
    handled, and the second attempt is answered; the forwarder returns that
    answer although the connection is no longer active, and surfaces no
    failure.  And when the connection drops while the third attempt is in
    flight, the failure is surfaced only after all three attempts. *)
Lemma drop_unnoticed_or_late :
  let forward net :=
    handleRequest (newProxyHandler defaultEnv) "site-a"
      (prepare getOk (VStr "https://example.test/ok")) net siteUp in
  isConnected (mgr siteUp) "site-a" = true
  ∧ (forward answersAfterDrop).1.1
    = Returned {| status := 200; statusText := "OK"; headers := []; data := VStr "ok" |}
  ∧ (forward answersAfterDrop).1.2 = [NetCall siteConfig; Sleep 1000; NetCall siteConfig]
  ∧ isConnected (mgr (forward answersAfterDrop).2) "site-a" = false
  ∧ (forward dropsAtThird).1.1
    = Threw "Request failed after 3 attempts: connect ECONNREFUSED #3"
  ∧ isConnected (mgr (forward dropsAtThird).2) "site-a" = false
  ∧ calls (forward dropsAtThird).1.2 = 3%nat
  ∧ maxRetries (newProxyHandler defaultEnv) = 3%Z.
Proof. repeat split; vm_compute; reflexivity. Qed.

(** Every network call the middleware causes carries the prepared request. *)
Lemma createMiddleware_calls validURL self connectionId req net W config :
  NetCall config ∈ (createMiddleware validURL self connectionId req net W).1.2 →
  ax_request config
  = prepare req (js_or (prop (req_query req) "url") (prop (req_body req) "url")).
Proof.
  unfold createMiddleware.
  destruct (truthy _); simpl; [|intros H; by apply elem_of_nil in H].
  destruct (validURL _); simpl; [|intros H; by apply elem_of_nil in H].
  unfold handleRequest.
  destruct (isConnected (mgr W) connectionId); simpl;
    [|intros H; by apply elem_of_nil in H].
  match goal with |- context [attemptLoop ?s ?i ?n ?c ?l ?a ?e ?W0] =>
    pose proof (attemptLoop_effects s i n c l a e W0 (NetCall config)) as Heff;
    destruct (attemptLoop s i n c l a e W0) as [[[response|message] effects] W'] end;
    simpl in *; intros H; destruct (Heff H) as [Heq|[ms Heq]];
    solve [by inversion Heq].
Qed.

(** C7. Whatever the inbound request carries, every outbound call the
    forwarder makes for it has no [host] header, no [content-length] header
    and no [url] query parameter. *)
Theorem forwarded_request_sanitized (validURL : jsval → bool) (self : ProxyHandler)
    (connectionId : string) (req : Request) (net : Transport) (W : World)
    (config : AxiosConfig) :
  NetCall config ∈ (createMiddleware validURL self connectionId req net W).1.2 →
  rc_headers (ax_request config) !! "host" = None
  ∧ rc_headers (ax_request config) !! "content-length" = None
  ∧ rc_params (ax_request config) !! "url" = None.
Proof.
  intros H. rewrite (createMiddleware_calls _ _ _ _ _ _ _ H). simpl.
  split; [|split].
  - rewrite lookup_delete_ne by discriminate. apply lookup_delete_eq.
  - apply lookup_delete_eq.
  - apply lookup_delete_eq.
Qed.

Lemma forwarded_request_sanitized_witness :
  req_headers getOk !! "host" = Some "localhost:3000"
  ∧ req_headers getOk !! "content-length" = Some "0"
  ∧ req_query getOk !! "url" = Some (VStr "https://example.test/ok")
  ∧ rc_headers (ax_request siteConfig) !! "host" = None
  ∧ rc_headers (ax_request siteConfig) !! "content-length" = None
  ∧ rc_params (ax_request siteConfig) !! "url" = None.
Proof.
  split; [vm_compute; reflexivity|].
  split; [vm_compute; reflexivity|].
  split; [vm_compute; reflexivity|].
  apply (forwarded_request_sanitized (λ _, true) (newProxyHandler defaultEnv)
           "site-a" getOk okAtOnce siteUp siteConfig).
  assert (Hrun : (createMiddleware (λ _, true) (newProxyHandler defaultEnv)
                    "site-a" getOk okAtOnce siteUp).1.2 = [NetCall siteConfig])
    by (vm_compute; reflexivity).
  rewrite Hrun. apply list_elem_of_here.
Defined.

(** C8 as stated fails.  In production mode a forward on an inactive
    connection answers with the internal message of the error in the
    envelope, where the error handling middleware of the server would have
    put its generic message. *)
Lemma production_proxy_error_exposes_message :
  (proxyEndpoint (λ _, true) productionEnv "site-a" getOk okAtOnce (boot configured)).1.1
  = {| code := 500; headersSet := [];
       payload := [("error", JStr "Proxy request failed");
                   ("message", JStr "VPN connection site-a is not active");
                   ("vpnConnection", JStr "site-a");
                   ("vpnStatus", JStr "disconnected")] |}
  ∧ errorMiddleware productionEnv "VPN connection site-a is not active"
    = {| code := 500; headersSet := [];
         payload := [("error", JStr "Internal server error");
                     ("message", JStr "Something went wrong")] |}.
Proof. split; vm_compute; reflexivity. Qed.

(** C8, as the code has it.  Whatever the mode, an error of the forwarder is
    answered by the proxy endpoint itself, with status 500 and the envelope
    the README shows: the internal message of the error, the name of the
    connection and its state.  The mode decides only what the error handling
    middleware of the server would answer, which these errors never reach:
    the message itself when [NODE_ENV] is exactly ["development"], a generic
    text in every other mode, an unset one included. *)
Theorem forward_error_envelope (validURL : jsval → bool) (env : Env)
    (connectionId : string) (req : Request) (net : Transport) (W : World)
    (message : string) (effects : list Effect) (W' : World) :
  let targetUrl := js_or (prop (req_query req) "url") (prop (req_body req) "url") in
  truthy targetUrl = true →
  validURL targetUrl = true →
  handleRequest (newProxyHandler env) connectionId (prepare req targetUrl) net W
    = (Threw message, effects, W') →
  (proxyEndpoint validURL env connectionId req net W).1.1
    = {| code := 500; headersSet := [];
         payload := [("error", JStr "Proxy request failed");
                     ("message", JStr message);
                     ("vpnConnection", JStr connectionId);
                     ("vpnStatus",
                      JStr (status_string (getStatus (mgr W') connectionId)))] |}
  ∧ (NODE_ENV env = Some "development" →
       errorMiddleware env message
       = {| code := 500; headersSet := [];
            payload := [("error", JStr "Internal server error");
                        ("message", JStr message)] |})
  ∧ (NODE_ENV env ≠ Some "development" →
       errorMiddleware env message
       = {| code := 500; headersSet := [];
            payload := [("error", JStr "Internal server error");
                        ("message", JStr "Something went wrong")] |}).
Proof.
  intros targetUrl Ht Hv Hthrow. split; [|split].
  - unfold proxyEndpoint, createMiddleware. fold targetUrl.
    by rewrite Ht, Hv, Hthrow.
  - intros Hd. unfold errorMiddleware. by rewrite decide_True.
  - intros Hd. unfold errorMiddleware. by rewrite decide_False.
Qed.

Lemma forward_error_envelope_witness :
  (proxyEndpoint (λ _, true) defaultEnv "site-a" getOk refused siteUp).1.1
  = {| code := 500; headersSet := [];
       payload := [("error", JStr "Proxy request failed");
                   ("message",
                    JStr "Request failed after 3 attempts: connect ECONNREFUSED #3");
                   ("vpnConnection", JStr "site-a");
                   ("vpnStatus", JStr "connected")] |}
  ∧ errorMiddleware defaultEnv "Request failed after 3 attempts: connect ECONNREFUSED #3"
    = {| code := 500; headersSet := [];
         payload := [("error", JStr "Internal server error");
                     ("message", JStr "Something went wrong")] |}.
Proof.
  destruct (handleRequest (newProxyHandler defaultEnv) "site-a"
              (prepare getOk (VStr "https://example.test/ok")) refused siteUp)
    as [[result effects] W'] eqn:Hrun.
  assert (Hres : (handleRequest (newProxyHandler defaultEnv) "site-a"
                    (prepare getOk (VStr "https://example.test/ok")) refused siteUp).1.1
                 = Threw "Request failed after 3 attempts: connect ECONNREFUSED #3")
    by (vm_compute; reflexivity).
  assert (Hst : getStatus (mgr (handleRequest (newProxyHandler defaultEnv) "site-a"
                    (prepare getOk (VStr "https://example.test/ok")) refused siteUp).2)
                  "site-a" = StConnected)
    by (vm_compute; reflexivity).
  rewrite Hrun in Hres, Hst. simpl in Hres, Hst. subst result.
  destruct (forward_error_envelope (λ _, true) defaultEnv "site-a" getOk refused siteUp
              "Request failed after 3 attempts: connect ECONNREFUSED #3" effects W')
    as (H1 & _ & H2).
  - vm_compute. reflexivity.
  - reflexivity.
  - exact Hrun.
  - rewrite Hst in H1. split; [exact H1|]. apply H2. discriminate.
Defined.

(** The envelope of a failed forward does not depend on [NODE_ENV]. *)
Lemma proxyEndpoint_ignores_mode validURL env mode connectionId req net W :
  proxyEndpoint validURL
    {| NODE_ENV := mode; REQUEST_TIMEOUT := REQUEST_TIMEOUT env;
       MAX_RETRIES := MAX_RETRIES env |} connectionId req net W
  = proxyEndpoint validURL env connectionId req net W.
Proof. reflexivity. Qed.

(** A request whose [url] is falsy in the query and in the body is answered
    with the "Target URL is required" reply; nothing else happens. *)
Lemma createMiddleware_no_target validURL self connectionId req net W :
  truthy (prop (req_query req) "url") = false →
  truthy (prop (req_body req) "url") = false →
  createMiddleware validURL self connectionId req net W = (targetRequired, [], W).
Proof.
  intros Hq Hb. unfold createMiddleware, js_or. by rewrite Hq, Hb.
Qed.

(** C10. A request with no [url] in its query and none in its body is
    answered with status 400 and the error "Target URL is required".  The
    answer is the same in every world, whether the connection is active or
    not; no network call is made and the world is left untouched. *)
Theorem missing_target_rejected (validURL : jsval → bool) (self : ProxyHandler)
    (connectionId : string) (req : Request) (net : Transport) (W : World) :
  req_query req !! "url" = None →
  req_body req !! "url" = None →
  createMiddleware validURL self connectionId req net W = (targetRequired, [], W)
  ∧ code targetRequired = 400%Z
  ∧ payload targetRequired !! 0%nat = Some ("error", JStr "Target URL is required").
Proof.
  intros Hq Hb. split; [|split; reflexivity].
  apply createMiddleware_no_target; unfold prop; [by rewrite Hq | by rewrite Hb].
Qed.

Lemma missing_target_rejected_witness :
  createMiddleware (λ _, true) (newProxyHandler defaultEnv) "site-a" noTarget
    okAtOnce siteUp
  = (targetRequired, [], siteUp).
Proof.
  apply (missing_target_rejected (λ _, true) (newProxyHandler defaultEnv) "site-a"
           noTarget okAtOnce siteUp); vm_compute; reflexivity.
Defined.

(** ** The manager: names that were never started *)

Section Untouched.

Variable id : string.

Lemma untouched_log2 l t d W : untouched id W → untouched id (log2 l t d W).
Proof. intros H. exact H. Qed.

Lemma untouched_record o W : untouched id W → untouched id (record_outcome o W).
Proof. intros H. exact H. Qed.

Lemma untouched_clock f W : untouched id W → untouched id (with_clock f W).
Proof. intros H. exact H. Qed.

Lemma untouched_setStatus id' s W :
  id' ≠ id → untouched id W → untouched id (setStatus id' s W).
Proof.
  intros Hne (Hc & Hs & Hp & Ht). repeat split; simpl; try done.
  by rewrite lookup_insert_ne.
Qed.

Lemma untouched_setConnection id' c W :
  id' ≠ id → untouched id W → untouched id (setConnection id' c W).
Proof.
  intros Hne (Hc & Hs & Hp & Ht). repeat split; simpl; try done.
  by rewrite lookup_insert_ne.
Qed.

Lemma untouched_deleteConnection id' W :
  untouched id W → untouched id (deleteConnection id' W).
Proof.
  intros (Hc & Hs & Hp & Ht). repeat split; simpl; try done.
  apply lookup_delete_None. by right.
Qed.

Lemma untouched_setAttempts id' n W :
  untouched id W → untouched id (setAttempts id' n W).
Proof. intros H. exact H. Qed.

Lemma untouched_deleteAttempts id' W :
  untouched id W → untouched id (deleteAttempts id' W).
Proof. intros H. exact H. Qed.

Lemma untouched_schedule t W :
  task_conn t ≠ id → untouched id W → untouched id (schedule t W).
Proof.
  intros Hne (Hc & Hs & Hp & Ht). repeat split; simpl; try done.
  by constructor.
Qed.

Lemma untouched_kill pid sig W : untouched id W → untouched id (kill pid sig W).
Proof.
  intros (Hc & Hs & Hp & Ht). repeat split; simpl; try done.
  apply Forall_alter; [done|]. by intros p _ Hpc.
Qed.

Lemma untouched_mark_exited pid W : untouched id W → untouched id (mark_exited pid W).
Proof.
  intros (Hc & Hs & Hp & Ht). repeat split; simpl; try done.
  apply Forall_alter; [done|]. by intros p _ Hpc.
Qed.

Lemma untouched_spawn id' proto W :
  id' ≠ id → untouched id W → untouched id (spawn id' proto W).
Proof.
  intros Hne (Hc & Hs & Hp & Ht). repeat split; simpl; try done.
  apply Forall_app. split; [done|]. by repeat constructor.
Qed.

Lemma take_task_Forall (P : Task → Prop) t l l' :
  take_task t l = Some l' → Forall P l → P t ∧ Forall P l'.
Proof.
  revert l'. induction l as [|x l IH]; intros l' Htake Hall; [discriminate|].
  apply Forall_cons in Hall as [Hx Hl]. simpl in Htake.
  destruct (decide (x = t)) as [->|Hne].
  - by inversion Htake; subst.
  - destruct (take_task t l) as [l0|]; [|discriminate].
    inversion Htake; subst. destruct (IH l0 eq_refl Hl) as [Ht Hl0].
    split; [done|]. by constructor.
Qed.

Lemma untouched_claim t W W' :
  claim_task t W = Some W' → untouched id W → task_conn t ≠ id ∧ untouched id W'.
Proof.
  unfold claim_task. intros Hclaim (Hc & Hs & Hp & Ht).
  destruct (take_task t (pending W)) as [l|] eqn:Htake; [|discriminate].
  simpl in Hclaim. inversion Hclaim; subst.
  destruct (take_task_Forall _ _ _ _ Htake Ht) as [Hne Hl].
  split; [done|]. by repeat split.
Qed.

Lemma untouched_settle id' c r W : untouched id W → untouched id (settle id' c r W).
Proof. intros H. unfold settle. by destruct c, r. Qed.

Lemma untouched_checkConnection w W :
  w_conn w ≠ id → untouched id W → untouched id (checkConnection w W).
Proof.
  intros Hne H. unfold checkConnection, startVPN_catch.
  destruct (w_timeout w <? _)%Z.
  - apply untouched_settle. by repeat apply untouched_setStatus.
  - by apply untouched_schedule.
Qed.

Lemma untouched_probeCallback w out W :
  w_conn w ≠ id → untouched id W → untouched id (probeCallback w out W).
Proof.
  intros Hne H. unfold probeCallback, startVPN_established.
  destruct (negb _ && _).
  - apply untouched_settle. by apply untouched_setStatus.
  - by apply untouched_schedule.
Qed.

Lemma untouched_startVPN id' proto c r W :
  id' ≠ id → untouched id W → untouched id (startVPN id' proto c r W).
Proof.
  intros Hne H. unfold startVPN.
  destruct (isConnected _ _); [by apply untouched_settle|].
  destruct (negb (existsSync (configPath proto) W)); [by apply untouched_settle|].
  destruct (negb (existsSync authPath W)); [by apply untouched_settle|].
  destruct r as [|m].
  - unfold waitForConnection. apply untouched_checkConnection; [done|].
    apply untouched_setStatus; [done|]. apply untouched_setConnection; [done|].
    by apply untouched_spawn.
  - unfold startVPN_catch. apply untouched_settle. by apply untouched_setStatus.
Qed.

Lemma task_conn_shiftTask dz t : task_conn (shiftTask dz t) = task_conn t.
Proof. by destruct t. Qed.

Lemma untouched_shift dz W :
  untouched id W → untouched id (with_pending (fmap (shiftTask dz)) W).
Proof.
  intros (Hc & Hs & Hp & Ht). repeat split; simpl; try done.
  apply Forall_fmap. eapply Forall_impl; [exact Ht|].
  intros t Hne. simpl. by rewrite task_conn_shiftTask.
Qed.

Lemma untouched_attemptReconnect id' proto W :
  id' ≠ id → untouched id W → untouched id (attemptReconnect id' proto W).
Proof.
  intros Hne H. unfold attemptReconnect.
  destruct (_ <=? _)%Z; [exact H|]. by apply untouched_schedule.
Qed.

Lemma untouched_exitHandler id' proto pid code signal W :
  id' ≠ id → untouched id W → untouched id (exitHandler id' proto pid code signal W).
Proof.
  intros Hne H. unfold exitHandler.
  assert (untouched id (deleteConnection id'
            (setStatus id' StDisconnected (mark_exited pid W)))) as H'.
  { apply untouched_deleteConnection, untouched_setStatus; [done|].
    by apply untouched_mark_exited. }
  destruct (unintentional code signal); [|exact H'].
  by apply untouched_attemptReconnect.
Qed.

(** A [stop] for a name nothing knows changes the log only. *)
Lemma stopVPN_untracked W :
  connections (mgr W) !! id = None →
  stopVPN id W = (log LWarn ("No VPN connection found for " +:+ id) W, Returned ()).
Proof. intros H. unfold stopVPN. by rewrite H. Qed.

Lemma untouched_stopVPN id' W : untouched id W → untouched id (stopVPN id' W).1.
Proof.
  intros H. unfold stopVPN.
  destruct (connections (mgr W) !! id') as [c|] eqn:Hc; simpl; [|exact H].
  destruct (decide (id' = id)) as [->|Hne].
  { destruct H as (Hc' & _). congruence. }
  apply untouched_deleteAttempts, untouched_setStatus; [done|].
  apply untouched_deleteConnection, untouched_schedule; [done|].
  by apply untouched_kill.
Qed.

Lemma procs_conn_untouched pid p W :
  untouched id W → procs W !! pid = Some p → p_conn p ≠ id.
Proof.
  intros (_ & _ & Hp & _) Hpid. exact (Forall_lookup_1 _ _ _ _ Hp Hpid).
Qed.

(** Every event but a [start] of [id] keeps [id] unknown. *)
Lemma untouched_step e W W' :
  ¬ startsConnection id e → step e W = Some W' → untouched id W → untouched id W'.
Proof.
  intros Hns Hstep H.
  destruct e as [dt|id' proto|id'|w out|t|pid code signal|pid m|pid d|pid d
                |id' proto m|due id' proto attempts m|dz];
    simpl in Hstep.
  - destruct (0 <=? dt)%Z; inversion Hstep; subst. exact H.
  - inversion Hstep; subst. apply untouched_startVPN; [|exact H].
    intros ->. apply Hns. exists proto. by left.
  - inversion Hstep; subst. by apply untouched_stopVPN.
  - destruct (claim_task (ProbeReply w) W) as [W0|] eqn:Hc; [|discriminate].
    simpl in Hstep. inversion Hstep; subst.
    destruct (untouched_claim _ _ _ Hc H) as [Hne H0].
    by apply untouched_probeCallback.
  - destruct t as [w|due w|due id' proto attempts|due id' pid]; [discriminate|..];
      destruct (due <=? clock W)%Z; try discriminate;
      match type of Hstep with context [claim_task ?t W] =>
        destruct (claim_task t W) as [W0|] eqn:Hc; [|discriminate];
        destruct (untouched_claim _ _ _ Hc H) as [Hne H0] end;
      simpl in Hstep, Hne; inversion Hstep; subst.
    + by apply untouched_checkConnection.
    + by apply untouched_startVPN.
    + unfold killCallback. destruct (bool_decide _); [|exact H0].
      by apply untouched_kill.
  - destruct (is_alive pid W); [|discriminate]. inversion Hstep; subst.
    unfold onExit. destruct (procs W !! pid) as [p|] eqn:Hp; [|exact H].
    apply untouched_exitHandler; [|exact H]. by eapply procs_conn_untouched.
  - destruct (is_alive pid W); [|discriminate]. inversion Hstep; subst.
    unfold onError. destruct (procs W !! pid) as [p|] eqn:Hp; [|exact H].
    apply untouched_setStatus; [|exact H]. by eapply procs_conn_untouched.
  - destruct (is_alive pid W); [|discriminate]. inversion Hstep; subst.
    unfold onStdout. by destruct (procs W !! pid).
  - destruct (is_alive pid W); [|discriminate]. inversion Hstep; subst.
    unfold onStderr. by destruct (procs W !! pid).
  - inversion Hstep; subst. apply untouched_startVPN; [|exact H].
    intros ->. apply Hns. exists proto. right. by exists m.
  - destruct (due <=? clock W)%Z; [|discriminate].
    destruct (claim_task (ReconnectTimer due id' proto attempts) W) as [W0|] eqn:Hc;
      [|discriminate].
    destruct (untouched_claim _ _ _ Hc H) as [Hne H0].
    simpl in Hstep, Hne. inversion Hstep; subst. by apply untouched_startVPN.
  - inversion Hstep; subst. by apply untouched_shift, untouched_clock.
Qed.

Lemma untouched_run es : ∀ W W',
  Forall (λ e, ¬ startsConnection id e) es →
  run es W = Some W' → untouched id W → untouched id W'.
Proof.
  induction es as [|e es IH]; intros W W' Hes Hrun H; simpl in Hrun.
  - by inversion Hrun; subst.
  - apply Forall_cons in Hes as [He Hes].
    destruct (step e W) as [W1|] eqn:Hstep; [|discriminate]. simpl in Hrun.
    eapply IH; [exact Hes|exact Hrun|]. by eapply untouched_step.
Qed.

Lemma untouched_boot fs : untouched id (boot fs).
Proof. repeat split; simpl; try constructor; apply lookup_empty. Qed.

End Untouched.

(** C9. In any world the server reaches without a [start] for the name,
    [stop] on that name returns normally; all it does is log one warning,
    and the status reported for the name afterwards is ['disconnected']. *)
Theorem stop_never_started (fs : gset string) (es : list Event) (W : World)
    (connectionId : string) :
  run es (boot fs) = Some W →
  Forall (λ e, ¬ startsConnection connectionId e) es →
  stopVPN connectionId W
    = (log LWarn ("No VPN connection found for " +:+ connectionId) W, Returned ())
  ∧ getStatus (mgr (stopVPN connectionId W).1) connectionId = StDisconnected.
Proof.
  intros Hrun Hes.
  pose proof (untouched_run connectionId es _ _ Hes Hrun (untouched_boot _ fs))
    as (Hc & Hs & _).
  rewrite (stopVPN_untracked _ _ Hc). split; [reflexivity|].
  unfold getStatus. simpl. by rewrite Hs.
Qed.

Lemma stop_never_started_witness :
  ∃ W, run [CallStart "site-a" "tcp"; CallStop "other"; Tick 1000] (boot configured)
       = Some W
     ∧ stopVPN "other" W = (log LWarn "No VPN connection found for other" W, Returned ())
     ∧ getStatus (mgr (stopVPN "other" W).1) "other" = StDisconnected.
Proof.
  destruct (run [CallStart "site-a" "tcp"; CallStop "other"; Tick 1000] (boot configured))
    as [W|] eqn:Hrun; [|vm_compute in Hrun; discriminate].
  exists W. split; [reflexivity|].
  apply (stop_never_started configured
           [CallStart "site-a" "tcp"; CallStop "other"; Tick 1000] W "other" Hrun).
  repeat constructor; intros [proto [Heq|[m Heq]]]; discriminate.
Defined.

(** ** The manager: start *)

Lemma spawned_settle id c r W : spawned (settle id c r W) = spawned W.
Proof. unfold settle. by destruct c, r. Qed.

Lemma spawned_log l t W : spawned (log l t W) = spawned W.
Proof. reflexivity. Qed.

Lemma status_settle id c r W :
  connectionStatus (mgr (settle id c r W)) = connectionStatus (mgr W).
Proof. unfold settle. by destruct c, r. Qed.

Lemma outcomes_settle id c r W :
  outcomes (settle id c r W)
  = outcomes W ++ [{| o_conn := id; o_caller := c; o_result := r |}].
Proof. unfold settle. by destruct c, r. Qed.

Lemma files_settle id c r W : files (settle id c r W) = files W.
Proof. unfold settle. by destruct c, r. Qed.

(** A start on a connected name only reports success. *)
Lemma startVPN_connected id proto c r W :
  isConnected (mgr W) id = true →
  startVPN id proto c r W
  = settle id c (Returned true)
      (log LInfo ("VPN connection " +:+ id +:+ " is already active") W).
Proof. intros H. unfold startVPN. by rewrite H. Qed.

(** A start on a name in any other state spawns, whatever is tracked. *)
Lemma startVPN_spawns id proto c W :
  isConnected (mgr W) id = false →
  existsSync (configPath proto) W = true →
  existsSync authPath W = true →
  startVPN id proto c Spawned W
  = schedule (ProbeReply {| w_conn := id; w_start := clock W;
                            w_timeout := defaultTimeout; w_caller := c |})
      (setStatus id StConnecting
         (setConnection id {| process := length (procs W); protocol := proto;
                              startTime := clock W |}
            (spawn id proto
               (log LInfo ("Starting VPN connection " +:+ id +:+
                           " with protocol " +:+ proto) W)))).
Proof.
  intros Hc Hf Ha. unfold startVPN. rewrite Hc, Hf, Ha. simpl.
  unfold waitForConnection, checkConnection. simpl.
  rewrite Z.sub_diag. reflexivity.
Qed.

(** A start in which [spawn] throws runs the [catch] block and nothing else. *)
Lemma startVPN_throws id proto c m W :
  isConnected (mgr W) id = false →
  existsSync (configPath proto) W = true →
  existsSync authPath W = true →
  startVPN id proto c (SpawnThrew m) W
  = startVPN_catch id c m
      (log LInfo ("Starting VPN connection " +:+ id +:+
                  " with protocol " +:+ proto) W).
Proof. intros Hc Hf Ha. unfold startVPN. by rewrite Hc, Hf, Ha. Qed.

(** A start that finds a file missing fails before the [try]. *)
Lemma startVPN_missing id proto c r W :
  isConnected (mgr W) id = false →
  existsSync (configPath proto) W && existsSync authPath W = false →
  startVPN id proto c r W
  = settle id c (Threw (if existsSync (configPath proto) W
                        then authMissingMessage
                        else configMissingMessage proto)) W.
Proof.
  intros Hc Hf. unfold startVPN. rewrite Hc.
  destruct (existsSync (configPath proto) W); [|reflexivity].
  simpl in Hf. by rewrite Hf.
Qed.

(** C1, as the code has it.  The only guard of [start] is the state
    ['connected']: there a start spawns nothing and resolves to [true], also
    when repeated, whatever files exist and whatever [spawn] would do.  In
    every other state, ['connecting'] included, the start goes on: if the
    configuration or the credential file is missing it fails with nothing
    spawned and the state as it was; if [spawn] throws it fails with nothing
    spawned and the state ['error']; and if [spawn] returns a child, one more
    process runs and the state is ['connecting'], so a second start right
    after it, whose [spawn] returns a child too, runs a second process. *)
Theorem start_guarded_by_connected_only (connectionId protocol : string)
    (c : Caller) (r : SpawnResult) (W : World) :
  let W1 := startVPN connectionId protocol c r W in
  let failed message :=
    outcomes W1 = outcomes W ++ [{| o_conn := connectionId; o_caller := c;
                                    o_result := Threw message |}] in
  (isConnected (mgr W) connectionId = true →
     spawned W1 = spawned W
     ∧ outcomes W1 = outcomes W ++ [{| o_conn := connectionId; o_caller := c;
                                       o_result := Returned true |}]
     ∧ ∀ c2 r2, spawned (startVPN connectionId protocol c2 r2 W1) = spawned W)
  ∧ (isConnected (mgr W) connectionId = false →
     (existsSync (configPath protocol) W && existsSync authPath W = false →
        spawned W1 = spawned W
        ∧ getStatus (mgr W1) connectionId = getStatus (mgr W) connectionId
        ∧ failed (if existsSync (configPath protocol) W
                  then authMissingMessage else configMissingMessage protocol))
     ∧ (existsSync (configPath protocol) W && existsSync authPath W = true →
        match r with
        | SpawnThrew message =>
            spawned W1 = spawned W
            ∧ getStatus (mgr W1) connectionId = StError
            ∧ failed message
        | Spawned =>
            spawned W1 = S (spawned W)
            ∧ getStatus (mgr W1) connectionId = StConnecting
            ∧ ∀ c2, spawned (startVPN connectionId protocol c2 Spawned W1)
                    = S (S (spawned W))
        end)).
Proof.
  intros W1 failed. subst W1 failed. split; intros Hc.
  - rewrite (startVPN_connected _ _ _ _ _ Hc).
    split; [by rewrite spawned_settle|]. split; [by rewrite outcomes_settle|].
    intros c2 r2. rewrite startVPN_connected.
    + by repeat first [rewrite spawned_settle | rewrite spawned_log].
    + unfold isConnected in *. by rewrite status_settle.
  - split; intros Hfiles.
    + rewrite (startVPN_missing _ _ _ _ _ Hc Hfiles).
      split; [by rewrite spawned_settle|].
      split; [unfold getStatus; by rewrite status_settle|].
      by rewrite outcomes_settle.
    + apply andb_true_iff in Hfiles as [Hf Ha]. destruct r as [|m].
      * rewrite (startVPN_spawns _ _ _ _ Hc Hf Ha).
        split; [|split].
        -- unfold spawned. simpl. rewrite length_app. simpl. lia.
        -- unfold getStatus. simpl. by rewrite lookup_insert_eq.
        -- intros c2. rewrite startVPN_spawns.
           ++ unfold spawned. simpl. rewrite !length_app. simpl. lia.
           ++ unfold isConnected. simpl. rewrite lookup_insert_eq.
              by apply bool_decide_eq_false.
           ++ exact Hf.
           ++ exact Ha.
      * rewrite (startVPN_throws _ _ _ _ _ Hc Hf Ha). unfold startVPN_catch.
        split; [by rewrite spawned_settle|].
        split; [|by rewrite outcomes_settle].
        unfold getStatus. rewrite status_settle. simpl. by rewrite lookup_insert_eq.
Qed.

Lemma start_guarded_by_connected_only_witness :
  spawned (startVPN "site-a" "tcp" External Spawned siteUp) = 1%nat
  ∧ spawned (startVPN "site-a" "tcp" External Spawned (boot configured)) = 1%nat
  ∧ spawned (startVPN "site-a" "tcp" External Spawned
               (startVPN "site-a" "tcp" External Spawned (boot configured))) = 2%nat
  ∧ spawned (startVPN "site-a" "tcp" External (SpawnThrew "spawn E2BIG")
               (boot configured)) = 0%nat
  ∧ getStatus (mgr (startVPN "site-a" "tcp" External (SpawnThrew "spawn E2BIG")
                      (boot configured))) "site-a" = StError
  ∧ spawned (startVPN "site-a" "tcp" External Spawned (boot ∅)) = 0%nat.
Proof.
  destruct (start_guarded_by_connected_only "site-a" "tcp" External Spawned siteUp)
    as [H1 _].
  destruct H1 as (H1 & _ & _); [vm_compute; reflexivity|].
  destruct (start_guarded_by_connected_only "site-a" "tcp" External Spawned
              (boot configured)) as [_ H2].
  destruct H2 as [_ H2]; [vm_compute; reflexivity|].
  destruct H2 as (H2 & _ & H3); [vm_compute; reflexivity|].
  destruct (start_guarded_by_connected_only "site-a" "tcp" External
              (SpawnThrew "spawn E2BIG") (boot configured)) as [_ H4].
  destruct H4 as [_ H4]; [vm_compute; reflexivity|].
  destruct H4 as (H4 & H5 & _); [vm_compute; reflexivity|].
  destruct (start_guarded_by_connected_only "site-a" "tcp" External Spawned (boot ∅))
    as [_ H6].
  destruct H6 as [H6 _]; [vm_compute; reflexivity|].
  destruct H6 as (H6 & _ & _); [vm_compute; reflexivity|].
  split; [exact H1|]. split; [exact H2|]. split; [exact (H3 External)|].
  split; [exact H4|]. split; [exact H5|]. exact H6.
Defined.

(** C1 as stated fails: two [start] calls in immediate succession on a fresh
    name.  The second finds the state ['connecting'] and spawns a second
    tunnel process; both processes run. *)
Lemma double_start_spawns_two :
  ∃ W1 W2,
    step (CallStart "site-a" "tcp") (boot configured) = Some W1
    ∧ getStatus (mgr W1) "site-a" = StConnecting
    ∧ step (CallStart "site-a" "tcp") W1 = Some W2
    ∧ spawned W2 = 2%nat
    ∧ map p_alive (procs W2) = [true; true]
    ∧ ¬ (spawned W2 - spawned (boot configured) ≤ 1)%nat.
Proof.
  eexists _, _. split; [reflexivity|]. split; [vm_compute; reflexivity|].
  split; [reflexivity|]. split; [vm_compute; reflexivity|].
  split; [vm_compute; reflexivity|]. vm_compute. lia.
Qed.

(** ** The manager: reconnecting *)

Lemma attemptsOf_attemptReconnect id proto W :
  (0 <= maxReconnectAttempts (mgr W))%Z →
  (attemptsOf W id <= maxReconnectAttempts (mgr W))%Z →
  attemptsOf (attemptReconnect id proto W) id
  = Z.min (attemptsOf W id + 1) (maxReconnectAttempts (mgr W))
  ∧ maxReconnectAttempts (mgr (attemptReconnect id proto W))
    = maxReconnectAttempts (mgr W).
Proof.
  intros Hmax Hle. unfold attemptReconnect. fold (attemptsOf W id).
  destruct (maxReconnectAttempts (mgr W) <=? attemptsOf W id)%Z eqn:Hcmp.
  - apply Z.leb_le in Hcmp. split; [|reflexivity].
    change (attemptsOf (log _ _ W) id) with (attemptsOf W id). lia.
  - apply Z.leb_gt in Hcmp. split; [|reflexivity].
    unfold attemptsOf at 1. simpl. rewrite lookup_insert_eq. simpl. lia.
Qed.

(** What an unintentional exit schedules depends on the counter alone. *)
Lemma exitHandler_unintentional id proto pid code signal W :
  unintentional code signal = true →
  pending (exitHandler id proto pid code signal W)
  = if (attemptsOf W id <? maxReconnectAttempts (mgr W))%Z
    then ReconnectTimer (clock W + reconnectDelay (mgr W)) id proto (attemptsOf W id)
         :: pending W
    else pending W.
Proof.
  intros Hu. unfold exitHandler. rewrite Hu. unfold attemptReconnect.
  match goal with |- context [reconnectAttempts (mgr ?W0) !! id] =>
    change (default 0%Z (reconnectAttempts (mgr W0) !! id)) with (attemptsOf W id);
    change (maxReconnectAttempts (mgr W0)) with (maxReconnectAttempts (mgr W)) end.
  rewrite Z.ltb_antisym.
  destruct (maxReconnectAttempts (mgr W) <=? attemptsOf W id)%Z; reflexivity.
Qed.

(** After [n] unintentional exits in a row the counter is [n], capped. *)
Lemma consecutiveExits_counter id proto W n Wn :
  consecutiveExits id proto W n Wn →
  attemptsOf W id = 0%Z →
  (0 <= maxReconnectAttempts (mgr W))%Z →
  attemptsOf Wn id = Z.min (Z.of_nat n) (maxReconnectAttempts (mgr W))
  ∧ maxReconnectAttempts (mgr Wn) = maxReconnectAttempts (mgr W).
Proof.
  intros Hex H0 Hmax. induction Hex as [|n Wn pid code signal W' Hex [IHc IHm] Hu Hc Hm].
  - split; [|reflexivity]. rewrite H0. simpl. lia.
  - split; [|congruence]. rewrite Hc. unfold exitHandler. rewrite Hu.
    match goal with |- attemptsOf (attemptReconnect _ _ ?W0) _ = _ =>
      destruct (attemptsOf_attemptReconnect id proto W0) as [-> _];
      change (attemptsOf W0 id) with (attemptsOf Wn id);
      change (maxReconnectAttempts (mgr W0)) with (maxReconnectAttempts (mgr Wn)) end;
      lia.
Qed.

(** C2, as the code has it.  Start from a counter of zero and let the
    processes of a connection exit unintentionally [n] times in a row.  At
    the next such exit, number [n + 1], the handler leaves the connection
    ['disconnected']; it schedules one [start] after the reconnect delay when
    [n] is below the maximum and schedules nothing when [n] has reached it.
    So each of the first [maxReconnectAttempts] exits schedules an attempt
    and the one after them is the first that does not. *)
Theorem reconnect_stops_after_ceiling (connectionId protocol : string)
    (W : World) (n : nat) (Wn : World)
    (pid : nat) (code : option Z) (signal : option string) :
  attemptsOf W connectionId = 0%Z →
  (0 <= maxReconnectAttempts (mgr W))%Z →
  consecutiveExits connectionId protocol W n Wn →
  unintentional code signal = true →
  let W' := exitHandler connectionId protocol pid code signal Wn in
  getStatus (mgr W') connectionId = StDisconnected
  ∧ pending W'
    = if (Z.of_nat n <? maxReconnectAttempts (mgr W))%Z
      then ReconnectTimer (clock Wn + reconnectDelay (mgr Wn)) connectionId protocol
             (Z.of_nat n) :: pending Wn
      else pending Wn.
Proof.
  intros H0 Hmax Hex Hu W'. subst W'.
  destruct (consecutiveExits_counter _ _ _ _ _ Hex H0 Hmax) as [Hc Hm].
  split.
  - unfold getStatus. by rewrite exitHandler_status.
  - rewrite (exitHandler_unintentional _ _ _ _ _ _ Hu), Hc, Hm.
    destruct (Z.of_nat n <? maxReconnectAttempts (mgr W))%Z eqn:Hn.
    + apply Z.ltb_lt in Hn. rewrite Z.min_l by lia.
      replace (Z.of_nat n <? maxReconnectAttempts (mgr W))%Z with true
        by (symmetry; apply Z.ltb_lt; lia).
      reflexivity.
    + apply Z.ltb_ge in Hn. rewrite Z.min_r by lia.
      by rewrite Z.ltb_irrefl.
Qed.

(** Three exits with code 1, each followed by its reconnect: four processes
    were spawned in all and the counter stands at the maximum. *)
Example exitAndReconnect_thrice :
  let W3 := exitAndReconnect 2 (exitAndReconnect 1 (exitAndReconnect 0 siteUp)) in
  spawned W3 = 4%nat ∧ attemptsOf W3 "site-a" = 3%Z
  ∧ getStatus (mgr W3) "site-a" = StConnecting.
Proof. repeat split; vm_compute; reflexivity. Qed.

Lemma reconnect_stops_after_ceiling_witness :
  let W3 := exitAndReconnect 2 (exitAndReconnect 1 (exitAndReconnect 0 siteUp)) in
  let W' := exitHandler "site-a" "tcp" 3 (Some 1%Z) None W3 in
  getStatus (mgr W') "site-a" = StDisconnected ∧ pending W' = pending W3.
Proof.
  intros W3 W'.
  assert (Hmax : maxReconnectAttempts (mgr siteUp) = 3%Z) by (vm_compute; reflexivity).
  pose proof (reconnect_stops_after_ceiling "site-a" "tcp" siteUp 3 W3
                3 (Some 1%Z) None) as H.
  rewrite Hmax in H. apply H.
  - vm_compute. reflexivity.
  - lia.
  - apply (exits_more _ _ _ 2 (exitAndReconnect 1 (exitAndReconnect 0 siteUp))
             2 (Some 1%Z) None);
      [|reflexivity|vm_compute; reflexivity|vm_compute; reflexivity].
    apply (exits_more _ _ _ 1 (exitAndReconnect 0 siteUp) 1 (Some 1%Z) None);
      [|reflexivity|vm_compute; reflexivity|vm_compute; reflexivity].
    apply (exits_more _ _ _ 0 siteUp 0 (Some 1%Z) None);
      [|reflexivity|vm_compute; reflexivity|vm_compute; reflexivity].
    apply exits_none.
  - reflexivity.
Defined.

(** C2 as stated fails for the default maximum of three: when the third
    unintentional exit in a row has been handled, a reconnect timer is
    outstanding, and when it fires a fourth process is spawned and the
    connection is ['connecting']. *)
Lemma third_exit_still_reconnects :
  maxReconnectAttempts (mgr (boot configured)) = 3%Z
  ∧ (pending <$> run threeExits (boot configured))
    = Some [ ReconnectTimer 15000 "site-a" "tcp" 2;
             ProbeReply (reconnectWaiter 10000 1);
             ProbeReply (reconnectWaiter 5000 0) ]
  ∧ (spawned <$> run threeExits (boot configured)) = Some 3%nat
  ∧ (spawned <$> run (threeExits ++
                      [Tick 5000; Fire (ReconnectTimer 15000 "site-a" "tcp" 2)])
                     (boot configured)) = Some 4%nat
  ∧ ((λ W, getStatus (mgr W) "site-a")
       <$> run (threeExits ++
                [Tick 5000; Fire (ReconnectTimer 15000 "site-a" "tcp" 2)])
               (boot configured)) = Some StConnecting.
Proof. repeat split; vm_compute; reflexivity. Qed.

(** ** The manager: the liveness probe *)

Lemma run_app es1 : ∀ es2 W, run (es1 ++ es2) W = W' ← run es1 W; run es2 W'.
Proof.
  induction es1 as [|e es1 IH]; intros es2 W; simpl; [reflexivity|].
  destruct (step e W) as [W1|]; simpl; [apply IH|reflexivity].
Qed.

Lemma run_step e es W W1 : step e W = Some W1 → run (e :: es) W = run es W1.
Proof. intros H. simpl. by rewrite H. Qed.

Lemma step_tick dt W :
  (0 <= dt)%Z → step (Tick dt) W = Some (with_clock (λ t, t + dt)%Z W).
Proof. intros H. simpl. by rewrite (proj2 (Z.leb_le 0 dt) H). Qed.

Lemma claim_task_head t rest W :
  pending W = t :: rest → claim_task t W = Some (with_pending (λ _, rest) W).
Proof.
  intros H. unfold claim_task. rewrite H. simpl. by rewrite decide_True.
Qed.

Lemma step_probe_nothing w out rest W :
  pending W = ProbeReply w :: rest →
  includes "tun" out = false →
  step (ProbeDone w out) W
  = Some (schedule (PollTimer (clock W + checkInterval) w) (with_pending (λ _, rest) W)).
Proof.
  intros Hp Hout. simpl. rewrite (claim_task_head _ _ _ Hp). simpl.
  unfold probeCallback. by rewrite Hout, andb_false_r.
Qed.

Lemma step_poll due w rest W :
  pending W = PollTimer due w :: rest →
  (due <= clock W)%Z →
  step (Fire (PollTimer due w)) W = Some (checkConnection w (with_pending (λ _, rest) W)).
Proof.
  intros Hp Hdue. simpl. rewrite (proj2 (Z.leb_le _ _) Hdue).
  by rewrite (claim_task_head _ _ _ Hp).
Qed.

(** One round of a probe that finds nothing ends in [checkConnection], run
    one interval and the round's latencies later. *)
Lemma failedPoll_run w B p rest W :
  neverUp B p →
  pending W = ProbeReply w :: rest →
  ∃ Wr, run (failedPoll w (clock W) p) W = Some (checkConnection w Wr)
      ∧ clock Wr = (clock W + poll_exec p + checkInterval + poll_late p)%Z
      ∧ pending Wr = rest ∧ mgr Wr = mgr W ∧ outcomes Wr = outcomes W.
Proof.
  intros (Hout & Hexec & Hlate & _) Hp. unfold failedPoll.
  rewrite (run_step _ _ _ _ (step_tick _ _ Hexec)).
  erewrite run_step by (apply (step_probe_nothing _ _ rest); [exact Hp|exact Hout]).
  erewrite run_step by (apply step_tick; unfold checkInterval; lia).
  erewrite run_step by (apply (step_poll _ _ rest); [reflexivity|simpl; lia]).
  eexists. split; [reflexivity|]. simpl. repeat split. lia.
Qed.

(** A wait whose probe never finds the route is rejected at the first check
    that comes after the deadline. *)
Lemma wait_times_out w B (polls : nat → Poll) :
  (∀ i, neverUp B (polls i)) →
  ∀ fuel k W rest,
    pending W = ProbeReply w :: rest →
    (clock W - w_start w <= w_timeout w)%Z →
    (w_timeout w - (clock W - w_start w) < Z.of_nat fuel * checkInterval)%Z →
    ∃ n W', (1 ≤ n ≤ fuel)%nat
      ∧ run (failedPolls w (clock W) (map polls (seq k n))) W = Some W'
      ∧ connectionStatus (mgr W') !! w_conn w = Some StError
      ∧ outcomes W' = outcomes W ++ [timedOut w]
      ∧ (w_timeout w < clock W' - w_start w <= w_timeout w + checkInterval + B)%Z
      ∧ pending W' = rest.
Proof.
  intros Hpolls. induction fuel as [|fuel IH]; intros k W rest Hp Hle Hfuel; [lia|].
  pose proof (Hpolls k) as Hk.
  destruct (failedPoll_run w B (polls k) rest W Hk Hp)
    as (Wr & Hrun & Hclock & Hpr & Hmr & Hor).
  destruct Hk as (_ & Hexec & Hlate & HB).
  destruct (w_timeout w <? clock Wr - w_start w)%Z eqn:Hcmp.
  - apply Z.ltb_lt in Hcmp.
    exists 1%nat, (checkConnection w Wr). split; [lia|].
    cbn [map seq failedPolls]. rewrite app_nil_r. split; [exact Hrun|].
    unfold checkConnection. rewrite (proj2 (Z.ltb_lt _ _) Hcmp).
    unfold startVPN_catch. rewrite status_settle, outcomes_settle. simpl.
    split; [apply lookup_insert_eq|]. split; [by rewrite Hor|].
    destruct (w_caller w); simpl; (split; [lia|exact Hpr]).
  - apply Z.ltb_ge in Hcmp.
    assert (Hcheck : checkConnection w Wr = schedule (ProbeReply w) Wr).
    { unfold checkConnection. by rewrite (proj2 (Z.ltb_ge _ _) Hcmp). }
    destruct (IH (S k) (schedule (ProbeReply w) Wr) rest)
      as (n & W' & Hn & Hrun' & Hst & Hout & Htime & Hpend).
    + simpl. by rewrite Hpr.
    + simpl. lia.
    + simpl. unfold checkInterval in *. lia.
    + exists (S n), W'. split; [lia|]. split.
      * cbn [map seq failedPolls]. rewrite run_app, Hrun, <- Hclock, Hcheck.
        exact Hrun'.
      * split; [exact Hst|]. split; [|split; [exact Htime|exact Hpend]].
        rewrite Hout. simpl. by rewrite Hor.
Qed.

(** * Further properties of the manager *)

(** ** What each handler leaves alone *)

Lemma connections_settle id c r W :
  connections (mgr (settle id c r W)) = connections (mgr W).
Proof. unfold settle. by destruct c, r. Qed.

Lemma procs_settle id c r W : procs (settle id c r W) = procs W.
Proof. unfold settle. by destruct c, r. Qed.

Lemma pending_settle id c r W : pending (settle id c r W) = pending W.
Proof. unfold settle. by destruct c, r. Qed.


Lemma connections_attemptReconnect id proto W :
  connections (mgr (attemptReconnect id proto W)) = connections (mgr W).
Proof. unfold attemptReconnect. destruct (_ <=? _)%Z; reflexivity. Qed.

Lemma procs_attemptReconnect id proto W :
  procs (attemptReconnect id proto W) = procs W.
Proof. unfold attemptReconnect. destruct (_ <=? _)%Z; reflexivity. Qed.

Lemma files_attemptReconnect id proto W :
  files (attemptReconnect id proto W) = files W.
Proof. unfold attemptReconnect. destruct (_ <=? _)%Z; reflexivity. Qed.

Lemma clock_attemptReconnect id proto W :
  clock (attemptReconnect id proto W) = clock W.
Proof. unfold attemptReconnect. destruct (_ <=? _)%Z; reflexivity. Qed.

Lemma connections_exitHandler id proto pid code signal W :
  connections (mgr (exitHandler id proto pid code signal W))
  = delete id (connections (mgr W)).
Proof.
  unfold exitHandler. destruct (unintentional code signal); [|reflexivity].
  by rewrite connections_attemptReconnect.
Qed.

Lemma procs_exitHandler id proto pid code signal W :
  procs (exitHandler id proto pid code signal W)
  = alter (λ p, {| p_conn := p_conn p; p_proto := p_proto p; p_args := p_args p;
                   p_alive := false; p_signals := p_signals p |}) pid (procs W).
Proof.
  unfold exitHandler. destruct (unintentional code signal); [|reflexivity].
  by rewrite procs_attemptReconnect.
Qed.

Lemma files_exitHandler id proto pid code signal W :
  files (exitHandler id proto pid code signal W) = files W.
Proof.
  unfold exitHandler. destruct (unintentional code signal); [|reflexivity].
  by rewrite files_attemptReconnect.
Qed.

Lemma clock_exitHandler id proto pid code signal W :
  clock (exitHandler id proto pid code signal W) = clock W.
Proof.
  unfold exitHandler. destruct (unintentional code signal); [|reflexivity].
  by rewrite clock_attemptReconnect.
Qed.

Lemma connections_checkConnection w W :
  connections (mgr (checkConnection w W)) = connections (mgr W).
Proof.
  unfold checkConnection, startVPN_catch. destruct (_ <? _)%Z; [|reflexivity].
  by rewrite connections_settle.
Qed.

Lemma procs_checkConnection w W : procs (checkConnection w W) = procs W.
Proof.
  unfold checkConnection, startVPN_catch. destruct (_ <? _)%Z; [|reflexivity].
  by rewrite procs_settle.
Qed.


Lemma connections_probeCallback w out W :
  connections (mgr (probeCallback w out W)) = connections (mgr W).
Proof.
  unfold probeCallback, startVPN_established. destruct (_ && _); [|reflexivity].
  by rewrite connections_settle.
Qed.

Lemma procs_probeCallback w out W : procs (probeCallback w out W) = procs W.
Proof.
  unfold probeCallback, startVPN_established. destruct (_ && _); [|reflexivity].
  by rewrite procs_settle.
Qed.


Lemma connections_stopVPN id W :
  connections (mgr (stopVPN id W).1) = delete id (connections (mgr W)).
Proof.
  unfold stopVPN. destruct (connections (mgr W) !! id) eqn:Hc; simpl; [reflexivity|].
  by rewrite delete_id.
Qed.

(** A [start] for one name leaves the entries of the other names alone. *)
Lemma connections_startVPN_ne id' proto c r W id :
  id' ≠ id →
  connections (mgr (startVPN id' proto c r W)) !! id = connections (mgr W) !! id.
Proof.
  intros Hne. unfold startVPN.
  destruct (isConnected _ _); [by rewrite connections_settle|].
  destruct (negb (existsSync (configPath proto) W)); [by rewrite connections_settle|].
  destruct (negb (existsSync authPath W)); [by rewrite connections_settle|].
  destruct r as [|m].
  - unfold waitForConnection. rewrite connections_checkConnection. simpl.
    by rewrite lookup_insert_ne.
  - unfold startVPN_catch. by rewrite connections_settle.
Qed.

(** A [start] in which [spawn] throws tracks nothing. *)
Lemma connections_startVPN_throws id proto c m W :
  connections (mgr (startVPN id proto c (SpawnThrew m) W)) = connections (mgr W).
Proof.
  unfold startVPN.
  destruct (isConnected _ _); [by rewrite connections_settle|].
  destruct (negb (existsSync (configPath proto) W)); [by rewrite connections_settle|].
  destruct (negb (existsSync authPath W)); [by rewrite connections_settle|].
  unfold startVPN_catch. by rewrite connections_settle.
Qed.

Lemma procs_startVPN_throws id proto c m W :
  procs (startVPN id proto c (SpawnThrew m) W) = procs W.
Proof.
  unfold startVPN.
  destruct (isConnected _ _); [by rewrite procs_settle|].
  destruct (negb (existsSync (configPath proto) W)); [by rewrite procs_settle|].
  destruct (negb (existsSync authPath W)); [by rewrite procs_settle|].
  unfold startVPN_catch. by rewrite procs_settle.
Qed.

Lemma claim_task_frame t W W' :
  claim_task t W = Some W' →
  mgr W' = mgr W ∧ procs W' = procs W ∧ clock W' = clock W ∧ files W' = files W
  ∧ outcomes W' = outcomes W.
Proof.
  unfold claim_task. destruct (take_task t (pending W)); [|discriminate].
  simpl. intros H. by inversion H; subst.
Qed.

Lemma take_task_elem t l : t ∈ l → is_Some (take_task t l).
Proof.
  induction l as [|x l IH]; intros H; [by apply elem_of_nil in H|].
  simpl. destruct (decide (x = t)); [eauto|].
  apply elem_of_cons in H as [->|H]; [done|].
  destruct (IH H) as [l' ->]. simpl. eauto.
Qed.

(** A name that is not tracked stays so until [startVPN] runs for it. *)
Lemma untracked_step id e W W' :
  runsStartOf id e = false →
  step e W = Some W' →
  connections (mgr W) !! id = None →
  connections (mgr W') !! id = None.
Proof.
  intros He Hstep Hc.
  destruct e as [dt|id' proto|id'|w out|t|pid code signal|pid m|pid d|pid d
                |id' proto m|due id' proto attempts m|dz];
    simpl in Hstep, He.
  - destruct (0 <=? dt)%Z; inversion Hstep; subst. exact Hc.
  - inversion Hstep; subst. rewrite connections_startVPN_ne; [exact Hc|].
    intros ->. by rewrite bool_decide_eq_true_2 in He.
  - inversion Hstep; subst. rewrite connections_stopVPN.
    apply lookup_delete_None. by right.
  - destruct (claim_task (ProbeReply w) W) as [W0|] eqn:Hcl; [|discriminate].
    simpl in Hstep. inversion Hstep; subst. rewrite connections_probeCallback.
    destruct (claim_task_frame _ _ _ Hcl) as (-> & _). exact Hc.
  - destruct t as [w|due w|due id' proto attempts|due id' pid]; [discriminate|..];
      destruct (due <=? clock W)%Z; try discriminate;
      match type of Hstep with context [claim_task ?t W] =>
        destruct (claim_task t W) as [W0|] eqn:Hcl; [|discriminate];
        destruct (claim_task_frame _ _ _ Hcl) as (Hm & _) end;
      simpl in Hstep; inversion Hstep; subst.
    + rewrite connections_checkConnection, Hm. exact Hc.
    + unfold reconnectCallback. rewrite connections_startVPN_ne, Hm; [exact Hc|].
      intros ->. by rewrite bool_decide_eq_true_2 in He.
    + unfold killCallback. destruct (bool_decide _); simpl; rewrite Hm; exact Hc.
  - destruct (is_alive pid W); [|discriminate]. inversion Hstep; subst.
    unfold onExit. destruct (procs W !! pid) as [p|]; [|exact Hc].
    rewrite connections_exitHandler. apply lookup_delete_None. by right.
  - destruct (is_alive pid W); [|discriminate]. inversion Hstep; subst.
    unfold onError. by destruct (procs W !! pid).
  - destruct (is_alive pid W); [|discriminate]. inversion Hstep; subst.
    unfold onStdout. by destruct (procs W !! pid).
  - destruct (is_alive pid W); [|discriminate]. inversion Hstep; subst.
    unfold onStderr. by destruct (procs W !! pid).
  - inversion Hstep; subst. by rewrite connections_startVPN_throws.
  - destruct (due <=? clock W)%Z; [|discriminate].
    destruct (claim_task (ReconnectTimer due id' proto attempts) W) as [W0|] eqn:Hcl;
      [|discriminate].
    destruct (claim_task_frame _ _ _ Hcl) as (Hm & _).
    simpl in Hstep. inversion Hstep; subst.
    unfold reconnectCallback. by rewrite connections_startVPN_throws, Hm.
  - inversion Hstep; subst. exact Hc.
Qed.

Lemma untracked_run id es : ∀ W W',
  Forall (λ e, runsStartOf id e = false) es →
  run es W = Some W' →
  connections (mgr W) !! id = None →
  connections (mgr W') !! id = None.
Proof.
  induction es as [|e es IH]; intros W W' Hes Hrun Hc; simpl in Hrun.
  - by inversion Hrun; subst.
  - apply Forall_cons in Hes as [He Hes].
    destruct (step e W) as [W1|] eqn:Hstep; [|discriminate]. simpl in Hrun.
    eapply IH; [exact Hes|exact Hrun|]. by eapply untracked_step.
Qed.

(** ** Stopping *)

Lemma stop_then_stop_facts id c W :
  connections (mgr W) !! id = Some c →
  connectionStatus (mgr (stopVPN id W).1) !! id = Some StDisconnected
  ∧ reconnectAttempts (mgr (stopVPN id W).1) !! id = None
  ∧ ∀ p, procs W !! process c = Some p →
      ∃ p', procs (stopVPN id W).1 !! process c = Some p' ∧ "SIGTERM" ∈ p_signals p'.
Proof.
  intros Hc. unfold stopVPN. rewrite Hc. simpl.
  split; [apply lookup_insert_eq|]. split; [apply lookup_delete_eq|].
  intros p Hp. rewrite list_lookup_alter_eq, Hp. simpl. eexists. split; [reflexivity|].
  simpl. apply elem_of_app. right. apply list_elem_of_here.
Qed.

(** X1. Stopping a tracked connection sends SIGTERM to the tracked process,
    sets the kill timer five seconds ahead, untracks the name, marks it
    ['disconnected'] and clears its reconnect counter; the status listing
    then shows it with protocol ['unknown'] and uptime 0, unless the name is
    ["__proto__"], for which the listing has no entry of its own.  A second
    [stop] right after it only logs the warning. *)
Theorem stop_then_stop (connectionId : string) (c : Connection) (W : World) :
  connections (mgr W) !! connectionId = Some c →
  let W1 := (stopVPN connectionId W).1 in
  getStatus (mgr W1) connectionId = StDisconnected
  ∧ attemptsOf W1 connectionId = 0%Z
  ∧ connections (mgr W1) !! connectionId = None
  ∧ pending W1 = KillTimer (clock W + killGrace) connectionId (process c) :: pending W
  ∧ (∀ p, procs W !! process c = Some p →
       ∃ p', procs W1 !! process c = Some p'
             ∧ p_signals p' = p_signals p ++ ["SIGTERM"] ∧ p_alive p' = p_alive p)
  ∧ getAllStatuses W1 !! connectionId
    = (if decide (connectionId = "__proto__") then None
       else Some {| r_status := StDisconnected; r_protocol := "unknown";
                    r_uptime := 0 |})
  ∧ stopVPN connectionId W1
    = (log LWarn ("No VPN connection found for " +:+ connectionId) W1, Returned ()).
Proof.
  intros Hc W1.
  assert (HW1 : W1 = deleteAttempts connectionId
            (setStatus connectionId StDisconnected
               (deleteConnection connectionId
                  (schedule (KillTimer (clock W + killGrace) connectionId (process c))
                     (kill (process c) "SIGTERM"
                        (log LInfo ("Stopping VPN connection " +:+ connectionId) W)))))).
  { subst W1. unfold stopVPN. by rewrite Hc. }
  assert (Hnone : connections (mgr W1) !! connectionId = None).
  { rewrite HW1. simpl. apply lookup_delete_eq. }
  split; [rewrite HW1; unfold getStatus; simpl; by rewrite lookup_insert_eq|].
  split; [rewrite HW1; unfold attemptsOf; simpl; by rewrite lookup_delete_eq|].
  split; [exact Hnone|]. split; [by rewrite HW1|]. split.
  - intros p Hp. rewrite HW1. simpl. rewrite list_lookup_alter_eq, Hp. simpl. eauto.
  - split; [|by apply stopVPN_untracked].
    unfold getAllStatuses. rewrite map_lookup_imap, Hnone. rewrite HW1. simpl.
    rewrite lookup_insert_eq. simpl. by destruct (decide (connectionId = "__proto__")).
Qed.

Lemma stop_then_stop_witness :
  let W1 := (stopVPN "site-a" siteUp).1 in
  getStatus (mgr W1) "site-a" = StDisconnected
  ∧ getAllStatuses W1 !! "site-a"
    = Some {| r_status := StDisconnected; r_protocol := "unknown"; r_uptime := 0 |}
  ∧ stopVPN "site-a" W1 = (log LWarn "No VPN connection found for site-a" W1, Returned ()).
Proof.
  intros W1.
  assert (Hc : connections (mgr siteUp) !! "site-a"
               = Some {| process := 0; protocol := "tcp"; startTime := 0 |})
    by (vm_compute; reflexivity).
  destruct (stop_then_stop "site-a" _ siteUp Hc) as (H1 & _ & _ & _ & _ & H2 & H3).
  split; [exact H1|]. split; [|exact H3].
  etrans; [exact H2|]. reflexivity.
Defined.

(** X2. The forced kill is never sent unless the name is started again:
    [stop] untracks the name at once, and the kill timer only sends SIGKILL
    while the name is tracked.  So whatever happens after a [stop], as long
    as [startVPN] does not run for the name, the kill timer of that [stop]
    signals no process. *)
Theorem forced_kill_needs_restart (connectionId : string) (W : World)
    (es : list Event) (W1 : World) (due : Z) (pid : nat) (W2 : World) :
  run es (stopVPN connectionId W).1 = Some W1 →
  Forall (λ e, runsStartOf connectionId e = false) es →
  step (Fire (KillTimer due connectionId pid)) W1 = Some W2 →
  procs W2 = procs W1.
Proof.
  intros Hrun Hes Hstep.
  assert (Hc : connections (mgr W1) !! connectionId = None).
  { eapply untracked_run; [exact Hes|exact Hrun|].
    rewrite connections_stopVPN. apply lookup_delete_eq. }
  simpl in Hstep. destruct (due <=? clock W1)%Z; [|discriminate].
  destruct (claim_task _ W1) as [W0|] eqn:Hcl; [|discriminate].
  destruct (claim_task_frame _ _ _ Hcl) as (Hm & Hp & _).
  simpl in Hstep. inversion Hstep; subst. unfold killCallback.
  rewrite Hm, Hc. rewrite bool_decide_eq_false_2 by (intros [? ?]; discriminate).
  exact Hp.
Qed.

Lemma forced_kill_needs_restart_witness :
  ∃ W1 W2,
    run [Tick 5000; ProcStderr 0 "still here"] (stopVPN "site-a" siteUp).1 = Some W1
    ∧ step (Fire (KillTimer 5000 "site-a" 0)) W1 = Some W2
    ∧ procs W2 = procs W1.
Proof.
  destruct (run [Tick 5000; ProcStderr 0 "still here"] (stopVPN "site-a" siteUp).1)
    as [W1|] eqn:Hrun; [|vm_compute in Hrun; discriminate].
  destruct (step (Fire (KillTimer 5000 "site-a" 0)) W1) as [W2|] eqn:Hstep.
  2: { assert (Hs : is_Some (W ← run [Tick 5000; ProcStderr 0 "still here"]
                                  (stopVPN "site-a" siteUp).1;
                             step (Fire (KillTimer 5000 "site-a" 0)) W))
         by (vm_compute; eauto).
       rewrite Hrun in Hs.
       change (is_Some (step (Fire (KillTimer 5000 "site-a" 0)) W1)) in Hs.
       rewrite Hstep in Hs. by destruct Hs. }
  exists W1, W2. split; [reflexivity|]. split; [exact Hstep|].
  apply (forced_kill_needs_restart "site-a" siteUp
           [Tick 5000; ProcStderr 0 "still here"] W1 5000 0 W2 Hrun); [|exact Hstep].
  repeat constructor.
Defined.

Lemma step_reconnect due id proto attempts rest W :
  pending W = ReconnectTimer due id proto attempts :: rest →
  (due <= clock W)%Z →
  step (Fire (ReconnectTimer due id proto attempts)) W
  = Some (reconnectCallback id proto attempts Spawned (with_pending (λ _, rest) W)).
Proof.
  intros Hp Hdue. simpl. rewrite (proj2 (Z.leb_le _ _) Hdue).
  by rewrite (claim_task_head _ _ _ Hp).
Qed.

(** X3. [stop] cannot call off a reconnect.  After an unintentional exit
    with attempts left, the name is no longer tracked, so [stop] only logs
    its warning: the reconnect timer stays set, and when it fires a new
    process is spawned for the name the caller has just stopped. *)
Theorem stop_cannot_cancel_reconnect (connectionId protocol : string) (pid : nat)
    (code : option Z) (signal : option string) (W : World) (dt : Z) :
  unintentional code signal = true →
  (attemptsOf W connectionId < maxReconnectAttempts (mgr W))%Z →
  existsSync (configPath protocol) W = true →
  existsSync authPath W = true →
  (0 <= dt)%Z →
  (reconnectDelay (mgr W) <= dt)%Z →
  let W1 := exitHandler connectionId protocol pid code signal W in
  let t := ReconnectTimer (clock W + reconnectDelay (mgr W)) connectionId protocol
             (attemptsOf W connectionId) in
  stopVPN connectionId W1
    = (log LWarn ("No VPN connection found for " +:+ connectionId) W1, Returned ())
  ∧ pending (stopVPN connectionId W1).1 = t :: pending W
  ∧ ∃ W2, run [Tick dt; Fire t] (stopVPN connectionId W1).1 = Some W2
        ∧ spawned W2 = S (spawned W)
        ∧ getStatus (mgr W2) connectionId = StConnecting.
Proof.
  intros Hu Hlt Hf Ha Hdt Hdelay W1 t.
  assert (Hstop : stopVPN connectionId W1
            = (log LWarn ("No VPN connection found for " +:+ connectionId) W1,
               Returned ())).
  { apply stopVPN_untracked. subst W1. rewrite connections_exitHandler.
    apply lookup_delete_eq. }
  assert (Hpend : pending W1 = t :: pending W).
  { subst W1 t. rewrite (exitHandler_unintentional _ _ _ _ _ _ Hu).
    by rewrite (proj2 (Z.ltb_lt _ _) Hlt). }
  split; [exact Hstop|]. rewrite Hstop. cbn [fst]. split; [exact Hpend|].
  eexists. split.
  { erewrite run_step by (by apply step_tick).
    erewrite run_step; [reflexivity|].
    apply (step_reconnect _ _ _ _ (pending W)); [exact Hpend|].
    simpl. subst W1. rewrite clock_exitHandler. lia. }
  unfold reconnectCallback. rewrite startVPN_spawns.
  - split.
    + unfold spawned. simpl. rewrite length_app. simpl. subst W1.
      rewrite procs_exitHandler, length_alter. lia.
    + unfold getStatus. simpl. by rewrite lookup_insert_eq.
  - unfold isConnected. simpl. subst W1. rewrite exitHandler_status.
    by apply bool_decide_eq_false.
  - unfold existsSync in *. simpl. subst W1. by rewrite files_exitHandler.
  - unfold existsSync in *. simpl. subst W1. by rewrite files_exitHandler.
Qed.

Lemma stop_cannot_cancel_reconnect_witness :
  let W1 := exitHandler "site-a" "tcp" 0 (Some 1%Z) None siteUp in
  stopVPN "site-a" W1 = (log LWarn "No VPN connection found for site-a" W1, Returned ())
  ∧ ∃ W2, run [Tick 5000; Fire (ReconnectTimer 5000 "site-a" "tcp" 0)]
              (stopVPN "site-a" W1).1 = Some W2
        ∧ spawned W2 = 2%nat
        ∧ getStatus (mgr W2) "site-a" = StConnecting.
Proof.
  intros W1.
  assert (Hm : maxReconnectAttempts (mgr siteUp) = 3%Z) by (vm_compute; reflexivity).
  assert (Ha : attemptsOf siteUp "site-a" = 0%Z) by (vm_compute; reflexivity).
  assert (Hd : reconnectDelay (mgr siteUp) = 5000%Z) by (vm_compute; reflexivity).
  assert (Hc : clock siteUp = 0%Z) by (vm_compute; reflexivity).
  assert (Hs : spawned siteUp = 1%nat) by (vm_compute; reflexivity).
  pose proof (stop_cannot_cancel_reconnect "site-a" "tcp" 0 (Some 1%Z) None siteUp 5000)
    as H.
  rewrite Hm, Ha, Hd, Hc, Hs in H.
  destruct H as (H1 & _ & H2); [reflexivity|lia|vm_compute; reflexivity..|lia|lia|].
  split; [exact H1|exact H2].
Defined.



(** X4. The exit handler of a process untracks whatever is tracked under its
    name, also when that is another, newer process.  The handler marks the
    name ['disconnected'] and touches no other process, and a [stop] for the
    name afterwards only logs its warning: a process that was still tracked
    at that moment can no longer be stopped through the manager. *)
Theorem exit_untracks_whatever_is_tracked (pid : nat) (p : Proc)
    (code : option Z) (signal : option string) (W : World) :
  procs W !! pid = Some p →
  let W' := onExit pid code signal W in
  connections (mgr W') !! p_conn p = None
  ∧ getStatus (mgr W') (p_conn p) = StDisconnected
  ∧ (∀ pid', pid' ≠ pid → procs W' !! pid' = procs W !! pid')
  ∧ stopVPN (p_conn p) W'
    = (log LWarn ("No VPN connection found for " +:+ p_conn p) W', Returned ()).
Proof.
  intros Hp W'. subst W'. unfold onExit. rewrite Hp.
  assert (Hc : connections (mgr (exitHandler (p_conn p) (p_proto p) pid code signal W))
               !! p_conn p = None).
  { rewrite connections_exitHandler. apply lookup_delete_eq. }
  split; [exact Hc|]. split; [|split].
  - unfold getStatus. by rewrite exitHandler_status.
  - intros pid' Hne. rewrite procs_exitHandler. by apply list_lookup_alter_ne.
  - by apply stopVPN_untracked.
Qed.

Lemma exit_untracks_whatever_is_tracked_witness :
  let W' := onExit 0 (Some 0%Z) None startedTwice in
  process <$> connections (mgr startedTwice) !! "site-a" = Some 1%nat
  ∧ connections (mgr W') !! "site-a" = None
  ∧ p_alive <$> procs W' !! 1%nat = Some true
  ∧ stopVPN "site-a" W' = (log LWarn "No VPN connection found for site-a" W', Returned ()).
Proof.
  intros W'.
  assert (Hp : procs startedTwice !! 0%nat
               = Some {| p_conn := "site-a"; p_proto := "tcp";
                         p_args := spawnArgs "site-a" "tcp";
                         p_alive := true; p_signals := [] |})
    by (vm_compute; reflexivity).
  destruct (exit_untracks_whatever_is_tracked 0 _ (Some 0%Z) None startedTwice Hp)
    as (H1 & _ & H2 & H3).
  split; [vm_compute; reflexivity|]. split; [exact H1|].
  split; [|exact H3]. subst W'. rewrite (H2 1%nat) by discriminate.
  vm_compute. reflexivity.
Defined.

Lemma unintentional_signalled code sig : sig ≠ "" → unintentional code (Some sig) = false.
Proof.
  intros Hs. unfold unintentional.
  destruct (String.eqb_spec sig ""); [done|]. simpl. apply andb_false_r.
Qed.

(** X5. An exit with a signal, or with code 0, is taken as intended: the
    handler marks the name ['disconnected'] and untracks it, but schedules
    nothing and leaves the reconnect counter as it is.  So the process that
    [stop] terminates with SIGTERM is not started again. *)
Theorem intended_exit_is_final (connectionId protocol : string) (pid : nat)
    (code : option Z) (signal : option string) (W : World) :
  code = Some 0%Z ∨ (∃ sig, signal = Some sig ∧ sig ≠ "") →
  let W' := exitHandler connectionId protocol pid code signal W in
  pending W' = pending W
  ∧ reconnectAttempts (mgr W') = reconnectAttempts (mgr W)
  ∧ getStatus (mgr W') connectionId = StDisconnected
  ∧ connections (mgr W') !! connectionId = None.
Proof.
  intros Hint W'.
  assert (Hu : unintentional code signal = false).
  { destruct Hint as [->|(sig & -> & Hs)]; [reflexivity|].
    by apply unintentional_signalled. }
  subst W'. split; [|split; [|split]].
  - unfold exitHandler. by rewrite Hu.
  - unfold exitHandler. by rewrite Hu.
  - unfold getStatus. by rewrite exitHandler_status.
  - rewrite connections_exitHandler. apply lookup_delete_eq.
Qed.

Lemma intended_exit_is_final_witness :
  let W1 := (stopVPN "site-a" siteUp).1 in
  let W2 := exitHandler "site-a" "tcp" 0 None (Some "SIGTERM") W1 in
  pending W2 = pending W1 ∧ getStatus (mgr W2) "site-a" = StDisconnected.
Proof.
  intros W1 W2.
  destruct (intended_exit_is_final "site-a" "tcp" 0 None (Some "SIGTERM") W1)
    as (H1 & _ & H2 & _); [right; exists "SIGTERM"; by split|].
  split; [exact H1|exact H2].
Defined.

(** ** The probe *)

Lemma includes_nonempty needle hay :
  needle ≠ "" → includes needle hay = true → hay ≠ "".
Proof. intros Hn Hi ->. destruct needle; [done|]. discriminate. Qed.

Lemma probeCallback_found w out W :
  includes "tun" out = true →
  probeCallback w out W
  = startVPN_established w (setStatus (w_conn w) StConnected W).
Proof.
  intros Hi. unfold probeCallback. rewrite Hi.
  destruct (String.eqb_spec out "") as [->|]; [discriminate|reflexivity].
Qed.

(** X6. A probe reply that shows a tunnel route connects the waiting
    connection whenever it arrives (the deadline is only looked at before a
    probe is issued): the state becomes ['connected'] and the start resolves
    to [true].  The reconnect counter is cleared when the start was made by
    the reconnect timer; a start made by a caller leaves it as it was. *)
Theorem probe_success_connects (w : Waiter) (out : string) (W : World) :
  includes "tun" out = true →
  let W' := probeCallback w out W in
  getStatus (mgr W') (w_conn w) = StConnected
  ∧ outcomes W' = outcomes W ++ [{| o_conn := w_conn w; o_caller := w_caller w;
                                    o_result := Returned true |}]
  ∧ attemptsOf W' (w_conn w)
    = match w_caller w with
      | External => attemptsOf W (w_conn w)
      | Reconnecting _ => 0%Z
      end
  ∧ pending W' = pending W.
Proof.
  intros Hi W'. subst W'. rewrite (probeCallback_found _ _ _ Hi).
  unfold startVPN_established. split; [|split; [|split]].
  - unfold getStatus. rewrite status_settle. simpl. by rewrite lookup_insert_eq.
  - by rewrite outcomes_settle.
  - unfold settle, attemptsOf. destruct (w_caller w); simpl; [reflexivity|].
    by rewrite lookup_delete_eq.
  - by rewrite pending_settle.
Qed.

Lemma probe_success_connects_witness :
  let late := with_clock (λ t, t + 600000)%Z
                (startVPN "site-a" "tcp" External Spawned (boot configured)) in
  getStatus (mgr (probeCallback siteWaiter "10.8.0.0/24 dev tun0" late)) "site-a"
  = StConnected.
Proof.
  intros late.
  destruct (probe_success_connects siteWaiter "10.8.0.0/24 dev tun0" late) as (H & _);
    [vm_compute; reflexivity|exact H].
Defined.

Lemma claim_task_elem t W :
  t ∈ pending W → ∃ W0, claim_task t W = Some W0.
Proof.
  intros H. unfold claim_task. destruct (take_task_elem _ _ H) as [l ->].
  simpl. eauto.
Qed.

(** X7. [stop] does not end the probe loop of a start that is still waiting.
    When a later probe reply shows a tunnel route, the stopped name becomes
    ['connected'] although nothing is tracked for it: the status listing
    shows it connected with protocol ['unknown'] and uptime 0 (for the name
    ["__proto__"] the listing has no entry of its own). *)
Theorem stop_leaves_probe_running (connectionId : string) (w : Waiter)
    (out : string) (W : World) :
  ProbeReply w ∈ pending W →
  w_conn w = connectionId →
  includes "tun" out = true →
  ∃ W2, step (ProbeDone w out) (stopVPN connectionId W).1 = Some W2
      ∧ isConnected (mgr W2) connectionId = true
      ∧ connections (mgr W2) !! connectionId = None
      ∧ getAllStatuses W2 !! connectionId
        = (if decide (connectionId = "__proto__") then None
           else Some {| r_status := StConnected; r_protocol := "unknown";
                        r_uptime := 0 |}).
Proof.
  intros Hin Hid Hi.
  assert (Hin' : ProbeReply w ∈ pending (stopVPN connectionId W).1).
  { unfold stopVPN. destruct (connections (mgr W) !! connectionId); simpl; [|exact Hin].
    by apply elem_of_cons; right. }
  destruct (claim_task_elem _ _ Hin') as [W0 Hcl].
  destruct (claim_task_frame _ _ _ Hcl) as (Hm & _).
  exists (probeCallback w out W0). simpl. rewrite Hcl. simpl. split; [reflexivity|].
  assert (Hst : connectionStatus (mgr (probeCallback w out W0)) !! connectionId
                = Some StConnected).
  { rewrite (probeCallback_found _ _ _ Hi). unfold startVPN_established.
    rewrite status_settle. simpl. rewrite Hid. apply lookup_insert_eq. }
  assert (Hc : connections (mgr (probeCallback w out W0)) !! connectionId = None).
  { rewrite connections_probeCallback, Hm, connections_stopVPN. apply lookup_delete_eq. }
  split; [unfold isConnected; by rewrite Hst, bool_decide_eq_true_2|].
  split; [exact Hc|].
  unfold getAllStatuses. rewrite map_lookup_imap, Hst, Hc. simpl.
  by destruct (decide (connectionId = "__proto__")).
Qed.

Lemma stop_leaves_probe_running_witness :
  let W := startVPN "site-a" "tcp" External Spawned (boot configured) in
  ∃ W2, step (ProbeDone siteWaiter "10.8.0.0/24 dev tun0") (stopVPN "site-a" W).1 = Some W2
      ∧ isConnected (mgr W2) "site-a" = true
      ∧ connections (mgr W2) !! "site-a" = None
      ∧ getAllStatuses W2 !! "site-a"
        = Some {| r_status := StConnected; r_protocol := "unknown"; r_uptime := 0 |}.
Proof.
  intros W.
  destruct (stop_leaves_probe_running "site-a" siteWaiter "10.8.0.0/24 dev tun0" W)
    as (W2 & H1 & H2 & H3 & H4).
  - assert (Hp : pending W = [ProbeReply siteWaiter]) by (vm_compute; reflexivity).
    rewrite Hp. apply list_elem_of_here.
  - reflexivity.
  - vm_compute. reflexivity.
  - exists W2. split; [exact H1|]. split; [exact H2|]. split; [exact H3|].
    etrans; [exact H4|]. reflexivity.
Defined.

Lemma step_frame_poll e W W' :
  match e with
  | Tick _ | ProbeDone _ _ | Fire (PollTimer _ _) => True
  | _ => False
  end →
  step e W = Some W' →
  procs W' = procs W ∧ connections (mgr W') = connections (mgr W).
Proof.
  intros He Hstep. destruct e as [dt| | |w out|[|due w| |]| | | | | | |]; try done;
    simpl in Hstep.
  - destruct (0 <=? dt)%Z; inversion Hstep; subst. done.
  - destruct (claim_task (ProbeReply w) W) as [W0|] eqn:Hcl; [|discriminate].
    destruct (claim_task_frame _ _ _ Hcl) as (Hm & Hp & _).
    simpl in Hstep. inversion Hstep; subst.
    by rewrite procs_probeCallback, connections_probeCallback, Hm, Hp.
  - destruct (due <=? clock W)%Z; [|discriminate].
    destruct (claim_task (PollTimer due w) W) as [W0|] eqn:Hcl; [|discriminate].
    destruct (claim_task_frame _ _ _ Hcl) as (Hm & Hp & _).
    simpl in Hstep. inversion Hstep; subst.
    by rewrite procs_checkConnection, connections_checkConnection, Hm, Hp.
Qed.

Lemma failedPolls_frame w ps : ∀ now W W',
  run (failedPolls w now ps) W = Some W' →
  procs W' = procs W ∧ connections (mgr W') = connections (mgr W).
Proof.
  induction ps as [|p ps IH]; intros now W W' Hrun.
  - simpl in Hrun. by inversion Hrun; subst.
  - cbn [failedPolls] in Hrun. rewrite run_app in Hrun.
    destruct (run (failedPoll w now p) W) as [W4|] eqn:H4; [|discriminate].
    simpl in Hrun. destruct (IH _ _ _ Hrun) as [-> ->]. clear Hrun IH.
    unfold failedPoll in H4. cbn [run] in H4.
    destruct (step (Tick (poll_exec p)) W) as [W1|] eqn:H1; [|discriminate].
    cbn [mbind option_bind] in H4.
    destruct (step (ProbeDone w (poll_stdout p)) W1) as [W2|] eqn:H2; [|discriminate].
    cbn [mbind option_bind] in H4.
    destruct (step (Tick (checkInterval + poll_late p)) W2) as [W3|] eqn:H3;
      [|discriminate].
    cbn [mbind option_bind] in H4.
    destruct (step (Fire (PollTimer (now + poll_exec p + checkInterval) w)) W3)
      as [W5|] eqn:H5; [|discriminate].
    cbn [mbind option_bind] in H4. inversion H4; subst.
    destruct (step_frame_poll (Tick _) _ _ I H1) as [E1 F1].
    destruct (step_frame_poll (ProbeDone _ _) _ _ I H2) as [E2 F2].
    destruct (step_frame_poll (Tick _) _ _ I H3) as [E3 F3].
    destruct (step_frame_poll (Fire (PollTimer _ _)) _ _ I H5) as [E5 F5].
    split; congruence.
Qed.

(** X8. A start that got its process from [spawn] and then times out does
    not end that process.  When the probe never finds the route, the start
    fails and the name is left in state ['error'], but the process is still
    running, was sent no signal, and is still the tracked handle of the
    name. *)
Theorem timed_out_start_keeps_process (connectionId protocol : string) (c : Caller)
    (W : World) (B : Z) (polls : nat → Poll) :
  isConnected (mgr W) connectionId = false →
  existsSync (configPath protocol) W = true →
  existsSync authPath W = true →
  (∀ i, neverUp B (polls i)) →
  let w := {| w_conn := connectionId; w_start := clock W;
              w_timeout := defaultTimeout; w_caller := c |} in
  ∃ n W',
    run (failedPolls w (clock W) (map polls (seq 0 n)))
        (startVPN connectionId protocol c Spawned W) = Some W'
    ∧ getStatus (mgr W') connectionId = StError
    ∧ connections (mgr W') !! connectionId
      = Some {| process := length (procs W); protocol := protocol;
                startTime := clock W |}
    ∧ procs W' !! length (procs W)
      = Some {| p_conn := connectionId; p_proto := protocol;
                p_args := spawnArgs connectionId protocol;
                p_alive := true; p_signals := [] |}
    ∧ pending W' = pending W.
Proof.
  intros Hc Hf Ha Hpolls w.
  rewrite (startVPN_spawns _ _ _ _ Hc Hf Ha). fold w.
  match goal with |- context [run _ ?W0] =>
    destruct (wait_times_out w B polls Hpolls 31 0 W0 (pending W))
      as (n & W' & _ & Hrun & Hst & _ & _ & Hpend) end.
  - reflexivity.
  - simpl. unfold defaultTimeout. lia.
  - simpl. unfold defaultTimeout, checkInterval. lia.
  - exists n, W'. split; [exact Hrun|].
    destruct (failedPolls_frame _ _ _ _ _ Hrun) as [Hp Hcs].
    split; [|split; [|split; [|exact Hpend]]].
    + change (w_conn w) with connectionId in Hst. unfold getStatus. by rewrite Hst.
    + rewrite Hcs. simpl. apply lookup_insert_eq.
    + rewrite Hp. simpl. apply list_lookup_middle. reflexivity.
Qed.

Lemma timed_out_start_keeps_process_witness :
  ∃ n W',
    run (failedPolls siteWaiter 0 (map (λ _, onTime) (seq 0 n)))
        (startVPN "site-a" "tcp" External Spawned (boot configured)) = Some W'
    ∧ getStatus (mgr W') "site-a" = StError
    ∧ process <$> connections (mgr W') !! "site-a" = Some 0%nat
    ∧ p_alive <$> procs W' !! 0%nat = Some true.
Proof.
  destruct (timed_out_start_keeps_process "site-a" "tcp" External (boot configured) 0
              (λ _, onTime))
    as (n & W' & H1 & H2 & H3 & H4 & _).
  - vm_compute. reflexivity.
  - vm_compute. reflexivity.
  - vm_compute. reflexivity.
  - intros _. repeat split; vm_compute; discriminate.
  - exists n, W'. split; [exact H1|]. split; [exact H2|].
    split; [by rewrite H3|]. simpl in H4. by rewrite H4.
Defined.

(** ** The wait loop while other things happen *)





























(** ** The status listing *)

(** X9. A name for which no [start] was ever issued does not appear in the
    listing of [getAllStatuses], whatever else has happened, although
    [getStatus] answers ['disconnected'] for it. *)
Theorem listing_omits_never_started (fs : gset string) (es : list Event) (W : World)
    (connectionId : string) :
  run es (boot fs) = Some W →
  Forall (λ e, ¬ startsConnection connectionId e) es →
  getAllStatuses W !! connectionId = None
  ∧ getStatus (mgr W) connectionId = StDisconnected.
Proof.
  intros Hrun Hes.
  pose proof (untouched_run connectionId es _ _ Hes Hrun (untouched_boot _ fs))
    as (_ & Hs & _).
  unfold getAllStatuses, getStatus. by rewrite map_lookup_imap, Hs.
Qed.

Lemma listing_omits_never_started_witness :
  ∃ W, run [CallStart "site-a" "tcp"; CallStop "other"] (boot configured) = Some W
     ∧ getAllStatuses W !! "other" = None
     ∧ getStatus (mgr W) "other" = StDisconnected.
Proof.
  destruct (run [CallStart "site-a" "tcp"; CallStop "other"] (boot configured))
    as [W|] eqn:Hrun; [|vm_compute in Hrun; discriminate].
  exists W. split; [reflexivity|].
  apply (listing_omits_never_started configured
           [CallStart "site-a" "tcp"; CallStop "other"] W "other" Hrun).
  repeat constructor; intros [proto [Heq|[m Heq]]]; discriminate.
Defined.

(** ** Invariants of every reachable world *)

Lemma capped_deleteAttempts id W : counterCapped W → counterCapped (deleteAttempts id W).
Proof.
  intros [Hm Hn]. split; [exact Hm|]. intros id' n. simpl.
  rewrite lookup_delete_Some. intros [_ H]. by eapply Hn.
Qed.

Lemma capped_settle id c r W : counterCapped W → counterCapped (settle id c r W).
Proof.
  intros H. unfold settle. destruct c, r; try exact H.
  by apply capped_deleteAttempts.
Qed.

Lemma capped_checkConnection w W : counterCapped W → counterCapped (checkConnection w W).
Proof.
  intros H. unfold checkConnection, startVPN_catch.
  destruct (_ <? _)%Z; [|exact H]. by apply capped_settle.
Qed.

Lemma capped_probeCallback w out W :
  counterCapped W → counterCapped (probeCallback w out W).
Proof.
  intros H. unfold probeCallback, startVPN_established.
  destruct (_ && _); [|exact H]. by apply capped_settle.
Qed.

Lemma capped_startVPN id proto c r W :
  counterCapped W → counterCapped (startVPN id proto c r W).
Proof.
  intros H. unfold startVPN.
  destruct (isConnected _ _); [by apply capped_settle|].
  destruct (negb (existsSync (configPath proto) W)); [by apply capped_settle|].
  destruct (negb (existsSync authPath W)); [by apply capped_settle|].
  destruct r as [|m].
  - unfold waitForConnection. by apply capped_checkConnection.
  - unfold startVPN_catch. by apply capped_settle.
Qed.

Lemma capped_attemptReconnect id proto W :
  counterCapped W → counterCapped (attemptReconnect id proto W).
Proof.
  intros [Hm Hn]. unfold attemptReconnect.
  destruct (maxReconnectAttempts (mgr W) <=? _)%Z eqn:Hcmp; [by split|].
  apply Z.leb_gt in Hcmp. rewrite Hm in Hcmp.
  split; [exact Hm|]. intros id' n. simpl. rewrite lookup_insert_Some.
  intros [[_ <-]|[_ H]]; [|by eapply Hn].
  destruct (reconnectAttempts (mgr W) !! id) as [a|] eqn:Ha; simpl in *; [|lia].
  specialize (Hn _ _ Ha). lia.
Qed.

Lemma capped_exitHandler id proto pid code signal W :
  counterCapped W → counterCapped (exitHandler id proto pid code signal W).
Proof.
  intros H. unfold exitHandler. destruct (unintentional code signal); [|exact H].
  by apply capped_attemptReconnect.
Qed.

Lemma capped_stopVPN id W : counterCapped W → counterCapped (stopVPN id W).1.
Proof.
  intros H. unfold stopVPN. destruct (connections (mgr W) !! id); simpl; [|exact H].
  by apply capped_deleteAttempts.
Qed.

Lemma capped_claim t W W' : claim_task t W = Some W' → counterCapped W → counterCapped W'.
Proof.
  intros Hcl H. destruct (claim_task_frame _ _ _ Hcl) as (Hm & _).
  unfold counterCapped. by rewrite Hm.
Qed.

Lemma capped_step e W W' : step e W = Some W' → counterCapped W → counterCapped W'.
Proof.
  intros Hstep H.
  destruct e as [dt|id' proto|id'|w out|t|pid code signal|pid m|pid d|pid d
                |id' proto m|due id' proto attempts m|dz];
    simpl in Hstep.
  - destruct (0 <=? dt)%Z; inversion Hstep; subst. exact H.
  - inversion Hstep; subst. by apply capped_startVPN.
  - inversion Hstep; subst. by apply capped_stopVPN.
  - destruct (claim_task (ProbeReply w) W) as [W0|] eqn:Hcl; [|discriminate].
    simpl in Hstep. inversion Hstep; subst.
    apply capped_probeCallback. by eapply capped_claim.
  - destruct t as [w|due w|due id' proto attempts|due id' pid]; [discriminate|..];
      destruct (due <=? clock W)%Z; try discriminate;
      match type of Hstep with context [claim_task ?t W] =>
        destruct (claim_task t W) as [W0|] eqn:Hcl; [|discriminate];
        pose proof (capped_claim _ _ _ Hcl H) as H0 end;
      simpl in Hstep; inversion Hstep; subst.
    + by apply capped_checkConnection.
    + by apply capped_startVPN.
    + unfold killCallback. by destruct (bool_decide _).
  - destruct (is_alive pid W); [|discriminate]. inversion Hstep; subst.
    unfold onExit. destruct (procs W !! pid); [|exact H].
    by apply capped_exitHandler.
  - destruct (is_alive pid W); [|discriminate]. inversion Hstep; subst.
    unfold onError. by destruct (procs W !! pid).
  - destruct (is_alive pid W); [|discriminate]. inversion Hstep; subst.
    unfold onStdout. by destruct (procs W !! pid).
  - destruct (is_alive pid W); [|discriminate]. inversion Hstep; subst.
    unfold onStderr. by destruct (procs W !! pid).
  - inversion Hstep; subst. by apply capped_startVPN.
  - destruct (due <=? clock W)%Z; [|discriminate].
    destruct (claim_task (ReconnectTimer due id' proto attempts) W) as [W0|] eqn:Hcl;
      [|discriminate].
    simpl in Hstep. inversion Hstep; subst.
    apply capped_startVPN. by eapply capped_claim.
  - inversion Hstep; subst. exact H.
Qed.

Lemma capped_run es : ∀ W W', run es W = Some W' → counterCapped W → counterCapped W'.
Proof.
  induction es as [|e es IH]; intros W W' Hrun H; simpl in Hrun.
  - by inversion Hrun; subst.
  - destruct (step e W) as [W1|] eqn:Hstep; [|discriminate]. simpl in Hrun.
    eapply IH; [exact Hrun|]. by eapply capped_step.
Qed.

Lemma reachable_siteReached : reachable siteReached.
Proof.
  exists configured,
    [CallStart "site-a" "tcp"; ProbeDone siteWaiter "10.8.0.0/24 dev tun0 scope link"].
  vm_compute. reflexivity.
Qed.

(** X10. In every world the server can reach, the reconnect counter of every
    name lies between 0 and the maximum of 3: whatever the order of exits,
    starts, stops and timers, the manager never counts past its ceiling. *)
Theorem reconnect_counter_capped (W : World) (connectionId : string) :
  reachable W →
  maxReconnectAttempts (mgr W) = 3%Z
  ∧ (0 <= attemptsOf W connectionId <= 3)%Z.
Proof.
  intros (fs & es & Hrun).
  assert (H : counterCapped W).
  { eapply capped_run; [exact Hrun|]. split; [reflexivity|].
    intros id n. simpl. by rewrite lookup_empty. }
  destruct H as [Hm Hn]. split; [exact Hm|]. unfold attemptsOf.
  destruct (reconnectAttempts (mgr W) !! connectionId) as [n|] eqn:Hl; simpl; [|lia].
  specialize (Hn _ _ Hl). lia.
Qed.

Lemma reconnect_counter_capped_witness :
  maxReconnectAttempts (mgr siteReached) = 3%Z
  ∧ (0 <= attemptsOf siteReached "site-a" <= 3)%Z.
Proof. exact (reconnect_counter_capped siteReached "site-a" reachable_siteReached). Defined.

Lemma owned_update W W' :
  (∀ id c, connections (mgr W') !! id = Some c → connections (mgr W) !! id = Some c) →
  (∀ pid p, procs W !! pid = Some p →
     ∃ p', procs W' !! pid = Some p' ∧ p_conn p' = p_conn p
           ∧ p_proto p' = p_proto p ∧ p_alive p' = p_alive p) →
  handlesOwned W → handlesOwned W'.
Proof.
  intros Hc Hp H id c Hid.
  destruct (H id c (Hc _ _ Hid)) as (p & Hpp & H1 & H2 & H3).
  destruct (Hp _ _ Hpp) as (p' & Hp' & E1 & E2 & E3).
  exists p'. split; [exact Hp'|]. split; [congruence|]. split; congruence.
Qed.

Lemma owned_frame W W' :
  connections (mgr W') = connections (mgr W) →
  procs W' = procs W →
  handlesOwned W → handlesOwned W'.
Proof.
  intros Hc Hp. apply owned_update; [|intros pid p Hpp].
  - intros id c. by rewrite Hc.
  - exists p. by rewrite Hp.
Qed.

Lemma alter_keeps (f : Proc → Proc) pid (l : list Proc) :
  (∀ p, p_conn (f p) = p_conn p ∧ p_proto (f p) = p_proto p ∧ p_alive (f p) = p_alive p) →
  ∀ pid' p, l !! pid' = Some p →
    ∃ p', alter f pid l !! pid' = Some p' ∧ p_conn p' = p_conn p
          ∧ p_proto p' = p_proto p ∧ p_alive p' = p_alive p.
Proof.
  intros Hf pid' p Hp. rewrite list_lookup_alter.
  destruct (decide (pid = pid')) as [->|].
  - rewrite Hp. simpl. exists (f p). split; [reflexivity|apply Hf].
  - exists p. by rewrite Hp.
Qed.

Lemma owned_startVPN id proto c r W :
  handlesOwned W → handlesOwned (startVPN id proto c r W).
Proof.
  intros H. unfold startVPN.
  destruct (isConnected _ _).
  { eapply owned_frame; [apply connections_settle|apply procs_settle|exact H]. }
  destruct (negb (existsSync (configPath proto) W)).
  { eapply owned_frame; [apply connections_settle|apply procs_settle|exact H]. }
  destruct (negb (existsSync authPath W)).
  { eapply owned_frame; [apply connections_settle|apply procs_settle|exact H]. }
  destruct r as [|m].
  2: { unfold startVPN_catch.
       eapply owned_frame; [apply connections_settle|apply procs_settle|exact H]. }
  unfold waitForConnection.
  eapply owned_frame;
    [apply connections_checkConnection|apply procs_checkConnection|].
  intros id' c'. simpl. rewrite lookup_insert_Some.
  intros [[<- <-]|[Hne Hid]]; simpl.
  - eexists. split; [by apply list_lookup_middle|]. done.
  - destruct (H _ _ Hid) as (p & Hp & Hrest).
    exists p. split; [by apply lookup_app_l_Some|exact Hrest].
Qed.

Lemma owned_exitHandler pid p code signal W :
  procs W !! pid = Some p →
  handlesOwned W →
  handlesOwned (exitHandler (p_conn p) (p_proto p) pid code signal W).
Proof.
  intros Hp H id c.
  rewrite connections_exitHandler, procs_exitHandler.
  rewrite lookup_delete_Some. intros [Hne Hid].
  destruct (H _ _ Hid) as (p' & Hp' & H1 & Hrest).
  exists p'. split; [|by split]. rewrite list_lookup_alter_ne; [exact Hp'|].
  intros ->. rewrite Hp in Hp'. inversion Hp'; subst. done.
Qed.

Lemma owned_stopVPN id W : handlesOwned W → handlesOwned (stopVPN id W).1.
Proof.
  intros H. unfold stopVPN. destruct (connections (mgr W) !! id) as [c|]; simpl;
    [|exact H].
  revert H. apply owned_update; simpl.
  - intros id' c'. rewrite lookup_delete_Some. by intros [_ ?].
  - by apply alter_keeps.
Qed.

Lemma owned_step e W W' : step e W = Some W' → handlesOwned W → handlesOwned W'.
Proof.
  intros Hstep H.
  destruct e as [dt|id' proto|id'|w out|t|pid code signal|pid m|pid d|pid d
                |id' proto m|due id' proto attempts m|dz];
    simpl in Hstep.
  - destruct (0 <=? dt)%Z; inversion Hstep; subst. exact H.
  - inversion Hstep; subst. by apply owned_startVPN.
  - inversion Hstep; subst. by apply owned_stopVPN.
  - destruct (claim_task (ProbeReply w) W) as [W0|] eqn:Hcl; [|discriminate].
    destruct (claim_task_frame _ _ _ Hcl) as (Hm & Hp & _).
    simpl in Hstep. inversion Hstep; subst. revert H. apply owned_frame.
    + by rewrite connections_probeCallback, Hm.
    + by rewrite procs_probeCallback.
  - destruct t as [w|due w|due id' proto attempts|due id' pid]; [discriminate|..];
      destruct (due <=? clock W)%Z; try discriminate;
      match type of Hstep with context [claim_task ?t W] =>
        destruct (claim_task t W) as [W0|] eqn:Hcl; [|discriminate];
        destruct (claim_task_frame _ _ _ Hcl) as (Hm & Hp & _) end;
      simpl in Hstep; inversion Hstep; subst;
      assert (H0 : handlesOwned W0)
        by (revert H; apply owned_frame; [by rewrite Hm|done]).
    + revert H0. apply owned_frame.
      * apply connections_checkConnection.
      * apply procs_checkConnection.
    + by apply owned_startVPN.
    + unfold killCallback. destruct (bool_decide _); [|exact H0].
      revert H0. apply owned_update; simpl; [done|]. by apply alter_keeps.
  - destruct (is_alive pid W); [|discriminate]. inversion Hstep; subst.
    unfold onExit. destruct (procs W !! pid) as [p|] eqn:Hp; [|exact H].
    by apply owned_exitHandler.
  - destruct (is_alive pid W); [|discriminate]. inversion Hstep; subst.
    unfold onError. by destruct (procs W !! pid).
  - destruct (is_alive pid W); [|discriminate]. inversion Hstep; subst.
    unfold onStdout. by destruct (procs W !! pid).
  - destruct (is_alive pid W); [|discriminate]. inversion Hstep; subst.
    unfold onStderr. by destruct (procs W !! pid).
  - inversion Hstep; subst. by apply owned_startVPN.
  - destruct (due <=? clock W)%Z; [|discriminate].
    destruct (claim_task (ReconnectTimer due id' proto attempts) W) as [W0|] eqn:Hcl;
      [|discriminate].
    destruct (claim_task_frame _ _ _ Hcl) as (Hm & Hp & _).
    simpl in Hstep. inversion Hstep; subst.
    apply owned_startVPN. revert H. apply owned_frame; [by rewrite Hm|done].
  - inversion Hstep; subst. exact H.
Qed.

Lemma owned_reachable W : reachable W → handlesOwned W.
Proof.
  intros (fs & es & Hrun).
  assert (H0 : handlesOwned (boot fs)).
  { intros id c. simpl. by rewrite lookup_empty. }
  revert H0 Hrun. generalize (boot fs). induction es as [|e es IH]; intros W0 H0 Hrun;
    simpl in Hrun.
  - by inversion Hrun; subst.
  - destruct (step e W0) as [W1|] eqn:Hstep; [|discriminate]. simpl in Hrun.
    eapply IH; [|exact Hrun]. by eapply owned_step.
Qed.

(** X11. In every world the server can reach, the handle tracked for a name
    is that of a process that was spawned for this name with this protocol
    and has not exited. *)
Theorem tracked_handle_is_live (W : World) (connectionId : string) (c : Connection) :
  reachable W →
  connections (mgr W) !! connectionId = Some c →
  ∃ p, procs W !! process c = Some p
     ∧ p_conn p = connectionId ∧ p_proto p = protocol c ∧ p_alive p = true.
Proof. intros Hr Hc. exact (owned_reachable W Hr connectionId c Hc). Qed.

Lemma tracked_handle_is_live_witness :
  ∃ p, procs siteReached !! 0%nat = Some p
     ∧ p_conn p = "site-a" ∧ p_proto p = "tcp" ∧ p_alive p = true.
Proof.
  assert (Hc : connections (mgr siteReached) !! "site-a"
               = Some {| process := 0; protocol := "tcp"; startTime := 0 |})
    by (vm_compute; reflexivity).
  exact (tracked_handle_is_live siteReached "site-a" _ reachable_siteReached Hc).
Defined.

Lemma spawned_startVPN id proto c r W :
  spawned (startVPN id proto c r W) = spawned W
  ∨ spawned (startVPN id proto c r W) = S (spawned W).
Proof.
  unfold startVPN, spawned.
  destruct (isConnected _ _); [left; by rewrite procs_settle|].
  destruct (negb (existsSync (configPath proto) W)); [left; by rewrite procs_settle|].
  destruct (negb (existsSync authPath W)); [left; by rewrite procs_settle|].
  destruct r as [|m].
  - right. unfold waitForConnection. rewrite procs_checkConnection. simpl.
    rewrite length_app. simpl. lia.
  - left. unfold startVPN_catch. by rewrite procs_settle.
Qed.

Lemma spawned_step e W W' :
  step e W = Some W' →
  spawned W' = spawned W ∨ (runsStart e = true ∧ spawned W' = S (spawned W)).
Proof.
  intros Hstep.
  destruct e as [dt|id' proto|id'|w out|t|pid code signal|pid m|pid d|pid d
                |id' proto m|due id' proto attempts m|dz];
    simpl in Hstep.
  - destruct (0 <=? dt)%Z; inversion Hstep; subst. by left.
  - inversion Hstep; subst.
    destruct (spawned_startVPN id' proto External Spawned W); eauto.
  - inversion Hstep; subst. left. unfold stopVPN, spawned.
    destruct (connections (mgr W) !! id'); simpl; [|reflexivity].
    by rewrite length_alter.
  - destruct (claim_task (ProbeReply w) W) as [W0|] eqn:Hcl; [|discriminate].
    destruct (claim_task_frame _ _ _ Hcl) as (_ & Hp & _).
    simpl in Hstep. inversion Hstep; subst. left. unfold spawned.
    by rewrite procs_probeCallback, Hp.
  - destruct t as [w|due w|due id' proto attempts|due id' pid]; [discriminate|..];
      destruct (due <=? clock W)%Z; try discriminate;
      match type of Hstep with context [claim_task ?t W] =>
        destruct (claim_task t W) as [W0|] eqn:Hcl; [|discriminate];
        destruct (claim_task_frame _ _ _ Hcl) as (_ & Hp & _) end;
      simpl in Hstep; inversion Hstep; subst.
    + left. unfold spawned. by rewrite procs_checkConnection, Hp.
    + unfold reconnectCallback.
      destruct (spawned_startVPN id' proto (Reconnecting attempts) Spawned W0) as [E|E];
        unfold spawned in *; rewrite E, Hp; eauto.
    + left. unfold killCallback, spawned. destruct (bool_decide _); simpl;
        by rewrite ?length_alter, Hp.
  - destruct (is_alive pid W); [|discriminate]. inversion Hstep; subst. left.
    unfold onExit, spawned. destruct (procs W !! pid); [|reflexivity].
    by rewrite procs_exitHandler, length_alter.
  - destruct (is_alive pid W); [|discriminate]. inversion Hstep; subst. left.
    unfold onError. by destruct (procs W !! pid).
  - destruct (is_alive pid W); [|discriminate]. inversion Hstep; subst. left.
    unfold onStdout. by destruct (procs W !! pid).
  - destruct (is_alive pid W); [|discriminate]. inversion Hstep; subst. left.
    unfold onStderr. by destruct (procs W !! pid).
  - inversion Hstep; subst. left. unfold spawned. by rewrite procs_startVPN_throws.
  - destruct (due <=? clock W)%Z; [|discriminate].
    destruct (claim_task (ReconnectTimer due id' proto attempts) W) as [W0|] eqn:Hcl;
      [|discriminate].
    destruct (claim_task_frame _ _ _ Hcl) as (_ & Hp & _).
    simpl in Hstep. inversion Hstep; subst. left. unfold spawned, reconnectCallback.
    by rewrite procs_startVPN_throws, Hp.
  - inversion Hstep; subst. by left.
Qed.

(** X13. Processes are spawned by [start] calls and reconnect timers only,
    one at most each time: over any run of the event loop the number of
    processes never goes down and grows by no more than the number of those
    events.  Stops, probes, exits and kill timers spawn nothing. *)
Theorem spawns_only_on_start (es : list Event) (W W' : World) :
  run es W = Some W' →
  (spawned W ≤ spawned W'
   ≤ spawned W + length (filter (λ e, Is_true (runsStart e)) es))%nat.
Proof.
  revert W. induction es as [|e es IH]; intros W Hrun; simpl in Hrun.
  - inversion Hrun; subst. simpl. lia.
  - destruct (step e W) as [W1|] eqn:Hstep; [|discriminate]. simpl in Hrun.
    specialize (IH _ Hrun). rewrite filter_cons.
    destruct (spawned_step _ _ _ Hstep) as [E|[Hs E]].
    + destruct (decide (Is_true (runsStart e))); simpl; lia.
    + rewrite decide_True by (by rewrite Hs). simpl. lia.
Qed.

Lemma spawns_only_on_start_witness :
  ∃ W', run [CallStart "site-a" "tcp"; CallStop "site-a"; Tick 5000;
             Fire (KillTimer 5000 "site-a" 0); ProcExit 0 None (Some "SIGTERM")]
            (boot configured) = Some W'
      ∧ (spawned W' ≤ 1)%nat.
Proof.
  destruct (run [CallStart "site-a" "tcp"; CallStop "site-a"; Tick 5000;
                 Fire (KillTimer 5000 "site-a" 0); ProcExit 0 None (Some "SIGTERM")]
                (boot configured)) as [W'|] eqn:Hrun;
    [|vm_compute in Hrun; discriminate].
  exists W'. split; [reflexivity|].
  pose proof (spawns_only_on_start _ _ _ Hrun) as [_ H]. exact H.
Defined.

(** ** Shutdown *)

Lemma status_stopVPN_ne id' id W :
  id' ≠ id →
  connectionStatus (mgr (stopVPN id' W).1) !! id = connectionStatus (mgr W) !! id
  ∧ reconnectAttempts (mgr (stopVPN id' W).1) !! id = reconnectAttempts (mgr W) !! id.
Proof.
  intros Hne. unfold stopVPN. destruct (connections (mgr W) !! id'); simpl; [|done].
  by rewrite lookup_insert_ne, lookup_delete_ne.
Qed.

Lemma signals_stopVPN id pid p W :
  procs W !! pid = Some p →
  ∃ p', procs (stopVPN id W).1 !! pid = Some p'
        ∧ (∀ s, s ∈ p_signals p → s ∈ p_signals p').
Proof.
  intros Hp. unfold stopVPN. destruct (connections (mgr W) !! id) as [c|]; simpl;
    [|eauto].
  rewrite list_lookup_alter. destruct (decide (process c = pid)) as [->|]; [|eauto].
  rewrite Hp. simpl. eexists. split; [reflexivity|]. simpl.
  intros s Hs. apply elem_of_app. by left.
Qed.

Lemma stops_other l : ∀ W id,
  id ∉ l →
  connectionStatus (mgr (foldl (λ W id, (stopVPN id W).1) W l)) !! id
  = connectionStatus (mgr W) !! id
  ∧ reconnectAttempts (mgr (foldl (λ W id, (stopVPN id W).1) W l)) !! id
    = reconnectAttempts (mgr W) !! id.
Proof.
  induction l as [|a l IH]; intros W id Hid; simpl; [done|].
  apply not_elem_of_cons in Hid as [Hne Hid].
  destruct (IH (stopVPN a W).1 id Hid) as [-> ->]. apply status_stopVPN_ne. done.
Qed.

Lemma stops_signals l : ∀ W pid p s,
  procs W !! pid = Some p → s ∈ p_signals p →
  ∃ p', procs (foldl (λ W id, (stopVPN id W).1) W l) !! pid = Some p'
        ∧ s ∈ p_signals p'.
Proof.
  induction l as [|a l IH]; intros W pid p s Hp Hs; simpl; [eauto|].
  destruct (signals_stopVPN a pid p W Hp) as (p1 & Hp1 & Hsub).
  apply (IH _ _ p1); [exact Hp1|by apply Hsub].
Qed.

Lemma stops_connections l : ∀ W id,
  connections (mgr (foldl (λ W id, (stopVPN id W).1) W l)) !! id
  = if decide (id ∈ l) then None else connections (mgr W) !! id.
Proof.
  induction l as [|a l IH]; intros W id; cbn [foldl].
  - destruct (decide (id ∈ [])) as [Hin|]; [|done]. by apply elem_of_nil in Hin.
  - rewrite IH, connections_stopVPN.
    destruct (decide (id ∈ l)) as [Hin|Hnin];
      destruct (decide (id ∈ a :: l)) as [Hin'|Hnin']; try done.
    + exfalso. apply Hnin'. by apply elem_of_cons; right.
    + apply elem_of_cons in Hin' as [->|?]; [|done]. apply lookup_delete_eq.
    + apply lookup_delete_ne. intros ->. apply Hnin'. by apply elem_of_cons; left.
Qed.

Lemma stops_tracked l : ∀ W id c p,
  NoDup l → id ∈ l →
  connections (mgr W) !! id = Some c →
  procs W !! process c = Some p →
  let W' := foldl (λ W id, (stopVPN id W).1) W l in
  connectionStatus (mgr W') !! id = Some StDisconnected
  ∧ reconnectAttempts (mgr W') !! id = None
  ∧ ∃ p', procs W' !! process c = Some p' ∧ "SIGTERM" ∈ p_signals p'.
Proof.
  induction l as [|a l IH]; intros W id c p Hnd Hin Hc Hp;
    [by apply elem_of_nil in Hin|].
  apply NoDup_cons in Hnd as [Hnotin Hnd]. simpl.
  destruct (decide (a = id)) as [->|Hne].
  - destruct (stop_then_stop_facts id c W Hc) as (Hst & Hat & Hsig).
    destruct (stops_other l (stopVPN id W).1 id Hnotin) as [-> ->].
    split; [exact Hst|]. split; [exact Hat|].
    destruct (Hsig p Hp) as (p1 & Hp1 & Hs1).
    by apply (stops_signals l _ _ p1).
  - apply elem_of_cons in Hin as [->|Hin]; [done|].
    destruct (signals_stopVPN a (process c) p W Hp) as (p1 & Hp1 & _).
    apply (IH _ id c p1 Hnd Hin); [|exact Hp1].
    rewrite connections_stopVPN. by rewrite lookup_delete_ne.
Qed.

(** X14. After [shutdown] no connection is tracked any more.  Every name
    that was tracked is ['disconnected'] with its reconnect counter cleared,
    and the process it tracked has been sent SIGTERM. *)
Theorem shutdown_stops_everything (W : World) (connectionId : string)
    (c : Connection) (p : Proc) :
  connections (mgr W) !! connectionId = Some c →
  procs W !! process c = Some p →
  connections (mgr (shutdown W)) = ∅
  ∧ getStatus (mgr (shutdown W)) connectionId = StDisconnected
  ∧ attemptsOf (shutdown W) connectionId = 0%Z
  ∧ ∃ p', procs (shutdown W) !! process c = Some p' ∧ "SIGTERM" ∈ p_signals p'.
Proof.
  intros Hc Hp. unfold shutdown.
  change (map fst (map_to_list (connections (mgr W))))
    with ((map_to_list (connections (mgr W))).*1).
  assert (Hkeys : ∀ id, id ∈ (map_to_list (connections (mgr W))).*1
                        ↔ is_Some (connections (mgr W) !! id)).
  { intros id. rewrite list_elem_of_fmap. split.
    - intros ([k v] & -> & Hkv). apply elem_of_map_to_list in Hkv. eauto.
    - intros [v Hv]. exists (id, v). split; [done|]. by apply elem_of_map_to_list. }
  split.
  - apply map_eq. intros id. rewrite stops_connections, lookup_empty.
    destruct (decide _) as [|Hn]; [done|].
    destruct (connections (mgr W) !! id) eqn:Hid; [|done].
    exfalso. apply Hn, Hkeys. eauto.
  - destruct (stops_tracked (map_to_list (connections (mgr W))).*1 W connectionId c p)
      as (Hst & Hat & Hsig); [apply NoDup_fst_map_to_list|apply Hkeys; eauto|done..|].
    split; [unfold getStatus; by rewrite Hst|].
    split; [unfold attemptsOf; by rewrite Hat|exact Hsig].
Qed.

Lemma shutdown_stops_everything_witness :
  connections (mgr (shutdown siteReached)) = ∅
  ∧ getStatus (mgr (shutdown siteReached)) "site-a" = StDisconnected.
Proof.
  assert (Hc : connections (mgr siteReached) !! "site-a"
               = Some {| process := 0; protocol := "tcp"; startTime := 0 |})
    by (vm_compute; reflexivity).
  assert (Hp : procs siteReached !! 0%nat
               = Some {| p_conn := "site-a"; p_proto := "tcp";
                         p_args := spawnArgs "site-a" "tcp";
                         p_alive := true; p_signals := [] |})
    by (vm_compute; reflexivity).
  destruct (shutdown_stops_everything siteReached "site-a" _ _ Hc Hp) as (H1 & H2 & _).
  split; [exact H1|exact H2].
Defined.

(** * Further properties of the forwarder *)

Section ForwarderMore.

Variable self : ProxyHandler.
Variable connectionId : string.
Variable net : Transport.
Variable config : AxiosConfig.

(** [n] failed attempts with the connection still active, then an answer. *)
Lemma attemptLoop_answer n : ∀ left attempt lastError W response,
  (n < left)%nat →
  (attempt + Z.of_nat n <= maxRetries self)%Z →
  (∀ j, attempt <= j < attempt + Z.of_nat n →
        fails net j ∧ staysActive connectionId net j)%Z →
  reply (net (attempt + Z.of_nat n)) = inl response →
  isConnected (mgr W) connectionId = true →
  ∃ W', attemptLoop self connectionId net config left attempt lastError W
        = (Returned response, backoff config attempt (S n), W').
Proof.
  induction n as [|n IH]; intros left attempt lastError W response Hleft Hmax Hj Hr HW.
  - destruct left as [|left]; [lia|]. simpl.
    rewrite Z.add_0_r in Hr. rewrite Hr. eauto.
  - destruct left as [|left]; [lia|]. simpl.
    destruct (Hj attempt) as [[m Hm] Hact]; [lia|].
    rewrite Hm. simpl. rewrite Hact by exact HW. simpl.
    match goal with |- context [attemptLoop _ _ _ _ left ?a ?l ?W0] =>
      destruct (IH left a l W0 response) as [W' HW'] end; [lia|lia| | | |].
    + intros j Hjr. apply Hj. lia.
    + replace (attempt + 1 + Z.of_nat n)%Z with (attempt + Z.of_nat (S n))%Z by lia.
      exact Hr.
    + apply Hact, HW.
    + rewrite HW'. exists W'.
      replace (attempt <? maxRetries self)%Z with true by (symmetry; apply Z.ltb_lt; lia).
      reflexivity.
Qed.

(** Left to itself, the loop changes nothing in the world but the log. *)
Lemma attemptLoop_frame left :
  undisturbed net →
  ∀ attempt lastError W,
    let W' := (attemptLoop self connectionId net config left attempt lastError W).2 in
    mgr W' = mgr W ∧ procs W' = procs W ∧ pending W' = pending W
    ∧ clock W' = clock W ∧ outcomes W' = outcomes W ∧ files W' = files W.
Proof.
  intros Hq. induction left as [|left IH]; intros attempt lastError W; simpl; [done|].
  rewrite Hq. destruct (reply (net attempt)) as [response|message]; simpl; [done|].
  destruct (isConnected (mgr W) connectionId); simpl; [|done].
  match goal with |- context [attemptLoop _ _ _ _ left ?a ?l ?W0] =>
    specialize (IH a l W0);
    destruct (attemptLoop self connectionId net config left a l W0) as [[r effects] W1] end.
  simpl in *. exact IH.
Qed.

End ForwarderMore.

(** X15. The first answer ends the forward, whatever its status code.  When
    attempts [1 .. k - 1] fail with the connection still active and attempt
    [k] gets a response, that response is returned as it is after exactly
    [k] calls, with the pauses of 1 s, 2 s, ... between them; a 4xx or 5xx
    answer is not retried. *)
Theorem forward_returns_first_response (self : ProxyHandler) (connectionId : string)
    (requestConfig : RequestConfig) (net : Transport) (W : World)
    (k : Z) (response : Response) :
  isConnected (mgr W) connectionId = true →
  (1 <= k <= maxRetries self)%Z →
  (∀ j, 1 <= j < k → fails net j ∧ staysActive connectionId net j)%Z →
  reply (net k) = inl response →
  ∃ effects W',
    handleRequest self connectionId requestConfig net W
      = (Returned response, effects, W')
    ∧ effects = backoff {| ax_timeout := timeout self; ax_anyStatusValid := true;
                           ax_request := requestConfig |} 1 (Z.to_nat k)
    ∧ calls effects = Z.to_nat k.
Proof.
  intros HW Hk Hbefore Hr. unfold handleRequest. rewrite HW. simpl.
  destruct (attemptLoop_answer self connectionId net
              {| ax_timeout := timeout self; ax_anyStatusValid := true;
                 ax_request := requestConfig |}
              (Z.to_nat (k - 1)) (Z.to_nat (maxRetries self)) 1%Z None W response)
    as [W' HW']; try lia.
  - intros j Hj. apply Hbefore. lia.
  - replace (1 + Z.of_nat (Z.to_nat (k - 1)))%Z with k by lia. exact Hr.
  - exact HW.
  - replace (S (Z.to_nat (k - 1))) with (Z.to_nat k) in HW' by lia.
    eexists _, W'. split; [exact HW'|]. split; [reflexivity|]. apply calls_backoff.
Qed.

Lemma forward_returns_first_response_witness :
  ∃ W', handleRequest (newProxyHandler defaultEnv) "site-a"
          (prepare getOk (VStr "https://example.test/ok")) unavailable siteUp
        = (Returned {| status := 503; statusText := "Service Unavailable";
                       headers := [("Connection", "close"); ("x-upstream", "a")];
                       data := VStr "busy" |},
           [NetCall siteConfig], W').
Proof.
  destruct (forward_returns_first_response (newProxyHandler defaultEnv) "site-a"
              (prepare getOk (VStr "https://example.test/ok")) unavailable siteUp 1
              {| status := 503; statusText := "Service Unavailable";
                 headers := [("Connection", "close"); ("x-upstream", "a")];
                 data := VStr "busy" |})
    as (effects & W' & H & -> & _).
  - vm_compute. reflexivity.
  - simpl. lia.
  - intros j Hj. lia.
  - reflexivity.
  - exists W'. exact H.
Defined.

(** X16. Forwarding never acts on the manager.  When nothing else happens
    while a request is in flight, then on every path through the middleware
    (a 400, an answer, retries, a failure) the manager, the processes, the
    outstanding callbacks, the clock and the settled starts are afterwards
    what they were: the forwarder starts, stops and reconnects nothing. *)
Theorem forward_leaves_manager_alone (validURL : jsval → bool) (self : ProxyHandler)
    (connectionId : string) (req : Request) (net : Transport) (W : World) :
  undisturbed net →
  let W' := (createMiddleware validURL self connectionId req net W).2 in
  mgr W' = mgr W ∧ procs W' = procs W ∧ pending W' = pending W
  ∧ clock W' = clock W ∧ outcomes W' = outcomes W ∧ files W' = files W.
Proof.
  intros Hq. unfold createMiddleware.
  destruct (truthy _); simpl; [|done]. destruct (validURL _); simpl; [|done].
  unfold handleRequest. destruct (isConnected (mgr W) connectionId); simpl; [|done].
  match goal with |- context [attemptLoop ?s ?i ?n ?c ?l ?a ?e ?W0] =>
    pose proof (attemptLoop_frame s i n c l Hq a e W0) as Hf;
    destruct (attemptLoop s i n c l a e W0) as [[[response|message] effects] W1] end;
    simpl in *; exact Hf.
Qed.

Lemma forward_leaves_manager_alone_witness :
  let W' := (createMiddleware (λ _, true) (newProxyHandler defaultEnv) "site-a"
               getOk refused siteUp).2 in
  mgr W' = mgr siteUp ∧ procs W' = procs siteUp ∧ pending W' = pending siteUp.
Proof.
  intros W'.
  destruct (forward_leaves_manager_alone (λ _, true) (newProxyHandler defaultEnv)
              "site-a" getOk refused siteUp) as (H1 & H2 & H3 & _).
  - intros k W0. reflexivity.
  - split; [exact H1|]. split; [exact H2|exact H3].
Defined.

(** The one configuration every call of the middleware is made with. *)
Lemma createMiddleware_config validURL self connectionId req net W config :
  NetCall config ∈ (createMiddleware validURL self connectionId req net W).1.2 →
  config = {| ax_timeout := timeout self; ax_anyStatusValid := true;
              ax_request := prepare req (js_or (prop (req_query req) "url")
                                               (prop (req_body req) "url")) |}.
Proof.
  unfold createMiddleware.
  destruct (truthy _); simpl; [|intros H; by apply elem_of_nil in H].
  destruct (validURL _); simpl; [|intros H; by apply elem_of_nil in H].
  unfold handleRequest.
  destruct (isConnected (mgr W) connectionId); simpl;
    [|intros H; by apply elem_of_nil in H].
  match goal with |- context [attemptLoop ?s ?i ?n ?c ?l ?a ?e ?W0] =>
    pose proof (attemptLoop_effects s i n c l a e W0 (NetCall config)) as Heff;
    destruct (attemptLoop s i n c l a e W0) as [[[response|message] effects] W'] end;
    simpl in *; intros H; destruct (Heff H) as [Heq|[ms Heq]];
    solve [by inversion Heq].
Qed.

(** X17. What an outbound call carries besides what is stripped.  Every call
    the middleware makes uses the handler's timeout, accepts every status,
    and keeps the inbound method and body; its target is the query's [url]
    when that is truthy and the body's [url] otherwise; every header but
    [host] and [content-length] and every query parameter but [url] is
    passed on unchanged (a [url] in the body stays in the body). *)
Theorem outbound_call_contents (validURL : jsval → bool) (self : ProxyHandler)
    (connectionId : string) (req : Request) (net : Transport) (W : World)
    (config : AxiosConfig) :
  NetCall config ∈ (createMiddleware validURL self connectionId req net W).1.2 →
  ax_timeout config = timeout self
  ∧ ax_anyStatusValid config = true
  ∧ rc_method (ax_request config) = req_method req
  ∧ rc_data (ax_request config) = req_body req
  ∧ rc_url (ax_request config)
    = (if truthy (prop (req_query req) "url") then prop (req_query req) "url"
       else prop (req_body req) "url")
  ∧ (∀ k, k ≠ "host" → k ≠ "content-length" →
          rc_headers (ax_request config) !! k = req_headers req !! k)
  ∧ (∀ k, k ≠ "url" → rc_params (ax_request config) !! k = req_query req !! k).
Proof.
  intros H. rewrite (createMiddleware_config _ _ _ _ _ _ _ H). simpl.
  repeat split.
  - intros k H1 H2. by rewrite !lookup_delete_ne.
  - intros k H1. by rewrite lookup_delete_ne.
Qed.

Lemma outbound_call_contents_witness :
  ∃ config,
    (createMiddleware (λ _, true) (newProxyHandler defaultEnv) "site-a" twoTargets
       okAtOnce siteUp).1.2 = [NetCall config]
    ∧ rc_url (ax_request config) = VStr "https://example.test/q"
    ∧ rc_data (ax_request config) !! "url" = Some (VStr "https://example.test/b")
    ∧ rc_headers (ax_request config) !! "x-trace" = Some "7"
    ∧ rc_params (ax_request config) !! "page" = Some (VStr "2").
Proof.
  set (config := {| ax_timeout := 30000; ax_anyStatusValid := true;
                    ax_request := prepare twoTargets (VStr "https://example.test/q") |}).
  assert (Hrun : (createMiddleware (λ _, true) (newProxyHandler defaultEnv) "site-a"
                    twoTargets okAtOnce siteUp).1.2 = [NetCall config])
    by (vm_compute; reflexivity).
  exists config. split; [exact Hrun|].
  destruct (outbound_call_contents (λ _, true) (newProxyHandler defaultEnv) "site-a"
              twoTargets okAtOnce siteUp config)
    as (_ & _ & _ & Hd & Hu & Hh & Hp).
  { rewrite Hrun. apply list_elem_of_here. }
  split; [reflexivity|]. split; [rewrite Hd; vm_compute; reflexivity|].
  split; [rewrite Hh by discriminate; vm_compute; reflexivity|].
  rewrite Hp by discriminate. vm_compute. reflexivity.
Defined.

(** X18. A target that [new URL] rejects is answered with 400 "Invalid URL
    format" before the connection is looked at: the answer is the same
    whether the connection is active or not, no call is made and the world
    is untouched. *)
Theorem invalid_target_rejected (validURL : jsval → bool) (self : ProxyHandler)
    (connectionId : string) (req : Request) (net : Transport) (W : World) :
  truthy (js_or (prop (req_query req) "url") (prop (req_body req) "url")) = true →
  validURL (js_or (prop (req_query req) "url") (prop (req_body req) "url")) = false →
  createMiddleware validURL self connectionId req net W = (invalidUrl, [], W)
  ∧ code invalidUrl = 400%Z
  ∧ payload invalidUrl = [("error", JStr "Invalid URL format")].
Proof.
  intros Ht Hv. unfold createMiddleware. by rewrite Ht, Hv.
Qed.

Lemma invalid_target_rejected_witness :
  createMiddleware (λ _, false) (newProxyHandler defaultEnv) "site-a" getOk
    okAtOnce (boot configured)
  = (invalidUrl, [], boot configured).
Proof.
  apply (invalid_target_rejected (λ _, false) (newProxyHandler defaultEnv) "site-a"
           getOk okAtOnce (boot configured)); vm_compute; reflexivity.
Defined.

(** X19. An upstream answer is relayed with its own status code, also a 4xx
    or 5xx one, and with its headers in their order except those whose
    name, in any letter case, is [transfer-encoding], [connection] or
    [keep-alive]; the payload names the connection and carries the answer. *)
Theorem answer_relayed (validURL : jsval → bool) (self : ProxyHandler)
    (connectionId : string) (req : Request) (net : Transport) (W : World)
    (response : Response) (effects : list Effect) (W' : World) :
  truthy (js_or (prop (req_query req) "url") (prop (req_body req) "url")) = true →
  validURL (js_or (prop (req_query req) "url") (prop (req_body req) "url")) = true →
  handleRequest self connectionId
    (prepare req (js_or (prop (req_query req) "url") (prop (req_body req) "url")))
    net W = (Returned response, effects, W') →
  ∃ reply,
    createMiddleware validURL self connectionId req net W = (reply, effects, W')
    ∧ code reply = status response
    ∧ payload reply = [("success", JBool true);
                       ("vpnConnection", JStr connectionId);
                       ("response", JResponse response)]
    ∧ (∀ k v, (k, v) ∈ headersSet reply
              ↔ (k, v) ∈ headers response ∧ toLowerCase k ∉ hopHeaders)
    ∧ headersSet reply `sublist_of` headers response.
Proof.
  intros Ht Hv Hh. exists (forwarded connectionId response).
  split; [unfold createMiddleware; by rewrite Ht, Hv, Hh|].
  split; [reflexivity|]. split; [by destruct response|]. split.
  - intros k v. unfold forwarded, relayedHeaders. simpl.
    rewrite list_elem_of_filter. simpl. rewrite negb_True, bool_decide_spec.
    tauto.
  - apply sublist_filter.
Qed.

Lemma answer_relayed_witness :
  ∃ reply W',
    createMiddleware (λ _, true) (newProxyHandler defaultEnv) "site-a" getOk
      unavailable siteUp = (reply, [NetCall siteConfig], W')
    ∧ code reply = 503%Z
    ∧ headersSet reply = [("x-upstream", "a")].
Proof.
  destruct (handleRequest (newProxyHandler defaultEnv) "site-a"
              (prepare getOk (js_or (prop (req_query getOk) "url")
                                    (prop (req_body getOk) "url")))
              unavailable siteUp) as [[r effects] W'] eqn:Hh.
  assert (Hr : r = Returned {| status := 503; statusText := "Service Unavailable";
                               headers := [("Connection", "close"); ("x-upstream", "a")];
                               data := VStr "busy" |}).
  { apply (f_equal (λ x, x.1.1)) in Hh. simpl in Hh. rewrite <- Hh.
    vm_compute. reflexivity. }
  assert (He : effects = [NetCall siteConfig]).
  { apply (f_equal (λ x, x.1.2)) in Hh. simpl in Hh. rewrite <- Hh.
    vm_compute. reflexivity. }
  subst r effects.
  destruct (answer_relayed (λ _, true) (newProxyHandler defaultEnv) "site-a" getOk
              unavailable siteUp _ _ _ eq_refl eq_refl Hh)
    as (reply & H1 & H2 & _ & H3 & _).
  exists reply, W'. split; [exact H1|]. split; [exact H2|].
  assert (Hreply : reply = forwarded "site-a"
            {| status := 503; statusText := "Service Unavailable";
               headers := [("Connection", "close"); ("x-upstream", "a")];
               data := VStr "busy" |}).
  { unfold createMiddleware in H1. change (truthy _) with true in H1.
    cbn [negb] in H1. cbv beta iota in H1. rewrite Hh in H1. by inversion H1. }
  rewrite Hreply. vm_compute. reflexivity.
Defined.

(** X20. The retry maximum and the request timeout are never zero: an unset,
    unparsable or zero [MAX_RETRIES] gives 3 and such a [REQUEST_TIMEOUT]
    gives 30000, every other value is taken as it is (a negative one too). *)
Theorem handler_settings (env : Env) :
  maxRetries (newProxyHandler env) ≠ 0%Z
  ∧ timeout (newProxyHandler env) ≠ 0%Z
  ∧ (MAX_RETRIES env = None ∨ MAX_RETRIES env = Some 0%Z →
       maxRetries (newProxyHandler env) = 3%Z)
  ∧ (∀ n, MAX_RETRIES env = Some n → n ≠ 0%Z → maxRetries (newProxyHandler env) = n)
  ∧ (REQUEST_TIMEOUT env = None ∨ REQUEST_TIMEOUT env = Some 0%Z →
       timeout (newProxyHandler env) = 30000%Z)
  ∧ (∀ n, REQUEST_TIMEOUT env = Some n → n ≠ 0%Z → timeout (newProxyHandler env) = n).
Proof.
  unfold newProxyHandler. simpl.
  split; [by apply or_default_nonzero|]. split; [by apply or_default_nonzero|].
  unfold or_default. repeat split.
  - by intros [-> | ->].
  - intros n -> Hn. by rewrite (proj2 (Z.eqb_neq n 0) Hn).
  - by intros [-> | ->].
  - intros n -> Hn. by rewrite (proj2 (Z.eqb_neq n 0) Hn).
Qed.

Lemma handler_settings_witness :
  let env := {| NODE_ENV := None; REQUEST_TIMEOUT := Some 0%Z;
                MAX_RETRIES := Some (-2)%Z |} in
  maxRetries (newProxyHandler env) = (-2)%Z
  ∧ timeout (newProxyHandler env) = 30000%Z.
Proof.
  intros env.
  destruct (handler_settings env) as (_ & _ & _ & Hm & Ht & _).
  split; [apply Hm; [reflexivity|lia]|apply Ht; by right].
Defined.

(** X21. With a retry maximum that is not positive the forwarder makes no
    call at all on an active connection: the loop body never runs and the
    forward fails reading [lastError.message]. *)
Theorem forward_without_attempts (self : ProxyHandler) (connectionId : string)
    (requestConfig : RequestConfig) (net : Transport) (W : World) :
  (maxRetries self <= 0)%Z →
  isConnected (mgr W) connectionId = true →
  handleRequest self connectionId requestConfig net W = (Threw undefinedMessage, [], W).
Proof.
  intros Hm HW. unfold handleRequest. rewrite HW. simpl.
  by rewrite Z2Nat.nonpos.
Qed.

Lemma forward_without_attempts_witness :
  handleRequest {| timeout := 30000; maxRetries := -1 |} "site-a"
    (prepare getOk (VStr "https://example.test/ok")) refused siteUp
  = (Threw undefinedMessage, [], siteUp).
Proof.
  apply (forward_without_attempts {| timeout := 30000; maxRetries := -1 |} "site-a"
           (prepare getOk (VStr "https://example.test/ok")) refused siteUp).
  - simpl. lia.
  - vm_compute. reflexivity.
Defined.

(** * The start route *)

(** X22. The [/vpn/start] route goes on to [startVPN] exactly with a truthy
    connection id and a protocol that is ["tcp"] or ["udp"]: the one the body
    names, or ["tcp"] when the body names none; for these the configuration
    file is the one named after the protocol.  Everything else, a [null]
    protocol included, is answered with a 400. *)
Theorem start_request_checked (body : gmap string jsval) (connectionId : jsval)
    (protocol : string) :
  (checkStartRequest body = inr (connectionId, protocol) →
     connectionId = prop body "connectionId"
     ∧ truthy connectionId = true
     ∧ (protocol = "tcp" ∨ protocol = "udp")
     ∧ ((prop body "protocol" = VUndefined ∧ protocol = "tcp")
        ∨ prop body "protocol" = VStr protocol)
     ∧ configFile protocol = "vpn-" +:+ protocol +:+ ".ovpn")
  ∧ (truthy (prop body "connectionId") = true →
     (prop body "protocol" = VUndefined ∧ protocol = "tcp")
     ∨ (prop body "protocol" = VStr protocol ∧ (protocol = "tcp" ∨ protocol = "udp")) →
     checkStartRequest body = inr (prop body "connectionId", protocol))
  ∧ (checkStartRequest body = inl connectionRequired
     ∨ checkStartRequest body = inl protocolInvalid
     ∨ ∃ p, checkStartRequest body = inr (prop body "connectionId", p)).
Proof.
  unfold checkStartRequest. split; [|split].
  - destruct (truthy (prop body "connectionId")) eqn:Ht; simpl; [|discriminate].
    assert (Hin : ∀ p : string, bool_decide (p ∈ ["tcp"; "udp"]) = true →
                    p = "tcp" ∨ p = "udp").
    { intros p Hp. apply bool_decide_eq_true in Hp.
      apply elem_of_cons in Hp as [->|Hp]; [by left|].
      apply list_elem_of_singleton in Hp. by right. }
    destruct (prop body "protocol") as [| | | |p|] eqn:Hp; simpl; try discriminate.
    + intros H. inversion H; subst. repeat split; try done; left; done.
    + destruct (bool_decide (p ∈ ["tcp"; "udp"])) eqn:Hd; [|discriminate].
      intros H. inversion H; subst. destruct (Hin _ Hd) as [->| ->];
        repeat split; try done; try (by left); by right.
  - intros Ht H. rewrite Ht. simpl.
    destruct H as [[-> ->]|[-> [-> | ->]]]; reflexivity.
  - destruct (truthy (prop body "connectionId")); simpl; [|by left].
    destruct (prop body "protocol") as [| | | |p|]; simpl; eauto.
    destruct (bool_decide (p ∈ ["tcp"; "udp"])); eauto.
Qed.

Lemma start_request_checked_witness :
  checkStartRequest {[ "connectionId" := VStr "custom-connection";
                       "protocol" := VStr "udp" ]}
  = inr (VStr "custom-connection", "udp")
  ∧ configFile "udp" = "vpn-udp.ovpn"
  ∧ checkStartRequest {[ "connectionId" := VStr "custom-connection" ]}
    = inr (VStr "custom-connection", "tcp")
  ∧ checkStartRequest {[ "connectionId" := VStr "custom-connection";
                         "protocol" := VNull ]}
    = inl protocolInvalid.
Proof.
  assert (H : checkStartRequest {[ "connectionId" := VStr "custom-connection";
                                   "protocol" := VStr "udp" ]}
              = inr (VStr "custom-connection", "udp")) by (vm_compute; reflexivity).
  split; [exact H|].
  destruct (start_request_checked {[ "connectionId" := VStr "custom-connection";
                                     "protocol" := VStr "udp" ]}
              (VStr "custom-connection") "udp") as (H1 & _ & _).
  destruct (H1 H) as (_ & _ & _ & _ & Hc).
  split; [exact Hc|].
  destruct (start_request_checked {[ "connectionId" := VStr "custom-connection" ]}
              (VStr "custom-connection") "tcp") as (_ & H2 & _).
  split; [|vm_compute; reflexivity].
  apply H2; [vm_compute; reflexivity|]. left. split; [vm_compute; reflexivity|reflexivity].
Defined.
